(** * converter_core.py: structure inference over a spreadsheet grid

    A shallow embedding of [scripts/python/converter_core.py]: the cell and
    row wrappers ([CellData], [RowData]), the merge index of
    [ExcelSheetData], the row classifier and block accumulation of
    [HtmlConverter], the table reconstruction, and the header derivation of
    [SqlConverter].

    Conventions.
    - A Python [str] is a list of Unicode code points ([list N]).
    - A Python [int] is a [Z]; [//] is [Z.div], [max]/[min] are [Z.max]/[Z.min].
    - A coordinate string such as ["B7"] is the pair (column, row): for the
      columns a worksheet can have, [get_column_letter] is injective and
      does not raise, so the pair and the string carry the same information.
    - Mutable instance fields ([content_elements], [images_used]) and the
      local buffers of [convert] are threaded through an explicit state. *)

From Stdlib Require Import ZArith NArith Ascii String Lia.
From stdpp Require Import base option list gmap sets.

Local Open Scope Z_scope.

(** ** Python text primitives *)

Module Py.

Abbreviation str := (list N).

(** A literal: every byte of the Rocq string is one code point (ASCII
    literals only). *)
Fixpoint lit (s : string) : str :=
  match s with
  | EmptyString => []
  | String a s' => N_of_ascii a :: lit s'
  end.

Definition between (lo hi c : N) : bool := (N.leb lo c && N.leb c hi)%bool.

(** [str.isspace] on one code point, which is also what [\s] matches in a
    [str] pattern. *)
Definition isspace (c : N) : bool :=
  (between 9 13 c || between 28 32 c || N.eqb c 133 || N.eqb c 160
   || N.eqb c 5760 || between 8192 8202 c || N.eqb c 8232 || N.eqb c 8233
   || N.eqb c 8239 || N.eqb c 8287 || N.eqb c 12288)%bool.

Definition is_ascii_upper (c : N) : bool := between 65 90 c.
Definition is_ascii_lower (c : N) : bool := between 97 122 c.
Definition is_ascii_digit (c : N) : bool := between 48 57 c.

(** *** The Unicode character database

    [str.lower], [str.upper] and the class [\d] of [re] read the character
    database of the interpreter.  The tables are those of Unicode 14.0.0,
    the version CPython 3.11 carries.  A pair [(first, last)] stands for
    the code points from [first] to [last]. *)

Definition in_ranges (ranges : list (N * N)) (c : N) : bool :=
  existsb (fun r => between r.1 r.2 c) ranges.

(** [str.isdecimal]: the decimal digits of every script (category Nd). *)
Definition decimal_ranges : list (N * N) :=
  [(0x30, 0x39); (0x660, 0x669); (0x6F0, 0x6F9); (0x7C0, 0x7C9);
   (0x966, 0x96F); (0x9E6, 0x9EF); (0xA66, 0xA6F); (0xAE6, 0xAEF);
   (0xB66, 0xB6F); (0xBE6, 0xBEF); (0xC66, 0xC6F); (0xCE6, 0xCEF);
   (0xD66, 0xD6F); (0xDE6, 0xDEF); (0xE50, 0xE59); (0xED0, 0xED9);
   (0xF20, 0xF29); (0x1040, 0x1049); (0x1090, 0x1099); (0x17E0, 0x17E9);
   (0x1810, 0x1819); (0x1946, 0x194F); (0x19D0, 0x19D9); (0x1A80, 0x1A89);
   (0x1A90, 0x1A99); (0x1B50, 0x1B59); (0x1BB0, 0x1BB9); (0x1C40, 0x1C49);
   (0x1C50, 0x1C59); (0xA620, 0xA629); (0xA8D0, 0xA8D9); (0xA900, 0xA909);
   (0xA9D0, 0xA9D9); (0xA9F0, 0xA9F9); (0xAA50, 0xAA59); (0xABF0, 0xABF9);
   (0xFF10, 0xFF19); (0x104A0, 0x104A9); (0x10D30, 0x10D39);
   (0x11066, 0x1106F); (0x110F0, 0x110F9); (0x11136, 0x1113F);
   (0x111D0, 0x111D9); (0x112F0, 0x112F9); (0x11450, 0x11459);
   (0x114D0, 0x114D9); (0x11650, 0x11659); (0x116C0, 0x116C9);
   (0x11730, 0x11739); (0x118E0, 0x118E9); (0x11950, 0x11959);
   (0x11C50, 0x11C59); (0x11D50, 0x11D59); (0x11DA0, 0x11DA9);
   (0x16A60, 0x16A69); (0x16AC0, 0x16AC9); (0x16B50, 0x16B59);
   (0x1D7CE, 0x1D7FF); (0x1E140, 0x1E149); (0x1E2F0, 0x1E2F9);
   (0x1E950, 0x1E959); (0x1FBF0, 0x1FBF9)]%N.
Definition isdecimal (c : N) : bool := in_ranges decimal_ranges c.

(** The properties Cased and Case_Ignorable, which [str.lower] consults
    around a capital sigma. *)
Definition cased_ranges : list (N * N) :=
  [(0x41, 0x5A); (0x61, 0x7A); (0xAA, 0xAA); (0xB5, 0xB5); (0xBA, 0xBA);
   (0xC0, 0xD6); (0xD8, 0xF6); (0xF8, 0x1BA); (0x1BC, 0x1BF); (0x1C4, 0x293);
   (0x295, 0x2B8); (0x2C0, 0x2C1); (0x2E0, 0x2E4); (0x345, 0x345);
   (0x370, 0x373); (0x376, 0x377); (0x37A, 0x37D); (0x37F, 0x37F);
   (0x386, 0x386); (0x388, 0x38A); (0x38C, 0x38C); (0x38E, 0x3A1);
   (0x3A3, 0x3F5); (0x3F7, 0x481); (0x48A, 0x52F); (0x531, 0x556);
   (0x560, 0x588); (0x10A0, 0x10C5); (0x10C7, 0x10C7); (0x10CD, 0x10CD);
   (0x10D0, 0x10FA); (0x10FD, 0x10FF); (0x13A0, 0x13F5); (0x13F8, 0x13FD);
   (0x1C80, 0x1C88); (0x1C90, 0x1CBA); (0x1CBD, 0x1CBF); (0x1D00, 0x1DBF);
   (0x1E00, 0x1F15); (0x1F18, 0x1F1D); (0x1F20, 0x1F45); (0x1F48, 0x1F4D);
   (0x1F50, 0x1F57); (0x1F59, 0x1F59); (0x1F5B, 0x1F5B); (0x1F5D, 0x1F5D);
   (0x1F5F, 0x1F7D); (0x1F80, 0x1FB4); (0x1FB6, 0x1FBC); (0x1FBE, 0x1FBE);
   (0x1FC2, 0x1FC4); (0x1FC6, 0x1FCC); (0x1FD0, 0x1FD3); (0x1FD6, 0x1FDB);
   (0x1FE0, 0x1FEC); (0x1FF2, 0x1FF4); (0x1FF6, 0x1FFC); (0x2071, 0x2071);
   (0x207F, 0x207F); (0x2090, 0x209C); (0x2102, 0x2102); (0x2107, 0x2107);
   (0x210A, 0x2113); (0x2115, 0x2115); (0x2119, 0x211D); (0x2124, 0x2124);
   (0x2126, 0x2126); (0x2128, 0x2128); (0x212A, 0x212D); (0x212F, 0x2134);
   (0x2139, 0x2139); (0x213C, 0x213F); (0x2145, 0x2149); (0x214E, 0x214E);
   (0x2160, 0x217F); (0x2183, 0x2184); (0x24B6, 0x24E9); (0x2C00, 0x2CE4);
   (0x2CEB, 0x2CEE); (0x2CF2, 0x2CF3); (0x2D00, 0x2D25); (0x2D27, 0x2D27);
   (0x2D2D, 0x2D2D); (0xA640, 0xA66D); (0xA680, 0xA69D); (0xA722, 0xA787);
   (0xA78B, 0xA78E); (0xA790, 0xA7CA); (0xA7D0, 0xA7D1); (0xA7D3, 0xA7D3);
   (0xA7D5, 0xA7D9); (0xA7F5, 0xA7F6); (0xA7F8, 0xA7FA); (0xAB30, 0xAB5A);
   (0xAB5C, 0xAB68); (0xAB70, 0xABBF); (0xFB00, 0xFB06); (0xFB13, 0xFB17);
   (0xFF21, 0xFF3A); (0xFF41, 0xFF5A); (0x10400, 0x1044F); (0x104B0, 0x104D3);
   (0x104D8, 0x104FB); (0x10570, 0x1057A); (0x1057C, 0x1058A);
   (0x1058C, 0x10592); (0x10594, 0x10595); (0x10597, 0x105A1);
   (0x105A3, 0x105B1); (0x105B3, 0x105B9); (0x105BB, 0x105BC);
   (0x10780, 0x10780); (0x10783, 0x10785); (0x10787, 0x107B0);
   (0x107B2, 0x107BA); (0x10C80, 0x10CB2); (0x10CC0, 0x10CF2);
   (0x118A0, 0x118DF); (0x16E40, 0x16E7F); (0x1D400, 0x1D454);
   (0x1D456, 0x1D49C); (0x1D49E, 0x1D49F); (0x1D4A2, 0x1D4A2);
   (0x1D4A5, 0x1D4A6); (0x1D4A9, 0x1D4AC); (0x1D4AE, 0x1D4B9);
   (0x1D4BB, 0x1D4BB); (0x1D4BD, 0x1D4C3); (0x1D4C5, 0x1D505);
   (0x1D507, 0x1D50A); (0x1D50D, 0x1D514); (0x1D516, 0x1D51C);
   (0x1D51E, 0x1D539); (0x1D53B, 0x1D53E); (0x1D540, 0x1D544);
   (0x1D546, 0x1D546); (0x1D54A, 0x1D550); (0x1D552, 0x1D6A5);
   (0x1D6A8, 0x1D6C0); (0x1D6C2, 0x1D6DA); (0x1D6DC, 0x1D6FA);
   (0x1D6FC, 0x1D714); (0x1D716, 0x1D734); (0x1D736, 0x1D74E);
   (0x1D750, 0x1D76E); (0x1D770, 0x1D788); (0x1D78A, 0x1D7A8);
   (0x1D7AA, 0x1D7C2); (0x1D7C4, 0x1D7CB); (0x1DF00, 0x1DF09);
   (0x1DF0B, 0x1DF1E); (0x1E900, 0x1E943); (0x1F130, 0x1F149);
   (0x1F150, 0x1F169); (0x1F170, 0x1F189)]%N.
Definition cased (c : N) : bool := in_ranges cased_ranges c.

Definition case_ignorable_ranges : list (N * N) :=
  [(0x27, 0x27); (0x2E, 0x2E); (0x3A, 0x3A); (0x5E, 0x5E); (0x60, 0x60);
   (0xA8, 0xA8); (0xAD, 0xAD); (0xAF, 0xAF); (0xB4, 0xB4); (0xB7, 0xB8);
   (0x2B0, 0x36F); (0x374, 0x375); (0x37A, 0x37A); (0x384, 0x385);
   (0x387, 0x387); (0x483, 0x489); (0x559, 0x559); (0x55F, 0x55F);
   (0x591, 0x5BD); (0x5BF, 0x5BF); (0x5C1, 0x5C2); (0x5C4, 0x5C5);
   (0x5C7, 0x5C7); (0x5F4, 0x5F4); (0x600, 0x605); (0x610, 0x61A);
   (0x61C, 0x61C); (0x640, 0x640); (0x64B, 0x65F); (0x670, 0x670);
   (0x6D6, 0x6DD); (0x6DF, 0x6E8); (0x6EA, 0x6ED); (0x70F, 0x70F);
   (0x711, 0x711); (0x730, 0x74A); (0x7A6, 0x7B0); (0x7EB, 0x7F5);
   (0x7FA, 0x7FA); (0x7FD, 0x7FD); (0x816, 0x82D); (0x859, 0x85B);
   (0x888, 0x888); (0x890, 0x891); (0x898, 0x89F); (0x8C9, 0x902);
   (0x93A, 0x93A); (0x93C, 0x93C); (0x941, 0x948); (0x94D, 0x94D);
   (0x951, 0x957); (0x962, 0x963); (0x971, 0x971); (0x981, 0x981);
   (0x9BC, 0x9BC); (0x9C1, 0x9C4); (0x9CD, 0x9CD); (0x9E2, 0x9E3);
   (0x9FE, 0x9FE); (0xA01, 0xA02); (0xA3C, 0xA3C); (0xA41, 0xA42);
   (0xA47, 0xA48); (0xA4B, 0xA4D); (0xA51, 0xA51); (0xA70, 0xA71);
   (0xA75, 0xA75); (0xA81, 0xA82); (0xABC, 0xABC); (0xAC1, 0xAC5);
   (0xAC7, 0xAC8); (0xACD, 0xACD); (0xAE2, 0xAE3); (0xAFA, 0xAFF);
   (0xB01, 0xB01); (0xB3C, 0xB3C); (0xB3F, 0xB3F); (0xB41, 0xB44);
   (0xB4D, 0xB4D); (0xB55, 0xB56); (0xB62, 0xB63); (0xB82, 0xB82);
   (0xBC0, 0xBC0); (0xBCD, 0xBCD); (0xC00, 0xC00); (0xC04, 0xC04);
   (0xC3C, 0xC3C); (0xC3E, 0xC40); (0xC46, 0xC48); (0xC4A, 0xC4D);
   (0xC55, 0xC56); (0xC62, 0xC63); (0xC81, 0xC81); (0xCBC, 0xCBC);
   (0xCBF, 0xCBF); (0xCC6, 0xCC6); (0xCCC, 0xCCD); (0xCE2, 0xCE3);
   (0xD00, 0xD01); (0xD3B, 0xD3C); (0xD41, 0xD44); (0xD4D, 0xD4D);
   (0xD62, 0xD63); (0xD81, 0xD81); (0xDCA, 0xDCA); (0xDD2, 0xDD4);
   (0xDD6, 0xDD6); (0xE31, 0xE31); (0xE34, 0xE3A); (0xE46, 0xE4E);
   (0xEB1, 0xEB1); (0xEB4, 0xEBC); (0xEC6, 0xEC6); (0xEC8, 0xECD);
   (0xF18, 0xF19); (0xF35, 0xF35); (0xF37, 0xF37); (0xF39, 0xF39);
   (0xF71, 0xF7E); (0xF80, 0xF84); (0xF86, 0xF87); (0xF8D, 0xF97);
   (0xF99, 0xFBC); (0xFC6, 0xFC6); (0x102D, 0x1030); (0x1032, 0x1037);
   (0x1039, 0x103A); (0x103D, 0x103E); (0x1058, 0x1059); (0x105E, 0x1060);
   (0x1071, 0x1074); (0x1082, 0x1082); (0x1085, 0x1086); (0x108D, 0x108D);
   (0x109D, 0x109D); (0x10FC, 0x10FC); (0x135D, 0x135F); (0x1712, 0x1714);
   (0x1732, 0x1733); (0x1752, 0x1753); (0x1772, 0x1773); (0x17B4, 0x17B5);
   (0x17B7, 0x17BD); (0x17C6, 0x17C6); (0x17C9, 0x17D3); (0x17D7, 0x17D7);
   (0x17DD, 0x17DD); (0x180B, 0x180F); (0x1843, 0x1843); (0x1885, 0x1886);
   (0x18A9, 0x18A9); (0x1920, 0x1922); (0x1927, 0x1928); (0x1932, 0x1932);
   (0x1939, 0x193B); (0x1A17, 0x1A18); (0x1A1B, 0x1A1B); (0x1A56, 0x1A56);
   (0x1A58, 0x1A5E); (0x1A60, 0x1A60); (0x1A62, 0x1A62); (0x1A65, 0x1A6C);
   (0x1A73, 0x1A7C); (0x1A7F, 0x1A7F); (0x1AA7, 0x1AA7); (0x1AB0, 0x1ACE);
   (0x1B00, 0x1B03); (0x1B34, 0x1B34); (0x1B36, 0x1B3A); (0x1B3C, 0x1B3C);
   (0x1B42, 0x1B42); (0x1B6B, 0x1B73); (0x1B80, 0x1B81); (0x1BA2, 0x1BA5);
   (0x1BA8, 0x1BA9); (0x1BAB, 0x1BAD); (0x1BE6, 0x1BE6); (0x1BE8, 0x1BE9);
   (0x1BED, 0x1BED); (0x1BEF, 0x1BF1); (0x1C2C, 0x1C33); (0x1C36, 0x1C37);
   (0x1C78, 0x1C7D); (0x1CD0, 0x1CD2); (0x1CD4, 0x1CE0); (0x1CE2, 0x1CE8);
   (0x1CED, 0x1CED); (0x1CF4, 0x1CF4); (0x1CF8, 0x1CF9); (0x1D2C, 0x1D6A);
   (0x1D78, 0x1D78); (0x1D9B, 0x1DFF); (0x1FBD, 0x1FBD); (0x1FBF, 0x1FC1);
   (0x1FCD, 0x1FCF); (0x1FDD, 0x1FDF); (0x1FED, 0x1FEF); (0x1FFD, 0x1FFE);
   (0x200B, 0x200F); (0x2018, 0x2019); (0x2024, 0x2024); (0x2027, 0x2027);
   (0x202A, 0x202E); (0x2060, 0x2064); (0x2066, 0x206F); (0x2071, 0x2071);
   (0x207F, 0x207F); (0x2090, 0x209C); (0x20D0, 0x20F0); (0x2C7C, 0x2C7D);
   (0x2CEF, 0x2CF1); (0x2D6F, 0x2D6F); (0x2D7F, 0x2D7F); (0x2DE0, 0x2DFF);
   (0x2E2F, 0x2E2F); (0x3005, 0x3005); (0x302A, 0x302D); (0x3031, 0x3035);
   (0x303B, 0x303B); (0x3099, 0x309E); (0x30FC, 0x30FE); (0xA015, 0xA015);
   (0xA4F8, 0xA4FD); (0xA60C, 0xA60C); (0xA66F, 0xA672); (0xA674, 0xA67D);
   (0xA67F, 0xA67F); (0xA69C, 0xA69F); (0xA6F0, 0xA6F1); (0xA700, 0xA721);
   (0xA770, 0xA770); (0xA788, 0xA78A); (0xA7F2, 0xA7F4); (0xA7F8, 0xA7F9);
   (0xA802, 0xA802); (0xA806, 0xA806); (0xA80B, 0xA80B); (0xA825, 0xA826);
   (0xA82C, 0xA82C); (0xA8C4, 0xA8C5); (0xA8E0, 0xA8F1); (0xA8FF, 0xA8FF);
   (0xA926, 0xA92D); (0xA947, 0xA951); (0xA980, 0xA982); (0xA9B3, 0xA9B3);
   (0xA9B6, 0xA9B9); (0xA9BC, 0xA9BD); (0xA9CF, 0xA9CF); (0xA9E5, 0xA9E6);
   (0xAA29, 0xAA2E); (0xAA31, 0xAA32); (0xAA35, 0xAA36); (0xAA43, 0xAA43);
   (0xAA4C, 0xAA4C); (0xAA70, 0xAA70); (0xAA7C, 0xAA7C); (0xAAB0, 0xAAB0);
   (0xAAB2, 0xAAB4); (0xAAB7, 0xAAB8); (0xAABE, 0xAABF); (0xAAC1, 0xAAC1);
   (0xAADD, 0xAADD); (0xAAEC, 0xAAED); (0xAAF3, 0xAAF4); (0xAAF6, 0xAAF6);
   (0xAB5B, 0xAB5F); (0xAB69, 0xAB6B); (0xABE5, 0xABE5); (0xABE8, 0xABE8);
   (0xABED, 0xABED); (0xFB1E, 0xFB1E); (0xFBB2, 0xFBC2); (0xFE00, 0xFE0F);
   (0xFE13, 0xFE13); (0xFE20, 0xFE2F); (0xFE52, 0xFE52); (0xFE55, 0xFE55);
   (0xFEFF, 0xFEFF); (0xFF07, 0xFF07); (0xFF0E, 0xFF0E); (0xFF1A, 0xFF1A);
   (0xFF3E, 0xFF3E); (0xFF40, 0xFF40); (0xFF70, 0xFF70); (0xFF9E, 0xFF9F);
   (0xFFE3, 0xFFE3); (0xFFF9, 0xFFFB); (0x101FD, 0x101FD); (0x102E0, 0x102E0);
   (0x10376, 0x1037A); (0x10780, 0x10785); (0x10787, 0x107B0);
   (0x107B2, 0x107BA); (0x10A01, 0x10A03); (0x10A05, 0x10A06);
   (0x10A0C, 0x10A0F); (0x10A38, 0x10A3A); (0x10A3F, 0x10A3F);
   (0x10AE5, 0x10AE6); (0x10D24, 0x10D27); (0x10EAB, 0x10EAC);
   (0x10F46, 0x10F50); (0x10F82, 0x10F85); (0x11001, 0x11001);
   (0x11038, 0x11046); (0x11070, 0x11070); (0x11073, 0x11074);
   (0x1107F, 0x11081); (0x110B3, 0x110B6); (0x110B9, 0x110BA);
   (0x110BD, 0x110BD); (0x110C2, 0x110C2); (0x110CD, 0x110CD);
   (0x11100, 0x11102); (0x11127, 0x1112B); (0x1112D, 0x11134);
   (0x11173, 0x11173); (0x11180, 0x11181); (0x111B6, 0x111BE);
   (0x111C9, 0x111CC); (0x111CF, 0x111CF); (0x1122F, 0x11231);
   (0x11234, 0x11234); (0x11236, 0x11237); (0x1123E, 0x1123E);
   (0x112DF, 0x112DF); (0x112E3, 0x112EA); (0x11300, 0x11301);
   (0x1133B, 0x1133C); (0x11340, 0x11340); (0x11366, 0x1136C);
   (0x11370, 0x11374); (0x11438, 0x1143F); (0x11442, 0x11444);
   (0x11446, 0x11446); (0x1145E, 0x1145E); (0x114B3, 0x114B8);
   (0x114BA, 0x114BA); (0x114BF, 0x114C0); (0x114C2, 0x114C3);
   (0x115B2, 0x115B5); (0x115BC, 0x115BD); (0x115BF, 0x115C0);
   (0x115DC, 0x115DD); (0x11633, 0x1163A); (0x1163D, 0x1163D);
   (0x1163F, 0x11640); (0x116AB, 0x116AB); (0x116AD, 0x116AD);
   (0x116B0, 0x116B5); (0x116B7, 0x116B7); (0x1171D, 0x1171F);
   (0x11722, 0x11725); (0x11727, 0x1172B); (0x1182F, 0x11837);
   (0x11839, 0x1183A); (0x1193B, 0x1193C); (0x1193E, 0x1193E);
   (0x11943, 0x11943); (0x119D4, 0x119D7); (0x119DA, 0x119DB);
   (0x119E0, 0x119E0); (0x11A01, 0x11A0A); (0x11A33, 0x11A38);
   (0x11A3B, 0x11A3E); (0x11A47, 0x11A47); (0x11A51, 0x11A56);
   (0x11A59, 0x11A5B); (0x11A8A, 0x11A96); (0x11A98, 0x11A99);
   (0x11C30, 0x11C36); (0x11C38, 0x11C3D); (0x11C3F, 0x11C3F);
   (0x11C92, 0x11CA7); (0x11CAA, 0x11CB0); (0x11CB2, 0x11CB3);
   (0x11CB5, 0x11CB6); (0x11D31, 0x11D36); (0x11D3A, 0x11D3A);
   (0x11D3C, 0x11D3D); (0x11D3F, 0x11D45); (0x11D47, 0x11D47);
   (0x11D90, 0x11D91); (0x11D95, 0x11D95); (0x11D97, 0x11D97);
   (0x11EF3, 0x11EF4); (0x13430, 0x13438); (0x16AF0, 0x16AF4);
   (0x16B30, 0x16B36); (0x16B40, 0x16B43); (0x16F4F, 0x16F4F);
   (0x16F8F, 0x16F9F); (0x16FE0, 0x16FE1); (0x16FE3, 0x16FE4);
   (0x1AFF0, 0x1AFF3); (0x1AFF5, 0x1AFFB); (0x1AFFD, 0x1AFFE);
   (0x1BC9D, 0x1BC9E); (0x1BCA0, 0x1BCA3); (0x1CF00, 0x1CF2D);
   (0x1CF30, 0x1CF46); (0x1D167, 0x1D169); (0x1D173, 0x1D182);
   (0x1D185, 0x1D18B); (0x1D1AA, 0x1D1AD); (0x1D242, 0x1D244);
   (0x1DA00, 0x1DA36); (0x1DA3B, 0x1DA6C); (0x1DA75, 0x1DA75);
   (0x1DA84, 0x1DA84); (0x1DA9B, 0x1DA9F); (0x1DAA1, 0x1DAAF);
   (0x1E000, 0x1E006); (0x1E008, 0x1E018); (0x1E01B, 0x1E021);
   (0x1E023, 0x1E024); (0x1E026, 0x1E02A); (0x1E130, 0x1E13D);
   (0x1E2AE, 0x1E2AE); (0x1E2EC, 0x1E2EF); (0x1E8D0, 0x1E8D6);
   (0x1E944, 0x1E94B); (0x1F3FB, 0x1F3FF); (0xE0001, 0xE0001);
   (0xE0020, 0xE007F); (0xE0100, 0xE01EF)]%N.
Definition case_ignorable (c : N) : bool := in_ranges case_ignorable_ranges c.

(** A run [(first, last, step, delta)] of a case table: the code points
    [first], [first + step], ... up to [last] are mapped to themselves plus
    [delta].  A code point in no run is mapped to itself. *)
Definition in_run (c : N) (r : N * N * N * Z) : bool :=
  let '(first, last, step, _) := r in
  (between first last c && N.eqb ((c - first) mod step) 0)%bool.
Definition shift (runs : list (N * N * N * Z)) (c : N) : N :=
  match List.find (in_run c) runs with
  | Some (_, _, _, delta) => Z.to_N (Z.of_N c + delta)
  | None => c
  end.

Definition lower_runs : list (N * N * N * Z) :=
  [(0x41, 0x5A, 1, 32%Z); (0xC0, 0xD6, 1, 32%Z); (0xD8, 0xDE, 1, 32%Z);
   (0x100, 0x12E, 2, 1%Z); (0x132, 0x136, 2, 1%Z); (0x139, 0x147, 2, 1%Z);
   (0x14A, 0x176, 2, 1%Z); (0x178, 0x178, 1, (-121)%Z);
   (0x179, 0x17D, 2, 1%Z); (0x181, 0x181, 1, 210%Z); (0x182, 0x184, 2, 1%Z);
   (0x186, 0x186, 1, 206%Z); (0x187, 0x187, 1, 1%Z); (0x189, 0x18A, 1, 205%Z);
   (0x18B, 0x18B, 1, 1%Z); (0x18E, 0x18E, 1, 79%Z); (0x18F, 0x18F, 1, 202%Z);
   (0x190, 0x190, 1, 203%Z); (0x191, 0x191, 1, 1%Z); (0x193, 0x193, 1, 205%Z);
   (0x194, 0x194, 1, 207%Z); (0x196, 0x196, 1, 211%Z);
   (0x197, 0x197, 1, 209%Z); (0x198, 0x198, 1, 1%Z); (0x19C, 0x19C, 1, 211%Z);
   (0x19D, 0x19D, 1, 213%Z); (0x19F, 0x19F, 1, 214%Z); (0x1A0, 0x1A4, 2, 1%Z);
   (0x1A6, 0x1A6, 1, 218%Z); (0x1A7, 0x1A7, 1, 1%Z); (0x1A9, 0x1A9, 1, 218%Z);
   (0x1AC, 0x1AC, 1, 1%Z); (0x1AE, 0x1AE, 1, 218%Z); (0x1AF, 0x1AF, 1, 1%Z);
   (0x1B1, 0x1B2, 1, 217%Z); (0x1B3, 0x1B5, 2, 1%Z); (0x1B7, 0x1B7, 1, 219%Z);
   (0x1B8, 0x1B8, 1, 1%Z); (0x1BC, 0x1BC, 1, 1%Z); (0x1C4, 0x1C4, 1, 2%Z);
   (0x1C5, 0x1C5, 1, 1%Z); (0x1C7, 0x1C7, 1, 2%Z); (0x1C8, 0x1C8, 1, 1%Z);
   (0x1CA, 0x1CA, 1, 2%Z); (0x1CB, 0x1DB, 2, 1%Z); (0x1DE, 0x1EE, 2, 1%Z);
   (0x1F1, 0x1F1, 1, 2%Z); (0x1F2, 0x1F4, 2, 1%Z); (0x1F6, 0x1F6, 1, (-97)%Z);
   (0x1F7, 0x1F7, 1, (-56)%Z); (0x1F8, 0x21E, 2, 1%Z);
   (0x220, 0x220, 1, (-130)%Z); (0x222, 0x232, 2, 1%Z);
   (0x23A, 0x23A, 1, 10795%Z); (0x23B, 0x23B, 1, 1%Z);
   (0x23D, 0x23D, 1, (-163)%Z); (0x23E, 0x23E, 1, 10792%Z);
   (0x241, 0x241, 1, 1%Z); (0x243, 0x243, 1, (-195)%Z);
   (0x244, 0x244, 1, 69%Z); (0x245, 0x245, 1, 71%Z); (0x246, 0x24E, 2, 1%Z);
   (0x370, 0x372, 2, 1%Z); (0x376, 0x376, 1, 1%Z); (0x37F, 0x37F, 1, 116%Z);
   (0x386, 0x386, 1, 38%Z); (0x388, 0x38A, 1, 37%Z); (0x38C, 0x38C, 1, 64%Z);
   (0x38E, 0x38F, 1, 63%Z); (0x391, 0x3A1, 1, 32%Z); (0x3A3, 0x3AB, 1, 32%Z);
   (0x3CF, 0x3CF, 1, 8%Z); (0x3D8, 0x3EE, 2, 1%Z); (0x3F4, 0x3F4, 1, (-60)%Z);
   (0x3F7, 0x3F7, 1, 1%Z); (0x3F9, 0x3F9, 1, (-7)%Z); (0x3FA, 0x3FA, 1, 1%Z);
   (0x3FD, 0x3FF, 1, (-130)%Z); (0x400, 0x40F, 1, 80%Z);
   (0x410, 0x42F, 1, 32%Z); (0x460, 0x480, 2, 1%Z); (0x48A, 0x4BE, 2, 1%Z);
   (0x4C0, 0x4C0, 1, 15%Z); (0x4C1, 0x4CD, 2, 1%Z); (0x4D0, 0x52E, 2, 1%Z);
   (0x531, 0x556, 1, 48%Z); (0x10A0, 0x10C5, 1, 7264%Z);
   (0x10C7, 0x10C7, 1, 7264%Z); (0x10CD, 0x10CD, 1, 7264%Z);
   (0x13A0, 0x13EF, 1, 38864%Z); (0x13F0, 0x13F5, 1, 8%Z);
   (0x1C90, 0x1CBA, 1, (-3008)%Z); (0x1CBD, 0x1CBF, 1, (-3008)%Z);
   (0x1E00, 0x1E94, 2, 1%Z); (0x1E9E, 0x1E9E, 1, (-7615)%Z);
   (0x1EA0, 0x1EFE, 2, 1%Z); (0x1F08, 0x1F0F, 1, (-8)%Z);
   (0x1F18, 0x1F1D, 1, (-8)%Z); (0x1F28, 0x1F2F, 1, (-8)%Z);
   (0x1F38, 0x1F3F, 1, (-8)%Z); (0x1F48, 0x1F4D, 1, (-8)%Z);
   (0x1F59, 0x1F5F, 2, (-8)%Z); (0x1F68, 0x1F6F, 1, (-8)%Z);
   (0x1F88, 0x1F8F, 1, (-8)%Z); (0x1F98, 0x1F9F, 1, (-8)%Z);
   (0x1FA8, 0x1FAF, 1, (-8)%Z); (0x1FB8, 0x1FB9, 1, (-8)%Z);
   (0x1FBA, 0x1FBB, 1, (-74)%Z); (0x1FBC, 0x1FBC, 1, (-9)%Z);
   (0x1FC8, 0x1FCB, 1, (-86)%Z); (0x1FCC, 0x1FCC, 1, (-9)%Z);
   (0x1FD8, 0x1FD9, 1, (-8)%Z); (0x1FDA, 0x1FDB, 1, (-100)%Z);
   (0x1FE8, 0x1FE9, 1, (-8)%Z); (0x1FEA, 0x1FEB, 1, (-112)%Z);
   (0x1FEC, 0x1FEC, 1, (-7)%Z); (0x1FF8, 0x1FF9, 1, (-128)%Z);
   (0x1FFA, 0x1FFB, 1, (-126)%Z); (0x1FFC, 0x1FFC, 1, (-9)%Z);
   (0x2126, 0x2126, 1, (-7517)%Z); (0x212A, 0x212A, 1, (-8383)%Z);
   (0x212B, 0x212B, 1, (-8262)%Z); (0x2132, 0x2132, 1, 28%Z);
   (0x2160, 0x216F, 1, 16%Z); (0x2183, 0x2183, 1, 1%Z);
   (0x24B6, 0x24CF, 1, 26%Z); (0x2C00, 0x2C2F, 1, 48%Z);
   (0x2C60, 0x2C60, 1, 1%Z); (0x2C62, 0x2C62, 1, (-10743)%Z);
   (0x2C63, 0x2C63, 1, (-3814)%Z); (0x2C64, 0x2C64, 1, (-10727)%Z);
   (0x2C67, 0x2C6B, 2, 1%Z); (0x2C6D, 0x2C6D, 1, (-10780)%Z);
   (0x2C6E, 0x2C6E, 1, (-10749)%Z); (0x2C6F, 0x2C6F, 1, (-10783)%Z);
   (0x2C70, 0x2C70, 1, (-10782)%Z); (0x2C72, 0x2C72, 1, 1%Z);
   (0x2C75, 0x2C75, 1, 1%Z); (0x2C7E, 0x2C7F, 1, (-10815)%Z);
   (0x2C80, 0x2CE2, 2, 1%Z); (0x2CEB, 0x2CED, 2, 1%Z);
   (0x2CF2, 0x2CF2, 1, 1%Z); (0xA640, 0xA66C, 2, 1%Z);
   (0xA680, 0xA69A, 2, 1%Z); (0xA722, 0xA72E, 2, 1%Z);
   (0xA732, 0xA76E, 2, 1%Z); (0xA779, 0xA77B, 2, 1%Z);
   (0xA77D, 0xA77D, 1, (-35332)%Z); (0xA77E, 0xA786, 2, 1%Z);
   (0xA78B, 0xA78B, 1, 1%Z); (0xA78D, 0xA78D, 1, (-42280)%Z);
   (0xA790, 0xA792, 2, 1%Z); (0xA796, 0xA7A8, 2, 1%Z);
   (0xA7AA, 0xA7AA, 1, (-42308)%Z); (0xA7AB, 0xA7AB, 1, (-42319)%Z);
   (0xA7AC, 0xA7AC, 1, (-42315)%Z); (0xA7AD, 0xA7AD, 1, (-42305)%Z);
   (0xA7AE, 0xA7AE, 1, (-42308)%Z); (0xA7B0, 0xA7B0, 1, (-42258)%Z);
   (0xA7B1, 0xA7B1, 1, (-42282)%Z); (0xA7B2, 0xA7B2, 1, (-42261)%Z);
   (0xA7B3, 0xA7B3, 1, 928%Z); (0xA7B4, 0xA7C2, 2, 1%Z);
   (0xA7C4, 0xA7C4, 1, (-48)%Z); (0xA7C5, 0xA7C5, 1, (-42307)%Z);
   (0xA7C6, 0xA7C6, 1, (-35384)%Z); (0xA7C7, 0xA7C9, 2, 1%Z);
   (0xA7D0, 0xA7D0, 1, 1%Z); (0xA7D6, 0xA7D8, 2, 1%Z);
   (0xA7F5, 0xA7F5, 1, 1%Z); (0xFF21, 0xFF3A, 1, 32%Z);
   (0x10400, 0x10427, 1, 40%Z); (0x104B0, 0x104D3, 1, 40%Z);
   (0x10570, 0x10594, 2, 39%Z); (0x10571, 0x10579, 2, 39%Z);
   (0x1057D, 0x10589, 2, 39%Z); (0x1058D, 0x10591, 2, 39%Z);
   (0x10595, 0x10595, 1, 39%Z); (0x10C80, 0x10CB2, 1, 64%Z);
   (0x118A0, 0x118BF, 1, 32%Z); (0x16E40, 0x16E5F, 1, 32%Z);
   (0x1E900, 0x1E921, 1, 34%Z)]%N.

Definition upper_runs : list (N * N * N * Z) :=
  [(0x61, 0x7A, 1, (-32)%Z); (0xB5, 0xB5, 1, 743%Z); (0xE0, 0xF6, 1, (-32)%Z);
   (0xF8, 0xFE, 1, (-32)%Z); (0xFF, 0xFF, 1, 121%Z);
   (0x101, 0x12F, 2, (-1)%Z); (0x131, 0x131, 1, (-232)%Z);
   (0x133, 0x137, 2, (-1)%Z); (0x13A, 0x148, 2, (-1)%Z);
   (0x14B, 0x177, 2, (-1)%Z); (0x17A, 0x17E, 2, (-1)%Z);
   (0x17F, 0x17F, 1, (-300)%Z); (0x180, 0x180, 1, 195%Z);
   (0x183, 0x185, 2, (-1)%Z); (0x188, 0x188, 1, (-1)%Z);
   (0x18C, 0x18C, 1, (-1)%Z); (0x192, 0x192, 1, (-1)%Z);
   (0x195, 0x195, 1, 97%Z); (0x199, 0x199, 1, (-1)%Z);
   (0x19A, 0x19A, 1, 163%Z); (0x19E, 0x19E, 1, 130%Z);
   (0x1A1, 0x1A5, 2, (-1)%Z); (0x1A8, 0x1A8, 1, (-1)%Z);
   (0x1AD, 0x1AD, 1, (-1)%Z); (0x1B0, 0x1B0, 1, (-1)%Z);
   (0x1B4, 0x1B6, 2, (-1)%Z); (0x1B9, 0x1B9, 1, (-1)%Z);
   (0x1BD, 0x1BD, 1, (-1)%Z); (0x1BF, 0x1BF, 1, 56%Z);
   (0x1C5, 0x1C5, 1, (-1)%Z); (0x1C6, 0x1C6, 1, (-2)%Z);
   (0x1C8, 0x1C8, 1, (-1)%Z); (0x1C9, 0x1C9, 1, (-2)%Z);
   (0x1CB, 0x1CB, 1, (-1)%Z); (0x1CC, 0x1CC, 1, (-2)%Z);
   (0x1CE, 0x1DC, 2, (-1)%Z); (0x1DD, 0x1DD, 1, (-79)%Z);
   (0x1DF, 0x1EF, 2, (-1)%Z); (0x1F2, 0x1F2, 1, (-1)%Z);
   (0x1F3, 0x1F3, 1, (-2)%Z); (0x1F5, 0x1F5, 1, (-1)%Z);
   (0x1F9, 0x21F, 2, (-1)%Z); (0x223, 0x233, 2, (-1)%Z);
   (0x23C, 0x23C, 1, (-1)%Z); (0x23F, 0x240, 1, 10815%Z);
   (0x242, 0x242, 1, (-1)%Z); (0x247, 0x24F, 2, (-1)%Z);
   (0x250, 0x250, 1, 10783%Z); (0x251, 0x251, 1, 10780%Z);
   (0x252, 0x252, 1, 10782%Z); (0x253, 0x253, 1, (-210)%Z);
   (0x254, 0x254, 1, (-206)%Z); (0x256, 0x257, 1, (-205)%Z);
   (0x259, 0x259, 1, (-202)%Z); (0x25B, 0x25B, 1, (-203)%Z);
   (0x25C, 0x25C, 1, 42319%Z); (0x260, 0x260, 1, (-205)%Z);
   (0x261, 0x261, 1, 42315%Z); (0x263, 0x263, 1, (-207)%Z);
   (0x265, 0x265, 1, 42280%Z); (0x266, 0x266, 1, 42308%Z);
   (0x268, 0x268, 1, (-209)%Z); (0x269, 0x269, 1, (-211)%Z);
   (0x26A, 0x26A, 1, 42308%Z); (0x26B, 0x26B, 1, 10743%Z);
   (0x26C, 0x26C, 1, 42305%Z); (0x26F, 0x26F, 1, (-211)%Z);
   (0x271, 0x271, 1, 10749%Z); (0x272, 0x272, 1, (-213)%Z);
   (0x275, 0x275, 1, (-214)%Z); (0x27D, 0x27D, 1, 10727%Z);
   (0x280, 0x280, 1, (-218)%Z); (0x282, 0x282, 1, 42307%Z);
   (0x283, 0x283, 1, (-218)%Z); (0x287, 0x287, 1, 42282%Z);
   (0x288, 0x288, 1, (-218)%Z); (0x289, 0x289, 1, (-69)%Z);
   (0x28A, 0x28B, 1, (-217)%Z); (0x28C, 0x28C, 1, (-71)%Z);
   (0x292, 0x292, 1, (-219)%Z); (0x29D, 0x29D, 1, 42261%Z);
   (0x29E, 0x29E, 1, 42258%Z); (0x345, 0x345, 1, 84%Z);
   (0x371, 0x373, 2, (-1)%Z); (0x377, 0x377, 1, (-1)%Z);
   (0x37B, 0x37D, 1, 130%Z); (0x3AC, 0x3AC, 1, (-38)%Z);
   (0x3AD, 0x3AF, 1, (-37)%Z); (0x3B1, 0x3C1, 1, (-32)%Z);
   (0x3C2, 0x3C2, 1, (-31)%Z); (0x3C3, 0x3CB, 1, (-32)%Z);
   (0x3CC, 0x3CC, 1, (-64)%Z); (0x3CD, 0x3CE, 1, (-63)%Z);
   (0x3D0, 0x3D0, 1, (-62)%Z); (0x3D1, 0x3D1, 1, (-57)%Z);
   (0x3D5, 0x3D5, 1, (-47)%Z); (0x3D6, 0x3D6, 1, (-54)%Z);
   (0x3D7, 0x3D7, 1, (-8)%Z); (0x3D9, 0x3EF, 2, (-1)%Z);
   (0x3F0, 0x3F0, 1, (-86)%Z); (0x3F1, 0x3F1, 1, (-80)%Z);
   (0x3F2, 0x3F2, 1, 7%Z); (0x3F3, 0x3F3, 1, (-116)%Z);
   (0x3F5, 0x3F5, 1, (-96)%Z); (0x3F8, 0x3F8, 1, (-1)%Z);
   (0x3FB, 0x3FB, 1, (-1)%Z); (0x430, 0x44F, 1, (-32)%Z);
   (0x450, 0x45F, 1, (-80)%Z); (0x461, 0x481, 2, (-1)%Z);
   (0x48B, 0x4BF, 2, (-1)%Z); (0x4C2, 0x4CE, 2, (-1)%Z);
   (0x4CF, 0x4CF, 1, (-15)%Z); (0x4D1, 0x52F, 2, (-1)%Z);
   (0x561, 0x586, 1, (-48)%Z); (0x10D0, 0x10FA, 1, 3008%Z);
   (0x10FD, 0x10FF, 1, 3008%Z); (0x13F8, 0x13FD, 1, (-8)%Z);
   (0x1C80, 0x1C80, 1, (-6254)%Z); (0x1C81, 0x1C81, 1, (-6253)%Z);
   (0x1C82, 0x1C82, 1, (-6244)%Z); (0x1C83, 0x1C84, 1, (-6242)%Z);
   (0x1C85, 0x1C85, 1, (-6243)%Z); (0x1C86, 0x1C86, 1, (-6236)%Z);
   (0x1C87, 0x1C87, 1, (-6181)%Z); (0x1C88, 0x1C88, 1, 35266%Z);
   (0x1D79, 0x1D79, 1, 35332%Z); (0x1D7D, 0x1D7D, 1, 3814%Z);
   (0x1D8E, 0x1D8E, 1, 35384%Z); (0x1E01, 0x1E95, 2, (-1)%Z);
   (0x1E9B, 0x1E9B, 1, (-59)%Z); (0x1EA1, 0x1EFF, 2, (-1)%Z);
   (0x1F00, 0x1F07, 1, 8%Z); (0x1F10, 0x1F15, 1, 8%Z);
   (0x1F20, 0x1F27, 1, 8%Z); (0x1F30, 0x1F37, 1, 8%Z);
   (0x1F40, 0x1F45, 1, 8%Z); (0x1F51, 0x1F57, 2, 8%Z);
   (0x1F60, 0x1F67, 1, 8%Z); (0x1F70, 0x1F71, 1, 74%Z);
   (0x1F72, 0x1F75, 1, 86%Z); (0x1F76, 0x1F77, 1, 100%Z);
   (0x1F78, 0x1F79, 1, 128%Z); (0x1F7A, 0x1F7B, 1, 112%Z);
   (0x1F7C, 0x1F7D, 1, 126%Z); (0x1FB0, 0x1FB1, 1, 8%Z);
   (0x1FBE, 0x1FBE, 1, (-7205)%Z); (0x1FD0, 0x1FD1, 1, 8%Z);
   (0x1FE0, 0x1FE1, 1, 8%Z); (0x1FE5, 0x1FE5, 1, 7%Z);
   (0x214E, 0x214E, 1, (-28)%Z); (0x2170, 0x217F, 1, (-16)%Z);
   (0x2184, 0x2184, 1, (-1)%Z); (0x24D0, 0x24E9, 1, (-26)%Z);
   (0x2C30, 0x2C5F, 1, (-48)%Z); (0x2C61, 0x2C61, 1, (-1)%Z);
   (0x2C65, 0x2C65, 1, (-10795)%Z); (0x2C66, 0x2C66, 1, (-10792)%Z);
   (0x2C68, 0x2C6C, 2, (-1)%Z); (0x2C73, 0x2C73, 1, (-1)%Z);
   (0x2C76, 0x2C76, 1, (-1)%Z); (0x2C81, 0x2CE3, 2, (-1)%Z);
   (0x2CEC, 0x2CEE, 2, (-1)%Z); (0x2CF3, 0x2CF3, 1, (-1)%Z);
   (0x2D00, 0x2D25, 1, (-7264)%Z); (0x2D27, 0x2D27, 1, (-7264)%Z);
   (0x2D2D, 0x2D2D, 1, (-7264)%Z); (0xA641, 0xA66D, 2, (-1)%Z);
   (0xA681, 0xA69B, 2, (-1)%Z); (0xA723, 0xA72F, 2, (-1)%Z);
   (0xA733, 0xA76F, 2, (-1)%Z); (0xA77A, 0xA77C, 2, (-1)%Z);
   (0xA77F, 0xA787, 2, (-1)%Z); (0xA78C, 0xA78C, 1, (-1)%Z);
   (0xA791, 0xA793, 2, (-1)%Z); (0xA794, 0xA794, 1, 48%Z);
   (0xA797, 0xA7A9, 2, (-1)%Z); (0xA7B5, 0xA7C3, 2, (-1)%Z);
   (0xA7C8, 0xA7CA, 2, (-1)%Z); (0xA7D1, 0xA7D1, 1, (-1)%Z);
   (0xA7D7, 0xA7D9, 2, (-1)%Z); (0xA7F6, 0xA7F6, 1, (-1)%Z);
   (0xAB53, 0xAB53, 1, (-928)%Z); (0xAB70, 0xABBF, 1, (-38864)%Z);
   (0xFF41, 0xFF5A, 1, (-32)%Z); (0x10428, 0x1044F, 1, (-40)%Z);
   (0x104D8, 0x104FB, 1, (-40)%Z); (0x10597, 0x105BB, 2, (-39)%Z);
   (0x10598, 0x105A0, 2, (-39)%Z); (0x105A4, 0x105B0, 2, (-39)%Z);
   (0x105B4, 0x105B8, 2, (-39)%Z); (0x105BC, 0x105BC, 1, (-39)%Z);
   (0x10CC0, 0x10CF2, 1, (-64)%Z); (0x118C0, 0x118DF, 1, (-32)%Z);
   (0x16E60, 0x16E7F, 1, (-32)%Z); (0x1E922, 0x1E943, 1, (-34)%Z)]%N.

(** The code points whose full mapping is more than one code point. *)
Definition lower_special : list (N * list N) :=
  [(0x130, [0x69; 0x307])]%N.

Definition upper_special : list (N * list N) :=
  [(0xDF, [0x53; 0x53]); (0x149, [0x2BC; 0x4E]); (0x1F0, [0x4A; 0x30C]);
   (0x390, [0x399; 0x308; 0x301]); (0x3B0, [0x3A5; 0x308; 0x301]);
   (0x587, [0x535; 0x552]); (0x1E96, [0x48; 0x331]); (0x1E97, [0x54; 0x308]);
   (0x1E98, [0x57; 0x30A]); (0x1E99, [0x59; 0x30A]); (0x1E9A, [0x41; 0x2BE]);
   (0x1F50, [0x3A5; 0x313]); (0x1F52, [0x3A5; 0x313; 0x300]);
   (0x1F54, [0x3A5; 0x313; 0x301]); (0x1F56, [0x3A5; 0x313; 0x342]);
   (0x1F80, [0x1F08; 0x399]); (0x1F81, [0x1F09; 0x399]);
   (0x1F82, [0x1F0A; 0x399]); (0x1F83, [0x1F0B; 0x399]);
   (0x1F84, [0x1F0C; 0x399]); (0x1F85, [0x1F0D; 0x399]);
   (0x1F86, [0x1F0E; 0x399]); (0x1F87, [0x1F0F; 0x399]);
   (0x1F88, [0x1F08; 0x399]); (0x1F89, [0x1F09; 0x399]);
   (0x1F8A, [0x1F0A; 0x399]); (0x1F8B, [0x1F0B; 0x399]);
   (0x1F8C, [0x1F0C; 0x399]); (0x1F8D, [0x1F0D; 0x399]);
   (0x1F8E, [0x1F0E; 0x399]); (0x1F8F, [0x1F0F; 0x399]);
   (0x1F90, [0x1F28; 0x399]); (0x1F91, [0x1F29; 0x399]);
   (0x1F92, [0x1F2A; 0x399]); (0x1F93, [0x1F2B; 0x399]);
   (0x1F94, [0x1F2C; 0x399]); (0x1F95, [0x1F2D; 0x399]);
   (0x1F96, [0x1F2E; 0x399]); (0x1F97, [0x1F2F; 0x399]);
   (0x1F98, [0x1F28; 0x399]); (0x1F99, [0x1F29; 0x399]);
   (0x1F9A, [0x1F2A; 0x399]); (0x1F9B, [0x1F2B; 0x399]);
   (0x1F9C, [0x1F2C; 0x399]); (0x1F9D, [0x1F2D; 0x399]);
   (0x1F9E, [0x1F2E; 0x399]); (0x1F9F, [0x1F2F; 0x399]);
   (0x1FA0, [0x1F68; 0x399]); (0x1FA1, [0x1F69; 0x399]);
   (0x1FA2, [0x1F6A; 0x399]); (0x1FA3, [0x1F6B; 0x399]);
   (0x1FA4, [0x1F6C; 0x399]); (0x1FA5, [0x1F6D; 0x399]);
   (0x1FA6, [0x1F6E; 0x399]); (0x1FA7, [0x1F6F; 0x399]);
   (0x1FA8, [0x1F68; 0x399]); (0x1FA9, [0x1F69; 0x399]);
   (0x1FAA, [0x1F6A; 0x399]); (0x1FAB, [0x1F6B; 0x399]);
   (0x1FAC, [0x1F6C; 0x399]); (0x1FAD, [0x1F6D; 0x399]);
   (0x1FAE, [0x1F6E; 0x399]); (0x1FAF, [0x1F6F; 0x399]);
   (0x1FB2, [0x1FBA; 0x399]); (0x1FB3, [0x391; 0x399]);
   (0x1FB4, [0x386; 0x399]); (0x1FB6, [0x391; 0x342]);
   (0x1FB7, [0x391; 0x342; 0x399]); (0x1FBC, [0x391; 0x399]);
   (0x1FC2, [0x1FCA; 0x399]); (0x1FC3, [0x397; 0x399]);
   (0x1FC4, [0x389; 0x399]); (0x1FC6, [0x397; 0x342]);
   (0x1FC7, [0x397; 0x342; 0x399]); (0x1FCC, [0x397; 0x399]);
   (0x1FD2, [0x399; 0x308; 0x300]); (0x1FD3, [0x399; 0x308; 0x301]);
   (0x1FD6, [0x399; 0x342]); (0x1FD7, [0x399; 0x308; 0x342]);
   (0x1FE2, [0x3A5; 0x308; 0x300]); (0x1FE3, [0x3A5; 0x308; 0x301]);
   (0x1FE4, [0x3A1; 0x313]); (0x1FE6, [0x3A5; 0x342]);
   (0x1FE7, [0x3A5; 0x308; 0x342]); (0x1FF2, [0x1FFA; 0x399]);
   (0x1FF3, [0x3A9; 0x399]); (0x1FF4, [0x38F; 0x399]);
   (0x1FF6, [0x3A9; 0x342]); (0x1FF7, [0x3A9; 0x342; 0x399]);
   (0x1FFC, [0x3A9; 0x399]); (0xFB00, [0x46; 0x46]); (0xFB01, [0x46; 0x49]);
   (0xFB02, [0x46; 0x4C]); (0xFB03, [0x46; 0x46; 0x49]);
   (0xFB04, [0x46; 0x46; 0x4C]); (0xFB05, [0x53; 0x54]);
   (0xFB06, [0x53; 0x54]); (0xFB13, [0x544; 0x546]); (0xFB14, [0x544; 0x535]);
   (0xFB15, [0x544; 0x53B]); (0xFB16, [0x54E; 0x546]);
   (0xFB17, [0x544; 0x53D])]%N.

Definition special (table : list (N * list N)) (c : N) : option (list N) :=
  snd <$> List.find (fun e => N.eqb e.1 c) table.

(** The full case mappings of one code point. *)
Definition lower_full (c : N) : list N :=
  default [shift lower_runs c] (special lower_special c).
Definition upper_full (c : N) : list N :=
  default [shift upper_runs c] (special upper_special c).

(** The simple lower-case mapping, which [re.IGNORECASE] uses: the first
    code point of the full one. *)
Definition tolower (c : N) : N := default c (head (lower_full c)).

(** [str.upper] and [str.lower].  A capital sigma is lowered to the final
    sigma when a cased letter stands before it and none after it,
    case-ignorable code points skipped on both sides; [before] is the text
    before the code point, nearest first. *)
Fixpoint skip_ignorable (s : str) : str :=
  match s with
  | c :: s' => if case_ignorable c then skip_ignorable s' else s
  | [] => []
  end.
Definition final_sigma (before after : str) : bool :=
  (match skip_ignorable before with c :: _ => cased c | [] => false end
   && match skip_ignorable after with c :: _ => negb (cased c) | [] => true end)%bool.
Fixpoint lower_from (before s : str) : str :=
  match s with
  | [] => []
  | c :: s' =>
      (if N.eqb c 0x3A3
       then [if final_sigma before s' then 0x3C2%N else 0x3C3%N]
       else lower_full c)
      ++ lower_from (c :: before) s'
  end.
Definition lower (s : str) : str := lower_from [] s.
Definition upper (s : str) : str := s ≫= upper_full.

Fixpoint lstrip (s : str) : str :=
  match s with
  | c :: s' => if isspace c then lstrip s' else s
  | [] => []
  end.
Definition rstrip (s : str) : str := rev (lstrip (rev s)).
Definition strip (s : str) : str := rstrip (lstrip s).

Fixpoint startswith (p s : str) : bool :=
  match p, s with
  | [], _ => true
  | a :: p', b :: s' => (N.eqb a b && startswith p' s')%bool
  | _ :: _, [] => false
  end.

(** [needle in hay] *)
Fixpoint contains (needle hay : str) : bool :=
  (startswith needle hay ||
   match hay with
   | [] => false
   | _ :: hay' => contains needle hay'
   end)%bool.

(** [any(k in s for k in ks)] *)
Definition any_in (ks : list str) (s : str) : bool :=
  existsb (fun k => contains k s) ks.

(** [s.split()]: the maximal runs of non-whitespace, in order.  [cur] is
    the current run, reversed. *)
Fixpoint split_aux (cur : str) (s : str) : list str :=
  match s with
  | [] => match cur with [] => [] | _ => [rev cur] end
  | c :: s' =>
      if isspace c
      then match cur with
           | [] => split_aux [] s'
           | _ => rev cur :: split_aux [] s'
           end
      else split_aux (c :: cur) s'
  end.
Definition split (s : str) : list str := split_aux [] s.

(** [sep.join(parts)] *)
Fixpoint join (sep : str) (parts : list str) : str :=
  match parts with
  | [] => []
  | [p] => p
  | p :: ps => p ++ sep ++ join sep ps
  end.

(** [len(s)] *)
Definition len {A} (l : list A) : Z := Z.of_nat (length l).

(** *** Regular expressions, by derivatives

    Only what the patterns of the program need: character classes,
    sequence, choice and iteration.  [search] is [re.search]: is there a
    match starting anywhere in the text. *)
Inductive re :=
| Nul | Eps
| Chr (p : N → bool)
| Cat (r1 r2 : re)
| Alt (r1 r2 : re)
| Star (r : re).

Fixpoint nullable (r : re) : bool :=
  match r with
  | Nul => false | Eps => true | Chr _ => false
  | Cat r1 r2 => (nullable r1 && nullable r2)%bool
  | Alt r1 r2 => (nullable r1 || nullable r2)%bool
  | Star _ => true
  end.

Definition cat (r1 r2 : re) : re :=
  match r1, r2 with
  | Nul, _ | _, Nul => Nul
  | Eps, r | r, Eps => r
  | _, _ => Cat r1 r2
  end.
Definition alt (r1 r2 : re) : re :=
  match r1, r2 with
  | Nul, r | r, Nul => r
  | _, _ => Alt r1 r2
  end.

Fixpoint deriv (c : N) (r : re) : re :=
  match r with
  | Nul | Eps => Nul
  | Chr p => if p c then Eps else Nul
  | Cat r1 r2 =>
      alt (cat (deriv c r1) r2) (if nullable r1 then deriv c r2 else Nul)
  | Alt r1 r2 => alt (deriv c r1) (deriv c r2)
  | Star r1 => cat (deriv c r1) (Star r1)
  end.

(** Does some prefix of [s] match [r]? *)
Fixpoint match_prefix (r : re) (s : str) : bool :=
  (nullable r ||
   match s with
   | [] => false
   | c :: s' => match_prefix (deriv c r) s'
   end)%bool.

Fixpoint search (r : re) (s : str) : bool :=
  (match_prefix r s ||
   match s with
   | [] => false
   | _ :: s' => search r s'
   end)%bool.

Definition plus (r : re) : re := Cat r (Star r).
Definition opt (r : re) : re := Alt Eps r.
Definition chr (c : N) : re := Chr (N.eqb c).

(** A cased letter of the pattern under [re.IGNORECASE], for the letters
    that the engine compares by their simple lower case alone (every
    letter but the few it keeps a list of equivalents for, such as [i] and
    [s]): the code points with the same lower case, which for [k] include
    the Kelvin sign U+212A. *)
Definition chr_i (c : N) : re := Chr (fun x => N.eqb (tolower x) (tolower c)).

(** [\d] in a [str] pattern: a decimal digit of any script. *)
Definition digit : re := Chr isdecimal.
Definition space : re := Chr isspace.

(** [re.sub(r'\s+', '_', s)]: every maximal run of whitespace becomes one
    underscore. *)
Fixpoint sub_spaces (in_run : bool) (s : str) : str :=
  match s with
  | [] => []
  | c :: s' =>
      if isspace c
      then (if in_run then sub_spaces true s' else 95%N :: sub_spaces true s')
      else c :: sub_spaces false s'
  end.

(** [[a-zA-Z0-9_]] *)
Definition is_ident_char (c : N) : bool :=
  (is_ascii_lower c || is_ascii_upper c || is_ascii_digit c || N.eqb c 95)%bool.

(** [re.sub(r'[^a-zA-Z0-9_]', '', s)] *)
Definition sub_non_ident (s : str) : str := filter (fun c => is_ident_char c = true) s.

(** [l[a:b]] for integers [a] and [b]: a negative index counts from the
    end of the list, and both are clamped to it. *)
Definition slice_index {A} (l : list A) (i : Z) : Z :=
  if bool_decide (i < 0) then Z.max (i + len l) 0 else Z.min i (len l).
Definition slice {A} (l : list A) (a b : Z) : list A :=
  take (Z.to_nat (slice_index l b - slice_index l a))
       (drop (Z.to_nat (slice_index l a)) l).

End Py.

(** ** Cell values and the worksheet interface

    What the program reads from openpyxl.  A cell value is [None], a [str],
    or some other object (number, date, ...) of which the program only ever
    takes [str(v)]: it is carried by that rendering. *)

Inductive pyvalue :=
| PyNone
| PyStr (s : Py.str)
| PyOther (repr : Py.str).

#[global] Instance pyvalue_eq_dec : EqDecision pyvalue.
Proof. solve_decision. Defined.

(** [str(v)] *)
Definition str_of (v : pyvalue) : Py.str :=
  match v with
  | PyNone => Py.lit "None"
  | PyStr s => s
  | PyOther repr => repr
  end.

(** (column, row), standing for the coordinate string. *)
Abbreviation Coord := (Z * Z)%type.

Record Font := { bold : bool }.
Record Alignment := { horizontal : option Py.str }.
(** A side of a border is [None] or a [Side] object, whose [style] names
    the line it draws and is [None] when it draws none.  A [Side] object is
    true whatever its style: the class defines neither [__bool__] nor
    [__len__]. *)
Record Side := { style : option Py.str }.
Record Border := {
  left : option Side;
  right : option Side;
  top : option Side;
  bottom : option Side }.

(** The truth value of a side. *)
Definition side_truth (side : option Side) : bool :=
  match side with Some _ => true | None => false end.

(** The border of a cell that was given none: four [Side] objects that
    draw no line. *)
Definition default_border : Border :=
  let no_line := Some {| style := None |} in
  {| left := no_line; right := no_line; top := no_line; bottom := no_line |}.

(** [Border()]: the four sides are [None]. *)
Definition sideless_border : Border :=
  {| left := None; right := None; top := None; bottom := None |}.

Module Cell.
Record t := mk {
  row : Z;
  column : Z;
  value : pyvalue;
  font : option Font;
  alignment : option Alignment;
  border : option Border }.
Definition coordinate (c : t) : Coord := (column c, row c).
End Cell.

Module MergeRange.
Record t := mk { min_row : Z; max_row : Z; min_col : Z; max_col : Z }.
End MergeRange.

Module Worksheet.
(** [getitem] is [sheet[coord]]; [iter_rows min_col max_col] is
    [sheet.iter_rows(min_row=1, ...)] with the given column bounds ([None]:
    the argument is left out); [ranges] is [sheet.merged_cells.ranges]. *)
Record t := mk {
  title : Py.str;
  getitem : Coord → Cell.t;
  iter_rows : option Z → option Z → list (list Cell.t);
  ranges : list MergeRange.t;
  min_column : Z;
  max_column : Z;
  max_row : Z }.
End Worksheet.

(** ** class CellData *)

Module CellData.
Record t := mk {
  cell : Cell.t;
  coordinate : Coord;
  row : Z;
  column : Z;
  is_merged : bool;
  merge_range_info : option (Coord * MergeRange.t);
  is_top_left_merged : bool;
  value : pyvalue;
  display_value : Py.str;
  font : option Font;
  alignment : option Alignment;
  border : option Border;
  rowspan : Z;
  colspan : Z }.

(** [_get_value], on the fields [__init__] has set when it calls it.  The
    [None] branch of [info] is the [TypeError] of [None[0]], which the
    method catches to return [None]. *)
Definition _get_value (cell : Cell.t) (is_merged is_top_left_merged : bool)
    (merge_range_info : option (Coord * MergeRange.t)) (sheet : Worksheet.t)
    : pyvalue :=
  if (is_merged && negb is_top_left_merged)%bool
  then match merge_range_info with
       | Some (top_left, _) => Cell.value (Worksheet.getitem sheet top_left)
       | None => PyNone
       end
  else Cell.value cell.

(** [CellData(cell, sheet, merged_cells_map)] for a cell that exists (the
    only way [_parse_sheet] builds one). *)
Definition init (cell : Cell.t) (sheet : Worksheet.t)
    (merged_cells_map : gmap Coord (Coord * MergeRange.t)) : t :=
  let coordinate := Cell.coordinate cell in
  let is_merged := bool_decide (is_Some (merged_cells_map !! coordinate)) in
  let merge_range_info := merged_cells_map !! coordinate in
  let is_top_left_merged :=
    (is_merged &&
     match merge_range_info with
     | Some (top_left, _) => bool_decide (top_left = coordinate)
     | None => false
     end)%bool in
  let value := _get_value cell is_merged is_top_left_merged merge_range_info sheet in
  let spans :=
    match is_top_left_merged, merge_range_info with
    | true, Some (_, range_obj) =>
        (MergeRange.max_row range_obj - MergeRange.min_row range_obj + 1,
         MergeRange.max_col range_obj - MergeRange.min_col range_obj + 1)
    | _, _ => (1, 1)
    end in
  {| cell := cell;
     coordinate := coordinate;
     row := Cell.row cell;
     column := Cell.column cell;
     is_merged := is_merged;
     merge_range_info := merge_range_info;
     is_top_left_merged := is_top_left_merged;
     value := value;
     display_value := match value with PyNone => [] | _ => str_of value end;
     font := Cell.font cell;
     alignment := Cell.alignment cell;
     border := Cell.border cell;
     rowspan := spans.1;
     colspan := spans.2 |}.

Definition is_empty (c : t) : bool :=
  match value c with
  | PyNone => true
  | PyStr s => bool_decide (Py.strip s = [])
  | PyOther _ => false
  end.

Definition get_formatted_value (c : t) : Py.str :=
  match value c with PyNone => [] | v => str_of v end.

Definition is_bold (c : t) : bool :=
  match font c with Some f => bold f | None => false end.

Definition get_horizontal_alignment (c : t) : option Py.str :=
  match alignment c with
  | Some a => match horizontal a with Some ((_ :: _) as h) => Some h | _ => None end
  | None => None
  end.

(** [cell.is_merged and not cell.is_top_left_merged] *)
Definition merge_covered (c : t) : bool :=
  (is_merged c && negb (is_top_left_merged c))%bool.
End CellData.

(** ** class RowData *)

Module RowData.
Record t := mk { row_idx : Z; cells : list CellData.t }.

Definition skipped (ignore_merged_covered : bool) (cell : CellData.t) : bool :=
  (ignore_merged_covered && CellData.merge_covered cell)%bool.

Fixpoint is_empty_from (ignore_merged_covered : bool) (cells : list CellData.t) : bool :=
  match cells with
  | [] => true
  | cell :: rest =>
      if skipped ignore_merged_covered cell then is_empty_from ignore_merged_covered rest
      else if negb (CellData.is_empty cell) then false
      else is_empty_from ignore_merged_covered rest
  end.
Definition is_empty (ignore_merged_covered : bool) (r : t) : bool :=
  is_empty_from ignore_merged_covered (cells r).

Fixpoint non_empty_from (ignore_merged_covered : bool) (cells : list CellData.t)
    : list CellData.t :=
  match cells with
  | [] => []
  | cell :: rest =>
      if skipped ignore_merged_covered cell then non_empty_from ignore_merged_covered rest
      else if negb (CellData.is_empty cell)
           then cell :: non_empty_from ignore_merged_covered rest
           else non_empty_from ignore_merged_covered rest
  end.
Definition get_non_empty_cells (ignore_merged_covered : bool) (r : t) : list CellData.t :=
  non_empty_from ignore_merged_covered (cells r).

Definition get_last_data_column_index (r : t) : Z :=
  foldl (fun last_col cell =>
           if negb (CellData.is_empty cell)
           then let col_end :=
                  CellData.column cell +
                  (if CellData.is_top_left_merged cell then CellData.colspan cell - 1 else 0) in
                Z.max last_col col_end
           else last_col)
        0 (cells r).
End RowData.

(** ** class ExcelSheetData *)

Record ImageInfo := { img_row : Z; img_col : Z; img_path : Py.str }.

Module ExcelSheetData.
Record t := mk {
  sheet : Worksheet.t;
  title : Py.str;
  rows : list RowData.t;
  merged_cells_map : gmap Coord (Coord * MergeRange.t);
  images : list ImageInfo }.

(** [range(lo, hi + 1)] *)
Definition range_incl (lo hi : Z) : list Z := seqZ lo (hi + 1 - lo).

Definition top_left (r : MergeRange.t) : Coord :=
  (MergeRange.min_col r, MergeRange.min_row r).

(** The two nested loops over one range: rows outside, columns inside. *)
Definition range_coords (r : MergeRange.t) : list Coord :=
  row ← range_incl (MergeRange.min_row r) (MergeRange.max_row r);
  col ← range_incl (MergeRange.min_col r) (MergeRange.max_col r);
  [(col, row)].

Definition add_range (merged_map : gmap Coord (Coord * MergeRange.t))
    (merged_range : MergeRange.t) : gmap Coord (Coord * MergeRange.t) :=
  foldl (fun m coord => <[coord := (top_left merged_range, merged_range)]> m)
        merged_map (range_coords merged_range).

(** Every range has its bounds, so the [hasattr] test always passes; and
    with columns a worksheet can have nothing in the loop raises, so the
    [except] clause is not entered. *)
Definition _create_merged_cells_map (sheet : Worksheet.t)
    : gmap Coord (Coord * MergeRange.t) :=
  foldl add_range ∅ (Worksheet.ranges sheet).

(** [enumerate(..., start=1)] *)
Definition enumerate1 {A} (l : list A) : list (Z * A) :=
  imap (fun i x => (Z.of_nat i + 1, x)) l.

Definition _parse_sheet (sheet : Worksheet.t)
    (merged_cells_map : gmap Coord (Coord * MergeRange.t)) : list RowData.t :=
  let max_col_scan :=
    foldl (fun m row => Z.max m (Py.len row)) 0 (Worksheet.iter_rows sheet None None) in
  let max_col :=
    Z.min max_col_scan
          (if bool_decide (Worksheet.max_column sheet = 0) then max_col_scan
           else Worksheet.max_column sheet) in
  let max_col := if bool_decide (max_col = 0) then 50 else max_col in
  let max_col := if bool_decide (max_col > 150) then 150 else max_col in
  let min_col := Worksheet.min_column sheet in
  map (fun '(row_idx, row_cells_tuple) =>
         RowData.mk row_idx
           (map (fun cell => CellData.init cell sheet merged_cells_map) row_cells_tuple))
      (enumerate1 (Worksheet.iter_rows sheet (Some min_col) (Some max_col))).

(** [ExcelSheetData(sheet)] followed by [extract_images], whose result (the
    anchors of the images it could save) is taken as given. *)
Definition init (sheet : Worksheet.t) (images : list ImageInfo) : t :=
  let merged_cells_map := _create_merged_cells_map sheet in
  {| sheet := sheet;
     title := Worksheet.title sheet;
     rows := _parse_sheet sheet merged_cells_map;
     merged_cells_map := merged_cells_map;
     images := images |}.
Definition get_rows_in_range (self : t) (start_row end_row : Z) : list RowData.t :=
  if (bool_decide (start_row < 1) || bool_decide (end_row > Py.len (rows self)))%bool
  then []
  else Py.slice (rows self) (start_row - 1) end_row.
End ExcelSheetData.

(** ** Classification labels

    The strings [_classify_row] returns, and ['start'], which
    [SqlConverter.convert] passes as the previous classification. *)

Module Label.
Inductive t :=
| title | footer | section_header | table_row | paragraph_line | empty | start.

#[global] Instance eq_dec : EqDecision t.
Proof. solve_decision. Defined.
End Label.

(** ** class HtmlConverter: row classification *)

Module HtmlConverter.

Definition SECTION_HEADERS : list Py.str :=
  map Py.lit
    ["APPLICATION"; "STANDARDS"; "CHARACTERISTICS"; "CONSTRUCTION";
     "DIMENSIONS"; "ELECTRICAL CHARACTERISTICS"; "CONDUCTORS";
     "DE-RATING"; "CURRENT CARRYING"; "VOLTAGE DROP"; "FACTORS"; "FEATURES";
     "TECHNICAL DATA"]%string.
Definition SECTION_HEADERS_UPPER : list Py.str := map Py.upper SECTION_HEADERS.
Definition DESCRIPTIVE_KEYWORDS_LOWER : list Py.str :=
  map Py.lit
    ["for use in"; "according to"; "conductor operates"; "note";
     "where a conductor"; "fixed wiring"; "power networks"]%string.
Definition FOOTER_KEYWORDS_LOWER : list Py.str :=
  map Py.lit
    ["information contained"; "guidance only"; "subject to change";
     "liability"; "tolerances"; "manufacturing tolerances"]%string.

(** [r'\d+(\.\d+)?\s*/\s*\d+(\.\d+)?\s*k?v'], searched with
    [re.IGNORECASE]. *)
Definition number : Py.re :=
  Py.Cat (Py.plus Py.digit) (Py.opt (Py.Cat (Py.chr 46) (Py.plus Py.digit))).
Definition voltage_pattern : Py.re :=
  Py.Cat number
    (Py.Cat (Py.Star Py.space)
       (Py.Cat (Py.chr 47)
          (Py.Cat (Py.Star Py.space)
             (Py.Cat number
                (Py.Cat (Py.Star Py.space)
                   (Py.Cat (Py.opt (Py.chr_i 107)) (Py.chr_i 118))))))).

(** [row_data.cells[0]] raises [IndexError] on a row without cells;
    [_classify_row] reaches the three [_is_like_*] methods only for a row in
    which it found a non-empty cell, so the [[]] branches below are never
    taken from there. *)
Definition _is_like_title (row_data : RowData.t) (first_text : Py.str) : bool :=
  match RowData.cells row_data with
  | [] => false
  | cell :: _ =>
      let keywords := map Py.lit ["cable"; "conductor"; "wire"]%string in
      let is_long_and_spans :=
        (bool_decide (Py.len first_text > 15) &&
         bool_decide (CellData.colspan cell
                      > Z.max 1 (Py.len (RowData.cells row_data) / 2)))%bool in
      let has_keywords :=
        (Py.any_in keywords (Py.lower first_text) &&
         Py.search voltage_pattern first_text)%bool in
      let is_basec := Py.contains (Py.lit "basec") (Py.lower first_text) in
      (is_long_and_spans || has_keywords || is_basec)%bool
  end.

(** The body of the loop of [_is_like_section_header] for one cell after
    the first: does this cell end the search with [only_significant =
    False]?  ([first_cell.is_merged] implies that [merge_range_info] is
    set.) *)
Definition breaks_only_significant (first_cell cell : CellData.t) : bool :=
  let is_covered :=
    (CellData.is_merged first_cell &&
     match CellData.merge_range_info first_cell with
     | Some (_, range_obj) =>
         (bool_decide (CellData.row cell = CellData.row first_cell) &&
          bool_decide (CellData.column cell >= MergeRange.min_col range_obj) &&
          bool_decide (CellData.column cell <= MergeRange.max_col range_obj))
     | None => false
     end)%bool in
  (negb is_covered && negb (CellData.is_empty cell) &&
   bool_decide (Py.len (Py.strip (str_of (CellData.value cell))) > 5))%bool.

Definition _is_like_section_header (row_data : RowData.t)
    (first_text_upper first_text_lower : Py.str) : bool :=
  if negb (existsb (fun header => Py.contains header first_text_upper)
                   SECTION_HEADERS_UPPER)
  then false
  else if (bool_decide (Py.len (Py.split first_text_upper) > 8)
           || Py.contains [10%N] first_text_upper
           || Py.any_in DESCRIPTIVE_KEYWORDS_LOWER first_text_lower)%bool
  then false
  else
    match RowData.cells row_data with
    | [] => false
    | first_cell :: others =>
        let spans_wide :=
          bool_decide (CellData.colspan first_cell
                       >= Z.max 2 (Py.len (RowData.cells row_data) / 2)) in
        let only_significant :=
          negb (existsb (breaks_only_significant first_cell) others) in
        (spans_wide || only_significant)%bool
    end.

Definition _is_like_footer (row_data : RowData.t) (first_text_lower : Py.str) : bool :=
  (bool_decide (Py.len (RowData.get_non_empty_cells false row_data) = 1) &&
   Py.any_in FOOTER_KEYWORDS_LOWER first_text_lower)%bool.

(** [first_cell.border and (border.left or ... or border.bottom)] *)
Definition has_borders (first_cell : CellData.t) : bool :=
  match CellData.border first_cell with
  | Some b =>
      (side_truth (left b) || side_truth (right b)
       || side_truth (top b) || side_truth (bottom b))%bool
  | None => false
  end.

(** [prev_classification in ['table_row', 'section_header']] *)
Definition is_continuation (prev_classification : option Label.t) : bool :=
  match prev_classification with
  | Some Label.table_row | Some Label.section_header => true
  | _ => false
  end.

Definition _classify_row (sheet_data : ExcelSheetData.t) (row_data : RowData.t)
    (prev_classification : option Label.t) : Label.t :=
  if RowData.is_empty true row_data then Label.empty
  else
    match RowData.get_non_empty_cells true row_data with
    | [] => Label.empty
    | (first_cell :: _) as non_empty_cells =>
        let first_text := Py.strip (str_of (CellData.value first_cell)) in
        let first_text_lower := Py.lower first_text in
        let first_text_upper := Py.upper first_text in
        let first_cell_col := CellData.column first_cell in
        let min_sheet_col := Worksheet.min_column (ExcelSheetData.sheet sheet_data) in
        if (bool_decide (RowData.row_idx row_data <= 3)
            && bool_decide (prev_classification = None)
            && _is_like_title row_data first_text)%bool
        then Label.title
        else if (bool_decide (RowData.row_idx row_data
                              >= Py.len (ExcelSheetData.rows sheet_data) - 5)
                 && _is_like_footer row_data first_text_lower)%bool
        then Label.footer
        else if (bool_decide (first_cell_col = min_sheet_col)
                 && _is_like_section_header row_data first_text_upper first_text_lower)%bool
        then Label.section_header
        else
          let has_borders := has_borders first_cell in
          let is_continuation := is_continuation prev_classification in
          if (bool_decide (Py.len non_empty_cells > 1)
              || (bool_decide (Py.len non_empty_cells = 1)
                  && bool_decide (CellData.colspan first_cell > 1))
              || has_borders || is_continuation)%bool
          then
            if (bool_decide (Py.len non_empty_cells = 1)
                && bool_decide (CellData.colspan first_cell > 1)
                && bool_decide (Py.len (Py.split first_text) > 10)
                && negb has_borders && negb is_continuation)%bool
            then Label.paragraph_line
            else Label.table_row
          else Label.paragraph_line
    end.

(** *** Markup

    The BeautifulSoup tags the converter builds, reduced to what it puts in
    them. *)

Inductive Node := Text (s : Py.str) | Br.

Inductive CellTagName := th | td.

Record CellTag := {
  tag_name : CellTagName;
  scope_row : bool;
  colspan_attr : option Z;
  rowspan_attr : option Z;
  children : list Node;
  class_attr : option Py.str }.

Abbreviation Tr := (list CellTag).

(** [thead] is [None] when no [<thead>] was appended. *)
Record TableTag := { thead : option (list Tr); tbody : list Tr }.

Inductive Tag :=
| img_excel_image (src : Py.str) (near_row : Z)
| h1_cable_title (c : list Node)
| h2_section_header (s : Py.str)
| div_footer_text (c : list Node)
| p_section_description (c : list Node)
| div_table_responsive (t : TableTag).

(** An entry of [content_elements].  [source] is ghost: the rows the
    element was built from, kept so that statements can speak about them;
    nothing the converter computes reads it. *)
Record Element := { tag : Tag; source : list RowData.t }.

(** [text.split('\n')] *)
Fixpoint split_lines (cur : Py.str) (s : Py.str) : list Py.str :=
  match s with
  | [] => [rev cur]
  | c :: s' => if N.eqb c 10 then rev cur :: split_lines [] s'
               else split_lines (c :: cur) s'
  end.

Fixpoint br_lines (lines : list Py.str) : list Node :=
  match lines with
  | [] => []
  | [line] => match Py.strip line with [] => [] | l => [Text l] end
  | line :: rest => Text (Py.strip line) :: Br :: br_lines rest
  end.

Definition _append_text_with_br (text : Py.str) : list Node :=
  br_lines (split_lines [] text).

(** [next((cell for cell in row_data.cells if not cell.is_empty()), None)] *)
Definition first_non_empty (row_data : RowData.t) : option CellData.t :=
  find (fun cell => negb (CellData.is_empty cell)) (RowData.cells row_data).

Definition _add_title_tag (content : list Element) (row_data : RowData.t) : list Element :=
  match first_non_empty row_data with
  | Some title_cell =>
      let title_text := Py.strip (str_of (CellData.value title_cell)) in
      content ++ [{| tag := h1_cable_title (_append_text_with_br title_text);
                     source := [row_data] |}]
  | None => content
  end.

Definition _add_section_header_tag (content : list Element) (row_data : RowData.t)
    : list Element :=
  match first_non_empty row_data with
  | Some header_cell =>
      let header_text := Py.strip (str_of (CellData.value header_cell)) in
      content ++ [{| tag := h2_section_header header_text; source := [row_data] |}]
  | None => content
  end.

Definition _add_footer_tag (content : list Element) (row_data : RowData.t) : list Element :=
  match first_non_empty row_data with
  | Some footer_cell =>
      let footer_text := Py.strip (str_of (CellData.value footer_cell)) in
      content ++ [{| tag := div_footer_text (_append_text_with_br footer_text);
                     source := [row_data] |}]
  | None => content
  end.

(** [_add_image_tag]: the tag, if any, and [images_used] afterwards. *)
Definition _add_image_tag (sheet_data : ExcelSheetData.t) (images_used : gset Py.str)
    (row_idx : Z) : option Tag * gset Py.str :=
  match find (fun img_info =>
                (bool_decide (img_row img_info = row_idx)
                 && bool_decide (img_path img_info ∉ images_used))%bool)
             (ExcelSheetData.images sheet_data) with
  | Some img_info =>
      (Some (img_excel_image (Py.lit "/storage/" ++ img_path img_info) row_idx),
       {[img_path img_info]} ∪ images_used)
  | None => (None, images_used)
  end.

(** *** Table reconstruction *)

(** The coordinates a cell with [rowspan > 1] covers in the rows below
    [row_idx]: [i] in [range(1, rowspan)], [j] in [range(colspan)]. *)
Definition mark_rowspan (cell_data : CellData.t) (row_idx : Z)
    (processed : gset Coord) : gset Coord :=
  if bool_decide (CellData.rowspan cell_data > 1)
  then foldl (fun s i =>
                foldl (fun s j => {[(CellData.column cell_data + j, row_idx + i)]} ∪ s)
                      s (seqZ 0 (CellData.colspan cell_data)))
             processed (seqZ 1 (CellData.rowspan cell_data - 1))
  else processed.

Definition span_attr (n : Z) : option Z := if bool_decide (n > 1) then Some n else None.

Definition css_class (cell_data : CellData.t) : option Py.str :=
  match CellData.get_horizontal_alignment cell_data with
  | Some h_align =>
      if bool_decide (h_align = Py.lit "center") then Some (Py.lit "text-center")
      else if bool_decide (h_align = Py.lit "right") then Some (Py.lit "text-end")
      else None
  | None => None
  end.

Definition make_cell (tag_name : CellTagName) (is_row_header : bool)
    (cell_data : CellData.t) : CellTag :=
  {| tag_name := tag_name;
     scope_row := is_row_header;
     colspan_attr := span_attr (CellData.colspan cell_data);
     rowspan_attr := span_attr (CellData.rowspan cell_data);
     children := _append_text_with_br (CellData.get_formatted_value cell_data);
     class_attr := css_class cell_data |}.

(** The three [continue] guards shared by the head and body loops. *)
Definition cell_skipped (max_col_index : Z) (processed : gset Coord)
    (cell_data : CellData.t) : bool :=
  (bool_decide (CellData.column cell_data > max_col_index)
   || bool_decide (CellData.coordinate cell_data ∈ processed)
   || CellData.merge_covered cell_data)%bool.

(** One [<tr>] of the head: the cells appended and the coverage set
    afterwards. *)
Definition thead_row (max_col_index : Z) (row_data : RowData.t)
    (thead_processed_coords : gset Coord) : Tr * gset Coord :=
  foldl (fun '(tr, processed) cell_data =>
           if cell_skipped max_col_index processed cell_data then (tr, processed)
           else (tr ++ [make_cell th false cell_data],
                 mark_rowspan cell_data (RowData.row_idx row_data) processed))
        ([], thead_processed_coords) (RowData.cells row_data).

(** [if tr.find(...): section.append(tr)] *)
Definition append_tr (trs : list Tr) (tr : Tr) : list Tr :=
  match tr with [] => trs | _ => trs ++ [tr] end.

Definition build_thead (max_col_index : Z) (header_rows_data : list RowData.t)
    : list Tr * gset Coord :=
  foldl (fun '(trs, processed) row_data =>
           let '(tr, processed') := thead_row max_col_index row_data processed in
           (append_tr trs tr, processed'))
        ([], ∅) header_rows_data.

(** One [<tr>] of the body; the flag is [is_first_visible_cell_in_row]. *)
Definition tbody_row (max_col_index : Z) (row_data : RowData.t)
    (processed_coords_in_rowspan : gset Coord) : Tr * gset Coord :=
  let '(tr, processed, _) :=
    foldl (fun '(tr, processed, is_first_visible_cell_in_row) cell_data =>
             if cell_skipped max_col_index processed cell_data
             then (tr, processed, is_first_visible_cell_in_row)
             else
               let is_row_header : bool := is_first_visible_cell_in_row in
               let cell_tag_name := if is_row_header then th else td in
               (tr ++ [make_cell cell_tag_name is_row_header cell_data],
                mark_rowspan cell_data (RowData.row_idx row_data) processed,
                false))
          ([], processed_coords_in_rowspan, true) (RowData.cells row_data) in
  (tr, processed).

Definition build_tbody (max_col_index : Z) (data_rows_data : list RowData.t)
    (processed_coords_in_rowspan : gset Coord) : list Tr :=
  (foldl (fun '(trs, processed) row_data =>
            let '(tr, processed') := tbody_row max_col_index row_data processed in
            (append_tr trs tr, processed'))
         ([], processed_coords_in_rowspan) data_rows_data).1.

Definition is_header_row (idx : Z) (non_empty : list CellData.t) : bool :=
  let all_bold := forallb CellData.is_bold non_empty in
  let has_complex_merge :=
    existsb (fun cell => (bool_decide (CellData.rowspan cell > 1)
                          || bool_decide (CellData.colspan cell > 1))%bool) non_empty in
  ((bool_decide (idx < 3) && (all_bold || has_complex_merge))
   || (bool_decide (idx >= 3) && all_bold))%bool.

(** The header scan, from position [idx] on: [header_rows_data] and
    [potential_header_end_idx] when the loop ends or breaks. *)
Fixpoint scan_headers (idx : Z) (rows : list RowData.t)
    (header_rows_data : list RowData.t) (potential_header_end_idx : Z)
    : list RowData.t * Z :=
  match rows with
  | [] => (header_rows_data, potential_header_end_idx)
  | row_data :: rest =>
      match RowData.get_non_empty_cells false row_data with
      | [] => scan_headers (idx + 1) rest header_rows_data potential_header_end_idx
      | non_empty =>
          if is_header_row idx non_empty
          then scan_headers (idx + 1) rest (header_rows_data ++ [row_data]) (idx + 1)
          else (header_rows_data, potential_header_end_idx)
      end
  end.

Definition max_col_index_of (table_rows_data : list RowData.t) : Z :=
  foldl (fun m row_data => Z.max m (RowData.get_last_data_column_index row_data))
        0 table_rows_data.

(** [thead] and [tbody] as they stand just before the final
    [table_tag.find('tr')] test. *)
Definition build_table (table_rows_data : list RowData.t) : TableTag :=
  let max_col_index := max_col_index_of table_rows_data in
  let '(header_rows_data, potential_header_end_idx) :=
    scan_headers 0 table_rows_data [] 0 in
  let data_rows_data := drop (Z.to_nat potential_header_end_idx) table_rows_data in
  let '(thead_trs, thead_processed_coords) :=
    match header_rows_data with
    | [] => (None, ∅)
    | _ => let '(trs, processed) := build_thead max_col_index header_rows_data in
           (Some trs, processed)
    end in
  let processed_coords_in_rowspan : gset Coord := ∅ ∪ thead_processed_coords in
  {| thead := thead_trs;
     tbody := build_tbody max_col_index data_rows_data processed_coords_in_rowspan |}.

(** All the [<tr>] of a table, head first. *)
Definition table_trs (t : TableTag) : list Tr :=
  default [] (thead t) ++ tbody t.

Definition _create_table_element (table_rows_data : list RowData.t) : option TableTag :=
  match table_rows_data with
  | [] => None
  | _ =>
      if bool_decide (max_col_index_of table_rows_data = 0) then None
      else
        let table_tag := build_table table_rows_data in
        match table_trs table_tag with
        | [] => None
        | _ => Some table_tag
        end
  end.

Definition _flush_table (content : list Element) (current_table_rows : list RowData.t)
    : list Element :=
  match current_table_rows with
  | [] => content
  | _ =>
      match _create_table_element current_table_rows with
      | Some table_element =>
          content ++ [{| tag := div_table_responsive table_element;
                         source := current_table_rows |}]
      | None => content
      end
  end.

(** Each buffered line comes with the row it was read from (ghost, for
    [source]). *)
Definition _flush_paragraph (content : list Element)
    (current_paragraph_lines : list (RowData.t * Py.str)) : list Element :=
  match current_paragraph_lines with
  | [] => content
  | _ =>
      match Py.strip (Py.join [10%N] (map snd current_paragraph_lines)) with
      | [] => content
      | para_text =>
          content ++ [{| tag := p_section_description (_append_text_with_br para_text);
                         source := map fst current_paragraph_lines |}]
      end
  end.

(** *** [convert]: the accumulation pass

    The instance fields [content_elements] and [images_used] and the locals
    [current_table_rows], [current_paragraph_lines] and
    [last_classification], as they stand between two rows.  [debug_log] is
    the sequence of [log_debug("Row ...: Classified as ...")] lines. *)

Record State := mkState {
  content_elements : list Element;
  images_used : gset Py.str;
  current_table_rows : list RowData.t;
  current_paragraph_lines : list (RowData.t * Py.str);
  last_classification : option Label.t;
  debug_log : list (Z * Label.t) }.

(** The search for a title image over [rows[:5]], with its [break]. *)
Fixpoint find_title_image (sheet_data : ExcelSheetData.t) (first_rows : list RowData.t)
    (images_used : gset Py.str) : option Tag * gset Py.str :=
  match first_rows with
  | [] => (None, images_used)
  | row_data :: rest =>
      match _add_image_tag sheet_data images_used (RowData.row_idx row_data) with
      | (Some img_tag, used) => (Some img_tag, used)
      | (None, used) => find_title_image sheet_data rest used
      end
  end.

Definition image_element (img_tag : Tag) : Element := {| tag := img_tag; source := [] |}.

(** [" ".join(str(c.value) for c in row_data.get_non_empty_cells()).strip()] *)
Definition line_text_of (row_data : RowData.t) : Py.str :=
  Py.strip (Py.join [32%N]
              (map (fun c => str_of (CellData.value c))
                   (RowData.get_non_empty_cells true row_data))).

Definition is_label (l : Label.t) (o : option Label.t) : bool := bool_decide (o = Some l).

(** The three buffers the loop body works on: [content_elements],
    [current_table_rows], [current_paragraph_lines]. *)
Abbreviation Buffers :=
  (list Element * list RowData.t * list (RowData.t * Py.str))%type.

(** "State Machine": finish the previous block if the context changes. *)
Definition finish_previous (classification : Label.t) (last : option Label.t)
    (b : Buffers) : Buffers :=
  let '(content, table_rows, lines) := b in
  let '(content, table_rows) :=
    if (negb (bool_decide (classification = Label.table_row))
        && is_label Label.table_row last)%bool
    then (_flush_table content table_rows, []) else (content, table_rows) in
  let '(content, lines) :=
    if (bool_decide (classification = Label.table_row)
        && is_label Label.paragraph_line last)%bool
    then (_flush_paragraph content lines, []) else (content, lines) in
  let '(content, table_rows) :=
    if (bool_decide (classification = Label.paragraph_line)
        && is_label Label.table_row last)%bool
    then (_flush_table content table_rows, []) else (content, table_rows) in
  (content, table_rows, lines).

(** "Handle Image Placement": the image goes before its content, except
    for a title. *)
Definition place_image (img_tag : option Tag) (classification : Label.t)
    (last : option Label.t) (b : Buffers) : Buffers :=
  let '(content, table_rows, lines) := b in
  match img_tag with
  | Some t =>
      if negb (bool_decide (classification = Label.title))
      then
        let '(content, lines) :=
          if (negb (bool_decide (classification = Label.paragraph_line))
              && is_label Label.paragraph_line last)%bool
          then (_flush_paragraph content lines, []) else (content, lines) in
        (content ++ [image_element t], table_rows, lines)
      else (content, table_rows, lines)
  | None => (content, table_rows, lines)
  end.

(** "Handle Current Row Classification". *)
Definition handle_row (title_image_tag : option Tag) (classification : Label.t)
    (last : option Label.t) (row_data : RowData.t) (b : Buffers) : Buffers :=
  let '(content, table_rows, lines) := b in
  match classification with
  | Label.title =>
      let content := _flush_paragraph content lines in
      let content := _flush_table content table_rows in
      let content := _add_title_tag content row_data in
      let content :=
        match title_image_tag with
        | Some t => content ++ [image_element t]
        | None => content
        end in
      (content, [], [])
  | Label.section_header =>
      let content := _flush_paragraph content lines in
      let content := _flush_table content table_rows in
      (_add_section_header_tag content row_data, [], [])
  | Label.footer =>
      let content := _flush_paragraph content lines in
      let content := _flush_table content table_rows in
      (_add_footer_tag content row_data, [], [])
  | Label.table_row => (content, table_rows ++ [row_data], lines)
  | Label.paragraph_line =>
      match line_text_of row_data with
      | [] => (content, table_rows, lines)
      | line_text => (content, table_rows, lines ++ [(row_data, line_text)])
      end
  | Label.empty =>
      let '(content, table_rows) :=
        if is_label Label.table_row last
        then (_flush_table content table_rows, []) else (content, table_rows) in
      let '(content, lines) :=
        if is_label Label.paragraph_line last
        then (_flush_paragraph content lines, []) else (content, lines) in
      (content, table_rows, lines)
  | Label.start => (content, table_rows, lines)
  end.

(** The image looked up for the row.  [title_image_tag] carries no
    ['data-row-idx'] attribute, so [.get('data-row-idx', -1)] is [-1]. *)
Definition row_image (sheet_data : ExcelSheetData.t) (title_image_tag : option Tag)
    (images_used : gset Py.str) (row_data : RowData.t) : option Tag * gset Py.str :=
  if (bool_decide (title_image_tag = None)
      || bool_decide (RowData.row_idx row_data ≠ -1))%bool
  then _add_image_tag sheet_data images_used (RowData.row_idx row_data)
  else (None, images_used).

(** "Update last classification (ignore empty)". *)
Definition update_last (classification : Label.t) (last : option Label.t)
    : option Label.t :=
  if bool_decide (classification = Label.empty) then last else Some classification.

(** The body of the main loop for one row. *)
Definition step (sheet_data : ExcelSheetData.t) (title_image_tag : option Tag)
    (st : State) (row_data : RowData.t) : State :=
  let last := last_classification st in
  let classification := _classify_row sheet_data row_data last in
  let '(img_tag, used) := row_image sheet_data title_image_tag (images_used st) row_data in
  let '(content, table_rows, lines) :=
    handle_row title_image_tag classification last row_data
      (place_image img_tag classification last
         (finish_previous classification last
            (content_elements st, current_table_rows st, current_paragraph_lines st))) in
  {| content_elements := content;
     images_used := used;
     current_table_rows := table_rows;
     current_paragraph_lines := lines;
     last_classification := update_last classification last;
     debug_log := debug_log st ++ [(RowData.row_idx row_data, classification)] |}.

(** The state when the main loop is entered, and the title image found
    before it. *)
Definition start_of (sheet_data : ExcelSheetData.t) : option Tag * State :=
  let '(title_image_tag, used) :=
    find_title_image sheet_data (take 5 (ExcelSheetData.rows sheet_data)) ∅ in
  (title_image_tag,
   {| content_elements := [];
      images_used := used;
      current_table_rows := [];
      current_paragraph_lines := [];
      last_classification := None;
      debug_log := [] |}).

(** The main loop over a sequence of rows. *)
Definition run (sheet_data : ExcelSheetData.t) (title_image_tag : option Tag)
    (st : State) (rows : list RowData.t) : State :=
  foldl (step sheet_data title_image_tag) st rows.

(** "Flush remaining buffers". *)
Definition finish (st : State) : list Element :=
  _flush_paragraph (_flush_table (content_elements st) (current_table_rows st))
                   (current_paragraph_lines st).

(** [convert], up to the final string: the elements joined into the page. *)
Definition convert (sheet_data : ExcelSheetData.t) : list Element :=
  let '(title_image_tag, st) := start_of sheet_data in
  finish (run sheet_data title_image_tag st (ExcelSheetData.rows sheet_data)).

End HtmlConverter.

(** ** class SqlConverter: from the sheet to the column identifiers

    [convert] up to and including the test [if not headers].  What follows
    it in the source (table name, CREATE TABLE and INSERT statements) is
    only reached with a non-empty [headers] and is not modelled:
    [Proceeds headers] stands for it. *)

Module SqlConverter.

Inductive Exception := UnboundLocalError | IndexError.

Inductive Outcome :=
| Returned (text : Py.str)
| Raised (e : Exception)
| Proceeds (headers : list Py.str).

(** The first loop: the rows of the target section.  [None] is the
    [IndexError] of [row_data.cells[0]]. *)
Fixpoint collect_target_rows (sheet_data : ExcelSheetData.t) (section_header_upper : Py.str)
    (rows : list RowData.t) (target_table_rows : list RowData.t)
    (in_target_section : bool) : option (list RowData.t) :=
  match rows with
  | [] => Some target_table_rows
  | row_data :: rest =>
      let classification :=
        HtmlConverter._classify_row sheet_data row_data (Some Label.start) in
      if bool_decide (classification = Label.section_header)
      then match RowData.cells row_data with
           | [] => None
           | cell0 :: _ =>
               let header_text := Py.upper (Py.strip (str_of (CellData.value cell0))) in
               if Py.contains section_header_upper header_text
               then collect_target_rows sheet_data section_header_upper rest
                      target_table_rows true
               else if in_target_section then Some target_table_rows
               else collect_target_rows sheet_data section_header_upper rest
                      target_table_rows in_target_section
           end
      else if (in_target_section && bool_decide (classification = Label.table_row))%bool
      then collect_target_rows sheet_data section_header_upper rest
             (target_table_rows ++ [row_data]) in_target_section
      else if (in_target_section
               && negb (bool_decide (classification = Label.table_row))
               && negb (bool_decide (classification = Label.empty)))%bool
      then Some target_table_rows
      else collect_target_rows sheet_data section_header_upper rest
             target_table_rows in_target_section
  end.

(** The first row with a non-empty cell, counting merge-covered cells. *)
Definition find_header_row (target_table_rows : list RowData.t) : option RowData.t :=
  find (fun row_data =>
          bool_decide (Py.len (RowData.get_non_empty_cells false row_data) > 0))
       target_table_rows.

(** The loop over [header_row_data.cells], with its [break]. *)
Fixpoint collect_headers_raw (max_col_sql : Z) (cells : list CellData.t) : list pyvalue :=
  match cells with
  | [] => []
  | cell :: rest =>
      if bool_decide (CellData.column cell > max_col_sql) then []
      else if (negb (CellData.is_merged cell) || CellData.is_top_left_merged cell)%bool
           then CellData.value cell :: collect_headers_raw max_col_sql rest
           else collect_headers_raw max_col_sql rest
  end.

(** The loop [for h in headers_raw].  Its first line is
    [if h is None: continue; s = re.sub(...).strip(); s = re.sub(...).lower();]:
    the two assignments stand after [continue] in the body of that [if], so
    they never run, and the local [s] is still unbound ([None] here) when
    the next line, [if s: headers.append(s)], reads it. *)
Fixpoint header_loop (headers_raw : list pyvalue) (s : option Py.str)
    (headers : list Py.str) : Exception + list Py.str :=
  match headers_raw with
  | [] => inr headers
  | h :: rest =>
      match h with
      | PyNone => header_loop rest s headers
      | _ =>
          match s with
          | None => inl UnboundLocalError
          | Some [] => header_loop rest s headers
          | Some v => header_loop rest s (headers ++ [v])
          end
      end
  end.

Definition convert (sheet_data : ExcelSheetData.t) (target_section : Py.str) : Outcome :=
  let section_header_upper := Py.upper target_section in
  match collect_target_rows sheet_data section_header_upper
          (ExcelSheetData.rows sheet_data) [] false with
  | None => Raised IndexError
  | Some [] =>
      Returned (Py.lit "-- No table data for " ++ target_section ++ [46%N; 10%N])
  | Some target_table_rows =>
      match find_header_row target_table_rows with
      | None => Returned (Py.lit "-- No header row." ++ [10%N])
      | Some header_row_data =>
          match RowData.cells header_row_data with
          | [] => Returned (Py.lit "-- No header row." ++ [10%N])
          | _ =>
              let max_col_sql := HtmlConverter.max_col_index_of target_table_rows in
              let headers_raw :=
                collect_headers_raw max_col_sql (RowData.cells header_row_data) in
              match header_loop headers_raw None [] with
              | inl e => Raised e
              | inr [] => Returned (Py.lit "-- No valid headers." ++ [10%N])
              | inr headers => Proceeds headers
              end
          end
      end
  end.

End SqlConverter.

(** ** The rules as the specification words them

    Definitions written after the specification's sentences, to be compared
    with what the code computes. *)

Module Spec.
(** The text of a cell as the rules read it. *)
Definition text_of (c : CellData.t) : Py.str := Py.strip (str_of (CellData.value c)).

(** "the row's first non-empty cell either (a) spans at least half the
    row's columns and has text length > 15, or (b) its text matches a
    domain title pattern, or (c) contains a known manufacturer/standard
    marker string", for "row index ≤ 3 and no classification emitted yet". *)
Definition title_rule (row_data : RowData.t) (prev : option Label.t) : bool :=
  match RowData.get_non_empty_cells true row_data with
  | [] => false
  | c :: _ =>
      (bool_decide (RowData.row_idx row_data <= 3) && bool_decide (prev = None)
       && ((bool_decide (2 * CellData.colspan c >= Py.len (RowData.cells row_data))
            && bool_decide (Py.len (text_of c) > 15))
           || (Py.any_in (map Py.lit ["cable"; "conductor"; "wire"]%string)
                 (Py.lower (text_of c))
               && Py.search HtmlConverter.voltage_pattern (text_of c))
           || Py.contains (Py.lit "basec") (Py.lower (text_of c))))%bool
  end.

(** "row index is within the last 5 rows of the grid, and the row has
    exactly one non-empty cell (ignoring merge-covered cells) whose text
    matches a known footer-keyword list". *)
Definition footer_rule (sheet_data : ExcelSheetData.t) (row_data : RowData.t) : bool :=
  match RowData.get_non_empty_cells true row_data with
  | [c] =>
      (bool_decide (RowData.row_idx row_data > Py.len (ExcelSheetData.rows sheet_data) - 5)
       && Py.any_in HtmlConverter.FOOTER_KEYWORDS_LOWER (Py.lower (text_of c)))%bool
  | _ => false
  end.

(** "has no border": no side of the cell draws a line. *)
Definition draws_line (side : option Side) : bool :=
  match side with
  | Some {| style := Some _ |} => true
  | _ => false
  end.
Definition has_no_border (c : CellData.t) : bool :=
  match CellData.border c with
  | Some b =>
      negb (draws_line (left b) || draws_line (right b)
            || draws_line (top b) || draws_line (bottom b))
  | None => true
  end.

(** The conditions of the Paragraph override other than the span
    threshold: "exactly one non-empty cell", "has no border", "the previous
    classification was not TableRow/SectionHeader", "the text exceeds 10
    words". *)
Definition override_but_span (row_data : RowData.t) (prev : option Label.t) : bool :=
  match RowData.get_non_empty_cells true row_data with
  | [c] =>
      (has_no_border c && negb (HtmlConverter.is_continuation prev)
       && bool_decide (Py.len (Py.split (text_of c)) > 10))%bool
  | _ => false
  end.

(** "that cell spans more than half the columns". *)
Definition spans_more_than_half (row_data : RowData.t) : bool :=
  match RowData.get_non_empty_cells true row_data with
  | c :: _ => bool_decide (2 * CellData.colspan c > Py.len (RowData.cells row_data))
  | [] => false
  end.

(** The column identifier the export is meant to derive, after the
    specification and the two assignments of the header loop: whitespace
    runs collapsed to underscores, then everything but ASCII letters,
    digits and underscores removed, then lowercased. *)
Definition column_identifier (h : pyvalue) : Py.str :=
  let s := Py.strip (Py.sub_spaces false (str_of h)) in
  Py.lower (Py.sub_non_ident s).
End Spec.

(** ** Concrete worksheets

    A worksheet given by its grid of cells (row 1 first, column 1 first),
    used to state facts about particular sheets. *)

Module Fixture.
Abbreviation entry := (pyvalue * option Font * option Border)%type.

Definition blank : entry := (PyNone, None, None).
Definition txt (s : string) : entry := (PyStr (Py.lit s), None, None).
Definition bold_txt (s : string) : entry := (PyStr (Py.lit s), Some {| bold := true |}, None).

(** Cells with a font and a border object: [plain] as a workbook holds
    them when no style was set, [sideless] with the border [Border()]. *)
Definition plain (s : string) : entry :=
  (PyStr (Py.lit s), Some {| bold := false |}, Some default_border).
Definition sideless (s : string) : entry :=
  (PyStr (Py.lit s), Some {| bold := false |}, Some sideless_border).
Definition plain_blank : entry := (PyNone, Some {| bold := false |}, Some default_border).
Definition sideless_blank : entry :=
  (PyNone, Some {| bold := false |}, Some sideless_border).

Definition entry_at (grid : list (list entry)) (c : Coord) : entry :=
  if (bool_decide (1 <= c.1) && bool_decide (1 <= c.2))%bool
  then default blank
         (grid !! Z.to_nat (c.2 - 1) ≫= fun r => r !! Z.to_nat (c.1 - 1))
  else blank.

Definition cell_at (grid : list (list entry)) (c : Coord) : Cell.t :=
  let '(v, f, b) := entry_at grid c in
  {| Cell.row := c.2; Cell.column := c.1; Cell.value := v;
     Cell.font := f; Cell.alignment := None; Cell.border := b |}.

Definition width (grid : list (list entry)) : Z :=
  foldl (fun m r => Z.max m (Py.len r)) 0 grid.

Definition worksheet (grid : list (list entry)) (ranges : list MergeRange.t)
    : Worksheet.t :=
  {| Worksheet.title := Py.lit "Sheet1";
     Worksheet.getitem := cell_at grid;
     Worksheet.iter_rows := fun min_col max_col =>
       map (fun row =>
              map (fun col => cell_at grid (col, row))
                  (ExcelSheetData.range_incl (default 1 min_col)
                                             (default (width grid) max_col)))
           (ExcelSheetData.range_incl 1 (Py.len grid));
     Worksheet.ranges := ranges;
     Worksheet.min_column := 1;
     Worksheet.max_column := width grid;
     Worksheet.max_row := Py.len grid |}.

Definition sheet_data (grid : list (list entry)) (ranges : list MergeRange.t)
    (images : list ImageInfo) : ExcelSheetData.t :=
  ExcelSheetData.init (worksheet grid ranges) images.

(** Row [i] (1-based) of the parsed sheet. *)
Definition row (sd : ExcelSheetData.t) (i : nat) : RowData.t :=
  default (RowData.mk 0 []) (ExcelSheetData.rows sd !! (i - 1)%nat).

End Fixture.

(** * Vocabulary of the statements *)

(** [c] lies in the rectangle of [r]. *)
Definition covers (r : MergeRange.t) (c : Coord) : Prop :=
  MergeRange.min_col r <= c.1 <= MergeRange.max_col r
  ∧ MergeRange.min_row r <= c.2 <= MergeRange.max_row r.

#[global] Instance covers_dec r c : Decision (covers r c).
Proof. unfold covers. apply _. Defined.

(** No coordinate lies in two ranges of the sheet. *)
Definition no_overlap (ranges : list MergeRange.t) : Prop :=
  ∀ r1 r2 c, r1 ∈ ranges → r2 ∈ ranges → covers r1 c → covers r2 c → r1 = r2.

(** The sheet of the specification's merge example: column 1 of rows 2 to
    4 is one range holding ["X"]. *)
Definition example_merge_range : MergeRange.t :=
  {| MergeRange.min_row := 2; MergeRange.max_row := 4;
     MergeRange.min_col := 1; MergeRange.max_col := 1 |}.

Definition example_merge_sheet : Worksheet.t :=
  Fixture.worksheet
    [[Fixture.txt "Size"; Fixture.txt "Weight"];
     [Fixture.txt "X"; Fixture.txt "a"];
     [Fixture.blank; Fixture.txt "b"];
     [Fixture.blank; Fixture.txt "c"]]
    [example_merge_range].

(** ** Sheets for the classifier *)

(** [n] copies of a two-cell data row. *)
Definition data_rows (n : nat) : list (list Fixture.entry) :=
  replicate n [Fixture.txt "16"; Fixture.txt "0.52"].

Definition footer_sentence : Fixture.entry :=
  Fixture.txt "Specifications are subject to change without notice".

(** 200 rows, the footer sentence alone in row [k], data rows elsewhere. *)
Definition sheet_with_footer_at (k : nat) : ExcelSheetData.t :=
  Fixture.sheet_data
    (data_rows (k - 1) ++ [[footer_sentence; Fixture.blank]] ++ data_rows (200 - k))
    [] [].

(** 200 rows of three columns; the last row is one range A200:C200 that
    holds the footer sentence. *)
Definition sheet_with_merged_footer : ExcelSheetData.t :=
  Fixture.sheet_data
    (replicate 199 [Fixture.txt "16"; Fixture.txt "0.52"; Fixture.txt "7"]
     ++ [[footer_sentence; Fixture.blank; Fixture.blank]])
    [{| MergeRange.min_row := 200; MergeRange.max_row := 200;
        MergeRange.min_col := 1; MergeRange.max_col := 3 |}]
    [].

(** Ten rows of four columns.  Row 1 holds a long text in the range A1:B1;
    row 2 holds a long text in the range B2:D2, its first cell being blank. *)
Definition sheet_with_wide_first_rows : ExcelSheetData.t :=
  Fixture.sheet_data
    ([[Fixture.txt "Technical product information"; Fixture.blank;
       Fixture.blank; Fixture.blank];
      [Fixture.blank; Fixture.txt "Technical product information";
       Fixture.blank; Fixture.blank]]
     ++ replicate 8 [Fixture.txt "16"; Fixture.txt "0.52"; Fixture.txt "7"; Fixture.txt "9"])
    [{| MergeRange.min_row := 1; MergeRange.max_row := 1;
        MergeRange.min_col := 1; MergeRange.max_col := 2 |};
     {| MergeRange.min_row := 2; MergeRange.max_row := 2;
        MergeRange.min_col := 2; MergeRange.max_col := 4 |}]
    [].

Definition eleven_words : string :=
  "one two three four five six seven eight nine ten eleven".

(** Twenty rows of ten columns whose cells have the border [Border()].
    Row 8 holds an eleven-word sentence in the range A8:B8 and nothing
    else. *)
Definition sheet_with_narrow_sentence : ExcelSheetData.t :=
  Fixture.sheet_data
    (replicate 7 (replicate 10 (Fixture.sideless "16"))
     ++ [Fixture.sideless eleven_words :: replicate 9 Fixture.sideless_blank]
     ++ replicate 12 (replicate 10 (Fixture.sideless "16")))
    [{| MergeRange.min_row := 8; MergeRange.max_row := 8;
        MergeRange.min_col := 1; MergeRange.max_col := 2 |}]
    [].

(** Twenty rows of ten columns whose cells have the default border.  Row 8
    holds an eleven-word sentence in the range A8:F8, six of the ten
    columns, and nothing else. *)
Definition sheet_with_wide_sentence : ExcelSheetData.t :=
  Fixture.sheet_data
    (replicate 7 (replicate 10 (Fixture.plain "16"))
     ++ [Fixture.plain eleven_words :: replicate 9 Fixture.plain_blank]
     ++ replicate 12 (replicate 10 (Fixture.plain "16")))
    [{| MergeRange.min_row := 8; MergeRange.max_row := 8;
        MergeRange.min_col := 1; MergeRange.max_col := 6 |}]
    [].

(** Two ranges that share the coordinate B2: A1:B2, whose top-left cell
    holds ["p"], and B2:C3.  B2, a merged cell of the first range, holds
    nothing of its own. *)
Definition range_A1_B2 : MergeRange.t :=
  {| MergeRange.min_row := 1; MergeRange.max_row := 2;
     MergeRange.min_col := 1; MergeRange.max_col := 2 |}.
Definition range_B2_C3 : MergeRange.t :=
  {| MergeRange.min_row := 2; MergeRange.max_row := 3;
     MergeRange.min_col := 2; MergeRange.max_col := 3 |}.
Definition overlapping_sheet : Worksheet.t :=
  Fixture.worksheet
    [[Fixture.plain "p"; Fixture.plain_blank; Fixture.plain_blank];
     [Fixture.plain_blank; Fixture.plain_blank; Fixture.plain_blank];
     [Fixture.plain_blank; Fixture.plain_blank; Fixture.plain_blank]]
    [range_A1_B2; range_B2_C3].

(** ** Sheets for the exporter and the table builder *)

(** ["Cable Size (mm²)"]: the superscript two is U+00B2. *)
Definition cable_size_header : Py.str :=
  Py.lit "Cable Size (mm" ++ [178%N] ++ Py.lit ")".

(** A section header, a header row and one data row. *)
Definition dimensions_sheet : ExcelSheetData.t :=
  Fixture.sheet_data
    [[Fixture.txt "DIMENSIONS"; Fixture.blank];
     [(PyStr cable_size_header, None, None); Fixture.txt "Weight"];
     [Fixture.txt "16"; Fixture.txt "0.52"]]
    [] [].

(** The specification's table: a bold header row over two data rows. *)
Definition header_and_two_rows : list RowData.t :=
  ExcelSheetData.rows
    (Fixture.sheet_data
       [[Fixture.bold_txt "A"; Fixture.bold_txt "B"];
        [Fixture.txt "1"; Fixture.txt "2"];
        [Fixture.txt "3"; Fixture.txt "4"]]
       [] []).

(** A block of one row whose cells are all blank. *)
Definition blank_block : list RowData.t :=
  ExcelSheetData.rows (Fixture.sheet_data [[Fixture.blank; Fixture.blank]] [] []).

(** ** Vocabulary for the accumulation pass *)

(** The tag of the nearest row that was not classified Empty. *)
Definition nearest_non_empty (tags : list Label.t) : option Label.t :=
  last (filter (fun t => t ≠ Label.empty) tags).

(** The classifications logged so far, one per row processed. *)
Definition tags_of (st : HtmlConverter.State) : list Label.t :=
  map snd (HtmlConverter.debug_log st).

(** The state of [convert] after the rows [pre] of the sheet's main loop. *)
Definition state_after (sd : ExcelSheetData.t) (pre : list RowData.t)
    : HtmlConverter.State :=
  HtmlConverter.run sd (HtmlConverter.start_of sd).1 (HtmlConverter.start_of sd).2 pre.

(** A data row, two blank rows, then a row with one short cell. *)
Definition sheet_with_blank_run : ExcelSheetData.t :=
  Fixture.sheet_data
    ([[Fixture.txt "16"; Fixture.txt "0.52"];
      [Fixture.blank; Fixture.blank];
      [Fixture.blank; Fixture.blank];
      [Fixture.txt "25"; Fixture.blank]]
     ++ replicate 8 [Fixture.txt "35"; Fixture.txt "0.9"])
    [] [].

(** The [src] of an image tag. *)
Definition tag_src (t : HtmlConverter.Tag) : option Py.str :=
  match t with
  | HtmlConverter.img_excel_image src _ => Some src
  | _ => None
  end.

(** The [src] attributes of the image tags of a page, in page order. *)
Definition image_srcs (content : list HtmlConverter.Element) : list Py.str :=
  omap (fun e => tag_src (HtmlConverter.tag e)) content.

(** [f"/storage/{path}"] *)
Definition storage_src (path : Py.str) : Py.str := Py.lit "/storage/" ++ path.

(** [src] is the public path of an asset recorded in [images_used]. *)
Definition known (used : gset Py.str) (src : Py.str) : Prop :=
  ∃ path, src = storage_src path ∧ path ∈ used.

(** A sheet whose images repeat an asset: rows 2 and 4 both carry
    ["a.png"], rows 4 and 7 both carry ["b.png"]. *)
Definition sheet_with_repeated_images : ExcelSheetData.t :=
  Fixture.sheet_data
    ([[Fixture.txt "BASEC approved cable"; Fixture.blank];
      [Fixture.txt "DIMENSIONS"; Fixture.blank];
      [Fixture.bold_txt "A"; Fixture.bold_txt "B"];
      [Fixture.txt "1"; Fixture.txt "2"];
      [Fixture.blank; Fixture.blank];
      [Fixture.txt "3"; Fixture.blank];
      [Fixture.txt "4"; Fixture.txt "5"]]
     ++ replicate 8 [Fixture.blank; Fixture.blank])
    []
    [{| img_row := 2; img_col := 1; img_path := Py.lit "a.png" |};
     {| img_row := 4; img_col := 1; img_path := Py.lit "a.png" |};
     {| img_row := 4; img_col := 1; img_path := Py.lit "b.png" |};
     {| img_row := 7; img_col := 1; img_path := Py.lit "b.png" |}].

(** What holds of the images between two rows: no [src] twice on the page,
    every [src] of the page recorded as used, and the title image recorded
    as used and not yet on the page as long as nothing was classified. *)
Definition images_inv (timg : option HtmlConverter.Tag) (st : HtmlConverter.State) : Prop :=
  NoDup (image_srcs (HtmlConverter.content_elements st))
  ∧ (∀ src, src ∈ image_srcs (HtmlConverter.content_elements st) →
            known (HtmlConverter.images_used st) src)
  ∧ (∀ src, timg ≫= tag_src = Some src →
            known (HtmlConverter.images_used st) src
            ∧ (HtmlConverter.last_classification st = None →
               src ∉ image_srcs (HtmlConverter.content_elements st))).

(** The rows the elements of a page were built from, in page order. *)
Definition sources (content : list HtmlConverter.Element) : list RowData.t :=
  content ≫= HtmlConverter.source.

Definition is_table (e : HtmlConverter.Element) : Prop :=
  ∃ t, HtmlConverter.tag e = HtmlConverter.div_table_responsive t.



(** The buffers of a state. *)
Definition buffers_of (st : HtmlConverter.State) : HtmlConverter.Buffers :=
  (HtmlConverter.content_elements st, HtmlConverter.current_table_rows st,
   HtmlConverter.current_paragraph_lines st).


(** An image tag, if any. *)
Definition is_image (o : option HtmlConverter.Tag) : Prop :=
  ∀ t, o = Some t → is_Some (tag_src t).

(** Elements that are no tables and come from the row being processed, or
    from none. *)
Definition plain_from (row : RowData.t) (extra : list HtmlConverter.Element) : Prop :=
  (∀ e, e ∈ extra → ¬ is_table e) ∧ sources extra `sublist_of` [row].

(** ** Vocabulary for the grid *)

(** The last column a cell occupies, as [get_last_data_column_index]
    computes it. *)
Definition col_end (cell : CellData.t) : Z :=
  CellData.column cell
  + (if CellData.is_top_left_merged cell then CellData.colspan cell - 1 else 0).

(** A sheet of three rows, for [get_rows_in_range]. *)
Definition three_row_sheet : ExcelSheetData.t :=
  Fixture.sheet_data
    [[Fixture.txt "a"; Fixture.txt "b"];
     [Fixture.txt "c"; Fixture.txt "d"];
     [Fixture.txt "e"; Fixture.txt "f"]]
    [] [].

(** ** Vocabulary for the markup *)

Definition is_br (n : HtmlConverter.Node) : bool :=
  match n with HtmlConverter.Br => true | _ => false end.

(** The number of [<br>] among the nodes, and of line feeds in a text. *)
Definition br_count (nodes : list HtmlConverter.Node) : nat :=
  length (filter (fun n => is_br n = true) nodes).
Definition newline_count (text : Py.str) : nat :=
  length (filter (fun c => c = 10%N) text).

(** The three kinds of table cell: [<th>], [<th scope="row">], [<td>]. *)
Definition is_head_cell (c : HtmlConverter.CellTag) : Prop :=
  HtmlConverter.tag_name c = HtmlConverter.th ∧ HtmlConverter.scope_row c = false.
Definition is_row_header_cell (c : HtmlConverter.CellTag) : Prop :=
  HtmlConverter.tag_name c = HtmlConverter.th ∧ HtmlConverter.scope_row c = true.
Definition is_data_cell (c : HtmlConverter.CellTag) : Prop :=
  HtmlConverter.tag_name c = HtmlConverter.td ∧ HtmlConverter.scope_row c = false.

(** A body row: a row-header cell, then data cells. *)
Definition is_body_row (tr : list HtmlConverter.CellTag) : Prop :=
  ∃ first rest, tr = first :: rest ∧ is_row_header_cell first
                ∧ Forall is_data_cell rest.

(** A head row: at least one cell, all of them head cells. *)
Definition is_head_row (tr : list HtmlConverter.CellTag) : Prop :=
  tr ≠ [] ∧ Forall is_head_cell tr.

(** The row has a non-empty cell, merge-covered cells counted. *)
Definition has_content (r : RowData.t) : Prop := RowData.is_empty false r = false.

(** ** Vocabulary for the page *)

(** [src] is the public path of one of the sheet's images. *)
Definition from_sheet (sd : ExcelSheetData.t) (src : Py.str) : Prop :=
  ∃ info, info ∈ ExcelSheetData.images sd ∧ src = storage_src (img_path info).

Definition is_h1 (e : HtmlConverter.Element) : bool :=
  match HtmlConverter.tag e with HtmlConverter.h1_cable_title _ => true | _ => false end.

(** The number of [<h1>] on a page. *)
Definition h1_count (content : list HtmlConverter.Element) : nat :=
  length (filter (fun e => is_h1 e = true) content).

(** The rows held by the page and the two open accumulations. *)
Definition held (b : HtmlConverter.Buffers) : list RowData.t :=
  sources b.1.1 ++ b.1.2 ++ map fst b.2.

(** [r] is one of the rows [done], and was given a classification other
    than Empty in [tags]. *)
Definition classified (done : list RowData.t) (tags : list Label.t)
    (r : RowData.t) : Prop :=
  ∃ i t, done !! i = Some r ∧ tags !! i = Some t ∧ t ≠ Label.empty.

(** A sheet without a Title row whose second row carries an image. *)
Definition sheet_with_untitled_image : ExcelSheetData.t :=
  Fixture.sheet_data
    ([[Fixture.txt "16"; Fixture.txt "0.52"];
      [Fixture.txt "25"; Fixture.txt "0.81"]]
     ++ replicate 8 [Fixture.txt "35"; Fixture.txt "0.9"])
    []
    [{| img_row := 2; img_col := 1; img_path := Py.lit "a.png" |}].

(** The cells of a body row: the first one as row header, the others as
    data. *)
Definition render_body (kept : list CellData.t) : list HtmlConverter.CellTag :=
  match kept with
  | [] => []
  | k :: ks =>
      HtmlConverter.make_cell HtmlConverter.th true k
      :: map (HtmlConverter.make_cell HtmlConverter.td false) ks
  end.

(** The cell is rendered: within the columns of the table, not registered
    as covered by a rowspan, and not covered by a merge. *)
Definition rendered (max_col_index : Z) (processed : gset Coord)
    (c : CellData.t) : Prop :=
  HtmlConverter.cell_skipped max_col_index processed c = false.

#[global] Instance rendered_dec m p c : Decision (rendered m p c).
Proof. unfold rendered. apply _. Defined.

(** The elements built from one row: [<h1>], [<h2>] and the footer
    [<div>], each with the kind of row it stands for and its rows. *)
Definition single_of (e : HtmlConverter.Element) : option (Label.t * list RowData.t) :=
  match HtmlConverter.tag e with
  | HtmlConverter.h1_cable_title _ => Some (Label.title, HtmlConverter.source e)
  | HtmlConverter.h2_section_header _ => Some (Label.section_header, HtmlConverter.source e)
  | HtmlConverter.div_footer_text _ => Some (Label.footer, HtmlConverter.source e)
  | _ => None
  end.
Definition singles (content : list HtmlConverter.Element)
    : list (Label.t * list RowData.t) :=
  omap single_of content.

Definition is_single_label (t : Label.t) : bool :=
  match t with
  | Label.title | Label.section_header | Label.footer => true
  | _ => false
  end.

(** What a row classified [t] contributes to [singles]. *)
Definition single_row (row : RowData.t) (t : Label.t)
    : list (Label.t * list RowData.t) :=
  if is_single_label t then [(t, [row])] else [].

(** The rows classified Title, SectionHeader or Footer, in order. *)
Definition single_rows (rows : list RowData.t) (tags : list Label.t)
    : list (Label.t * list RowData.t) :=
  concat (zip_with single_row rows tags).

(** * Properties *)

(** Case analysis on every condition of the goal. *)
Ltac split_ifs :=
  repeat match goal with
         | |- context [if ?c then _ else _] => destruct c
         end.



(** ** The merge index *)

Section MergeIndex.
Import ExcelSheetData.

Lemma elem_of_range_incl lo hi x : x ∈ range_incl lo hi ↔ lo <= x <= hi.
Proof. unfold range_incl. rewrite elem_of_seqZ. lia. Qed.

Lemma elem_of_range_coords r c : c ∈ range_coords r ↔ covers r c.
Proof.
  unfold range_coords, covers. destruct c as [col row]. simpl.
  rewrite list_elem_of_bind. split.
  - intros (y & Hin & Hy). apply list_elem_of_bind in Hin as (x & Hx & Hcol).
    apply list_elem_of_singleton in Hx. injection Hx as -> ->.
    apply elem_of_range_incl in Hcol, Hy. lia.
  - intros [Hc Hr]. exists row. split; [|by apply elem_of_range_incl].
    apply list_elem_of_bind. exists col. split; [apply list_elem_of_singleton; done|].
    by apply elem_of_range_incl.
Qed.

Lemma lookup_insert_all (m : gmap Coord (Coord * MergeRange.t)) v cs c :
  foldl (fun m coord => <[coord := v]> m) m cs !! c
  = if decide (c ∈ cs) then Some v else m !! c.
Proof.
  revert m. induction cs as [|c0 cs IH]; intros m; cbn [foldl].
  - destruct (decide (c ∈ [])) as [H|H]; [by apply elem_of_nil in H | done].
  - rewrite IH. destruct (decide (c ∈ cs)) as [Hin|Hnin].
    + rewrite decide_True; [done | by right].
    + destruct (decide (c0 = c)) as [->|Hne].
      * rewrite lookup_insert_eq. rewrite decide_True; [done | by left].
      * rewrite lookup_insert_ne by done.
        rewrite decide_False; [done|]. intros Hin. apply elem_of_cons in Hin.
        destruct Hin; [congruence | done].
Qed.

Lemma lookup_add_range m r c :
  add_range m r !! c = if decide (covers r c) then Some (top_left r, r) else m !! c.
Proof.
  unfold add_range. rewrite lookup_insert_all.
  destruct (decide (c ∈ range_coords r)) as [H|H], (decide (covers r c)) as [H'|H'];
    try done; rewrite elem_of_range_coords in H; contradiction.
Qed.

(** The entry of a coordinate is that of the last range of the list that
    covers it. *)
Lemma lookup_merged_map ranges m c :
  foldl add_range m ranges !! c
  = match last (filter (fun r => covers r c) ranges) with
    | Some r => Some (top_left r, r)
    | None => m !! c
    end.
Proof.
  revert m. induction ranges as [|r ranges IH]; intros m; simpl; [done|].
  rewrite IH. rewrite filter_cons. destruct (decide (covers r c)) as [H|H].
  - rewrite last_cons. destruct (last (filter _ ranges)); [done|].
    rewrite lookup_add_range. by rewrite decide_True.
  - destruct (last (filter _ ranges)); [done|].
    rewrite lookup_add_range. by rewrite decide_False.
Qed.

Lemma last_filter_covers ranges c r :
  last (filter (fun r => covers r c) ranges) = Some r → r ∈ ranges ∧ covers r c.
Proof.
  intros H. apply last_Some_elem_of in H. by apply list_elem_of_filter in H as [? ?].
Qed.

Lemma last_filter_none ranges c :
  last (filter (fun r => covers r c) ranges) = None → ∀ r, r ∈ ranges → ¬ covers r c.
Proof.
  intros H r Hin Hc. apply last_None in H.
  assert (r ∈ filter (fun r => covers r c) ranges) as Hf by by apply list_elem_of_filter.
  rewrite H in Hf. by apply elem_of_nil in Hf.
Qed.

End MergeIndex.

Section Resolve.
Import ExcelSheetData.

Lemma init_value cell sheet m :
  CellData.value (CellData.init cell sheet m)
  = match m !! Cell.coordinate cell with
    | Some (tl, _) =>
        if decide (tl = Cell.coordinate cell) then Cell.value cell
        else Cell.value (Worksheet.getitem sheet tl)
    | None => Cell.value cell
    end.
Proof.
  unfold CellData.init, CellData._get_value. cbn [CellData.value].
  destruct (m !! Cell.coordinate cell) as [[tl r]|] eqn:E.
  - rewrite bool_decide_eq_true_2 by eauto. cbn [andb].
    destruct (decide (tl = Cell.coordinate cell)) as [->|Hne].
    + by rewrite bool_decide_eq_true_2.
    + by rewrite bool_decide_eq_false_2.
  - rewrite bool_decide_eq_false_2; [done|]. by intros [? ?].
Qed.

(** C1 (amended).  On a sheet whose merge ranges do not overlap: a cell
    covered by a range of which it is not the top-left corner gets the
    value of that range's top-left cell, and every other cell gets its own
    value. *)
Theorem C1_value_resolves_to_owner (sheet : Worksheet.t) (cell : Cell.t) :
  no_overlap (Worksheet.ranges sheet) →
  let cd := CellData.init cell sheet (_create_merged_cells_map sheet) in
  (∀ r, r ∈ Worksheet.ranges sheet → covers r (Cell.coordinate cell) →
        Cell.coordinate cell ≠ top_left r →
        CellData.value cd = Cell.value (Worksheet.getitem sheet (top_left r)))
  ∧ ((∀ r, r ∈ Worksheet.ranges sheet → covers r (Cell.coordinate cell) →
           Cell.coordinate cell = top_left r) →
     CellData.value cd = Cell.value cell).
Proof.
  intros Hdisj cd. subst cd. rewrite init_value.
  unfold _create_merged_cells_map. rewrite lookup_merged_map, lookup_empty.
  destruct (last (filter _ (Worksheet.ranges sheet))) as [r0|] eqn:E.
  - apply last_filter_covers in E as [Hin0 Hc0]. split.
    + intros r Hin Hc Hne. assert (r = r0) as -> by eauto.
      by rewrite decide_False.
    + intros Hown. rewrite decide_True; [done|]. symmetry. by apply Hown.
  - split; [|done]. intros r Hin Hc _.
    exfalso. by eapply last_filter_none.
Qed.

End Resolve.

(** A single range overlaps nothing. *)
Lemma no_overlap_singleton r : no_overlap [r].
Proof.
  intros r1 r2 c H1 H2 _ _.
  apply list_elem_of_singleton in H1, H2. congruence.
Qed.

Lemma C1_value_resolves_to_owner_witness :
  CellData.value
    (CellData.init (Worksheet.getitem example_merge_sheet (1, 4)) example_merge_sheet
       (ExcelSheetData._create_merged_cells_map example_merge_sheet))
  = PyStr (Py.lit "X").
Proof.
  apply (proj1 (C1_value_resolves_to_owner example_merge_sheet
                  (Worksheet.getitem example_merge_sheet (1, 4))
                  (no_overlap_singleton example_merge_range))
               example_merge_range).
  - apply list_elem_of_singleton. reflexivity.
  - unfold covers. simpl. lia.
  - simpl. discriminate.
Defined.

(** C1, the claim as worded fails.  The coordinate B2 lies in the range
    A1:B2 and is not its top-left corner, but the index keeps for B2 the
    range added last, B2:C3, of which it is the corner: B2 resolves to its
    own value, [None], not to the ["p"] of A1. *)
Lemma C1_counterexample :
  let sheet := overlapping_sheet in
  let cell := Worksheet.getitem sheet (2, 2) in
  range_A1_B2 ∈ Worksheet.ranges sheet
  ∧ covers range_A1_B2 (Cell.coordinate cell)
  ∧ Cell.coordinate cell ≠ ExcelSheetData.top_left range_A1_B2
  ∧ Cell.value (Worksheet.getitem sheet (ExcelSheetData.top_left range_A1_B2))
    = PyStr (Py.lit "p")
  ∧ CellData.value
      (CellData.init cell sheet (ExcelSheetData._create_merged_cells_map sheet))
    = PyNone.
Proof.
  cbv zeta. refine (conj _ (conj _ (conj _ (conj _ _)))).
  - apply elem_of_cons. by left.
  - unfold covers. simpl. lia.
  - simpl. discriminate.
  - vm_compute. reflexivity.
  - vm_compute. reflexivity.
Qed.

(** ** The row classifier *)

Section Classifier.
Import HtmlConverter.

Lemma is_empty_from_spec b cells :
  RowData.is_empty_from b cells = true ↔ RowData.non_empty_from b cells = [].
Proof.
  induction cells as [|c cells IH]; simpl; [done|].
  destruct (RowData.skipped b c); [done|].
  destruct (CellData.is_empty c); simpl; [done|]. split; discriminate.
Qed.

Lemma non_empty_from_cells b cells c rest :
  RowData.non_empty_from b cells = c :: rest → cells ≠ [].
Proof. by destruct cells. Qed.

(** The classifier on a row whose first non-empty cell is known: the
    precedence chain, and nothing before it. *)
Lemma classify_row_chain sd row prev first_cell rest :
  RowData.get_non_empty_cells true row = first_cell :: rest →
  _classify_row sd row prev =
    let first_text := Spec.text_of first_cell in
    if (bool_decide (RowData.row_idx row <= 3) && bool_decide (prev = None)
        && _is_like_title row first_text)%bool
    then Label.title
    else if (bool_decide (RowData.row_idx row >= Py.len (ExcelSheetData.rows sd) - 5)
             && _is_like_footer row (Py.lower first_text))%bool
    then Label.footer
    else if (bool_decide (CellData.column first_cell
                          = Worksheet.min_column (ExcelSheetData.sheet sd))
             && _is_like_section_header row (Py.upper first_text) (Py.lower first_text))%bool
    then Label.section_header
    else if (bool_decide (Py.len (first_cell :: rest) > 1)
             || (bool_decide (Py.len (first_cell :: rest) = 1)
                 && bool_decide (CellData.colspan first_cell > 1))
             || has_borders first_cell || is_continuation prev)%bool
    then if (bool_decide (Py.len (first_cell :: rest) = 1)
             && bool_decide (CellData.colspan first_cell > 1)
             && bool_decide (Py.len (Py.split first_text) > 10)
             && negb (has_borders first_cell) && negb (is_continuation prev))%bool
         then Label.paragraph_line
         else Label.table_row
    else Label.paragraph_line.
Proof.
  intros Hne. unfold _classify_row.
  destruct (RowData.is_empty true row) eqn:E.
  - apply is_empty_from_spec in E. unfold RowData.get_non_empty_cells in Hne. congruence.
  - rewrite Hne. reflexivity.
Qed.

Lemma classify_row_empty sd row prev :
  RowData.get_non_empty_cells true row = [] → _classify_row sd row prev = Label.empty.
Proof.
  intros Hne. unfold _classify_row. rewrite Hne. by destruct (RowData.is_empty true row).
Qed.

(** The three ways of [_is_like_title], spelled out: [cell0] is the row's
    first cell, [text] the text of its first non-empty cell. *)
Lemma is_like_title_spec row cell0 others text :
  RowData.cells row = cell0 :: others →
  _is_like_title row text = true ↔
    (Py.len text > 15
     ∧ CellData.colspan cell0 > Z.max 1 (Py.len (RowData.cells row) / 2))
    ∨ (Py.any_in (map Py.lit ["cable"; "conductor"; "wire"]%string) (Py.lower text) = true
       ∧ Py.search voltage_pattern text = true)
    ∨ Py.contains (Py.lit "basec") (Py.lower text) = true.
Proof.
  intros Hc. unfold _is_like_title. rewrite Hc.
  rewrite !orb_true_iff, !andb_true_iff, !bool_decide_eq_true.
  rewrite <- Hc. tauto.
Qed.

(** C5 (amended).  The row is classified Title exactly when it has a
    non-empty cell, its index is at most 3, nothing was classified before
    it, and either the text of its first non-empty cell is longer than 15
    while the row's first cell has a colspan above max(1, columns // 2), or
    that text names a cable, conductor or wire and holds a voltage pattern,
    or it contains "basec". *)
Theorem C5_title_exactly_when (sd : ExcelSheetData.t) (row : RowData.t)
    (prev : option Label.t) :
  _classify_row sd row prev = Label.title ↔
  ∃ first_cell cell0,
    head (RowData.get_non_empty_cells true row) = Some first_cell
    ∧ head (RowData.cells row) = Some cell0
    ∧ RowData.row_idx row <= 3
    ∧ prev = None
    ∧ ((Py.len (Spec.text_of first_cell) > 15
        ∧ CellData.colspan cell0 > Z.max 1 (Py.len (RowData.cells row) / 2))
       ∨ (Py.any_in (map Py.lit ["cable"; "conductor"; "wire"]%string)
            (Py.lower (Spec.text_of first_cell)) = true
          ∧ Py.search voltage_pattern (Spec.text_of first_cell) = true)
       ∨ Py.contains (Py.lit "basec") (Py.lower (Spec.text_of first_cell)) = true).
Proof.
  destruct (RowData.get_non_empty_cells true row) as [|first_cell rest] eqn:Hne.
  - rewrite classify_row_empty by done. split; [discriminate|].
    intros (? & ? & ? & _). discriminate.
  - rewrite (classify_row_chain _ _ _ _ _ Hne). cbv zeta.
    destruct (RowData.cells row) as [|cell0 others] eqn:Hc.
    { by apply non_empty_from_cells in Hne. }
    destruct (bool_decide (RowData.row_idx row <= 3) && bool_decide (prev = None)
              && _is_like_title row (Spec.text_of first_cell))%bool eqn:Ht.
    + split; [intros _|done].
      apply andb_prop in Ht as [Ht Hlike]. apply andb_prop in Ht as [Hidx Hprev].
      apply bool_decide_eq_true in Hidx, Hprev.
      exists first_cell, cell0. repeat split; try done.
      rewrite <- Hc. by apply (is_like_title_spec row cell0 others).
    + split.
      { repeat case_match; discriminate. }
      intros (fc & c0 & Hfc & Hc0 & Hidx & Hprev & Hlike).
      injection Hfc as <-. injection Hc0 as <-.
      rewrite <- Hc in Hlike. apply (is_like_title_spec row cell0 others) in Hlike; [|done].
      rewrite Hlike in Ht. rewrite !bool_decide_eq_true_2 in Ht by done. discriminate.
Qed.

(** C5, the claim as worded fails.  Row 1 of the sheet holds a 29-character
    text in a range of two of its four columns, and nothing was classified
    before it: the wording makes it a Title, the classifier a TableRow.  So
    for row 2, whose text stands in a three-column range after a blank
    first cell. *)
Lemma C5_counterexample :
  let sd := sheet_with_wide_first_rows in
  (Spec.title_rule (Fixture.row sd 1) None = true
   ∧ _classify_row sd (Fixture.row sd 1) None = Label.table_row)
  ∧ (Spec.title_rule (Fixture.row sd 2) None = true
     ∧ _classify_row sd (Fixture.row sd 2) None = Label.table_row).
Proof. vm_compute. done. Qed.

(** The specification's example: the single word DIMENSIONS in the leftmost
    column is a SectionHeader. *)
Example dimensions_is_section_header :
  _classify_row dimensions_sheet (Fixture.row dimensions_sheet 1) None
  = Label.section_header.
Proof. vm_compute. reflexivity. Qed.

(** C2 (amended).  The row is classified Footer exactly when it has a
    non-empty cell, the Title rule does not take it, its index is at least
    the number of rows minus 5 (the last six rows of the sheet), it has
    exactly one non-empty cell where merge-covered cells count with the
    value of their range, and the text of its first non-empty cell contains
    a footer keyword.  The footer sentence alone in row 50 of the 200-row
    sheet is never a Footer. *)
Theorem C2_footer_exactly_when (sd : ExcelSheetData.t) (row : RowData.t)
    (prev : option Label.t) :
  (_classify_row sd row prev = Label.footer ↔
   ∃ first_cell,
     head (RowData.get_non_empty_cells true row) = Some first_cell
     ∧ ¬ (RowData.row_idx row <= 3 ∧ prev = None
          ∧ _is_like_title row (Spec.text_of first_cell) = true)
     ∧ RowData.row_idx row >= Py.len (ExcelSheetData.rows sd) - 5
     ∧ Py.len (RowData.get_non_empty_cells false row) = 1
     ∧ Py.any_in FOOTER_KEYWORDS_LOWER (Py.lower (Spec.text_of first_cell)) = true)
  ∧ _classify_row (sheet_with_footer_at 50) (Fixture.row (sheet_with_footer_at 50) 50) prev
    ≠ Label.footer.
Proof.
  split.
  - destruct (RowData.get_non_empty_cells true row) as [|first_cell rest] eqn:Hne.
    + rewrite classify_row_empty by done. split; [discriminate|].
      intros (? & ? & _). discriminate.
    + rewrite (classify_row_chain _ _ _ _ _ Hne). cbv zeta. unfold _is_like_footer.
      destruct (bool_decide (RowData.row_idx row <= 3) && bool_decide (prev = None)
                && _is_like_title row (Spec.text_of first_cell))%bool eqn:Ht.
      * split; [discriminate|]. intros (fc & Hfc & Hnt & _). injection Hfc as <-.
        exfalso. apply Hnt.
        apply andb_prop in Ht as [Ht ?]. apply andb_prop in Ht as [Hidx Hprev].
        by apply bool_decide_eq_true in Hidx, Hprev.
      * destruct (bool_decide (RowData.row_idx row >= Py.len (ExcelSheetData.rows sd) - 5)
                  && (bool_decide (Py.len (RowData.get_non_empty_cells false row) = 1)
                      && Py.any_in FOOTER_KEYWORDS_LOWER
                           (Py.lower (Spec.text_of first_cell))))%bool eqn:Hf.
        -- split; [intros _|done].
           apply andb_prop in Hf as [Hidx Hf]. apply andb_prop in Hf as [Hone Hkw].
           apply bool_decide_eq_true in Hidx, Hone.
           exists first_cell. repeat split; try done.
           intros (Hi & Hp & Hl). rewrite Hl in Ht.
           rewrite !bool_decide_eq_true_2 in Ht by done. discriminate.
        -- split.
           { repeat case_match; discriminate. }
           intros (fc & Hfc & _ & Hidx & Hone & Hkw). injection Hfc as <-.
           rewrite Hkw in Hf. rewrite !bool_decide_eq_true_2 in Hf by done. discriminate.
  - destruct prev as [[]|]; vm_compute; discriminate.
Qed.

(** C2, the claim as worded fails.  In a 200-row sheet the footer sentence
    alone in row 195, which is not one of the last five rows, is classified
    Footer; and the footer sentence in the last row, held by a range of
    three columns, meets the wording (one non-empty cell once covered cells
    are ignored) but is classified TableRow. *)
Lemma C2_counterexample :
  (let sd := sheet_with_footer_at 195 in
   Spec.footer_rule sd (Fixture.row sd 195) = false
   ∧ _classify_row sd (Fixture.row sd 195) (Some Label.table_row) = Label.footer)
  ∧ (let sd := sheet_with_merged_footer in
     Spec.footer_rule sd (Fixture.row sd 200) = true
     ∧ _classify_row sd (Fixture.row sd 200) (Some Label.table_row) = Label.table_row).
Proof. vm_compute. done. Qed.

(** C4 (amended).  A row with exactly one non-empty cell, on which the
    border test of the classifier is false (the cell has no border object,
    or the left, right, top and bottom of its border are all [None]), with
    more than 10 words, that follows neither a TableRow nor a SectionHeader
    and is not taken by the Title, Footer or SectionHeader rules, is
    classified Paragraph whatever the span of the cell: the override asks
    for a colspan above 1, not above half the columns, and with colspan 1
    the row is a Paragraph by default.  Nothing is said here of a cell
    whose border holds a [Side] object that draws no line. *)
Theorem C4_long_single_cell_is_paragraph (sd : ExcelSheetData.t) (row : RowData.t)
    (prev : option Label.t) (first_cell : CellData.t) :
  RowData.get_non_empty_cells true row = [first_cell] →
  has_borders first_cell = false →
  is_continuation prev = false →
  Py.len (Py.split (Spec.text_of first_cell)) > 10 →
  _classify_row sd row prev ≠ Label.title →
  _classify_row sd row prev ≠ Label.footer →
  _classify_row sd row prev ≠ Label.section_header →
  _classify_row sd row prev = Label.paragraph_line.
Proof.
  intros Hne Hb Hc Hw. rewrite (classify_row_chain _ _ _ _ _ Hne). cbv zeta.
  rewrite Hb, Hc. rewrite (bool_decide_eq_true_2 _ Hw).
  intros H1 H2 H3.
  repeat (case_match; try done).
  exfalso.
  repeat match goal with
         | H : (_ && _)%bool = false |- _ => apply andb_false_iff in H as [H|H]
         | H : (_ || _)%bool = true |- _ => apply orb_true_iff in H as [H|H]
         | H : (_ && _)%bool = true |- _ => apply andb_prop in H as [? ?]
         | H : bool_decide _ = true |- _ => apply bool_decide_eq_true in H
         | H : bool_decide _ = false |- _ => apply bool_decide_eq_false in H
         end; try done; try (unfold Py.len in *; simpl in *; lia).
Qed.

(** C4, the claim as worded fails, on two rows.  Row 8 of the first sheet
    holds an eleven-word sentence in a range of two of its ten columns, in
    a cell whose border has no side, after a Paragraph: every condition of
    the override but the span threshold of the wording; the classifier
    still makes it a Paragraph.  Row 8 of the second sheet holds the
    sentence in a range of six of the ten columns, in a cell with the
    default border, which draws no line: every condition of the wording is
    met, and the classifier makes it a TableRow, the four [Side] objects
    being true. *)
Lemma C4_counterexample :
  (let sd := sheet_with_narrow_sentence in
   Spec.override_but_span (Fixture.row sd 8) (Some Label.paragraph_line) = true
   ∧ Spec.spans_more_than_half (Fixture.row sd 8) = false
   ∧ _classify_row sd (Fixture.row sd 8) (Some Label.paragraph_line)
     = Label.paragraph_line)
  ∧ (let sd := sheet_with_wide_sentence in
     Spec.override_but_span (Fixture.row sd 8) (Some Label.paragraph_line) = true
     ∧ Spec.spans_more_than_half (Fixture.row sd 8) = true
     ∧ _classify_row sd (Fixture.row sd 8) (Some Label.paragraph_line)
       = Label.table_row).
Proof. vm_compute. done. Qed.

End Classifier.

Lemma C4_long_single_cell_is_paragraph_witness :
  HtmlConverter._classify_row sheet_with_narrow_sentence
    (Fixture.row sheet_with_narrow_sentence 8) (Some Label.paragraph_line)
  = Label.paragraph_line.
Proof.
  apply (C4_long_single_cell_is_paragraph sheet_with_narrow_sentence
           (Fixture.row sheet_with_narrow_sentence 8) (Some Label.paragraph_line)
           (CellData.init
              (Worksheet.getitem (ExcelSheetData.sheet sheet_with_narrow_sentence) (1, 8))
              (ExcelSheetData.sheet sheet_with_narrow_sentence)
              (ExcelSheetData.merged_cells_map sheet_with_narrow_sentence))).
  - vm_compute. reflexivity.
  - vm_compute. reflexivity.
  - vm_compute. reflexivity.
  - vm_compute. reflexivity.
  - vm_compute. discriminate.
  - vm_compute. discriminate.
  - vm_compute. discriminate.
Defined.

(** ** The exporter's header loop *)

Section Exporter.
Import SqlConverter.

Lemma header_loop_unbound headers_raw headers :
  header_loop headers_raw None headers
  = if decide (Forall (fun h => h = PyNone) headers_raw) then inr headers
    else inl UnboundLocalError.
Proof.
  induction headers_raw as [|h rest IH]; cbn [header_loop].
  - by rewrite decide_True.
  - destruct h.
    + rewrite IH. destruct (decide (Forall _ rest)) as [H|H].
      * rewrite decide_True; [done | by constructor].
      * rewrite decide_False; [done|]. by inversion 1.
    + rewrite decide_False; [done|]. by inversion 1.
    + rewrite decide_False; [done|]. by inversion 1.
Qed.

(** C3.  The identifier the specification asks for, and what the exporter
    does instead: on the sheet with the header row ["Cable Size (mm²)",
    "Weight"] under the section DIMENSIONS, [convert] raises
    UnboundLocalError, because the header loop reads [s] without ever
    assigning it; it does so as soon as one header value is not [None], and
    so [convert] never gets past the header loop with identifiers. *)
Theorem C3_export_raises_on_headers :
  Spec.column_identifier (PyStr cable_size_header) = Py.lit "cable_size_mm"
  ∧ convert dimensions_sheet (Py.lit "DIMENSIONS") = Raised UnboundLocalError
  ∧ (∀ headers_raw,
        header_loop headers_raw None [] = inl UnboundLocalError
        ↔ ∃ h, h ∈ headers_raw ∧ h ≠ PyNone)
  ∧ (∀ sd target headers, convert sd target ≠ Proceeds headers).
Proof.
  split; [vm_compute; reflexivity|]. split; [vm_compute; reflexivity|]. split.
  - intros headers_raw. rewrite header_loop_unbound.
    destruct (decide (Forall _ headers_raw)) as [H|H].
    + split; [discriminate|]. intros (h & Hin & Hne).
      rewrite Forall_forall in H. by apply H in Hin.
    + split; [intros _|done]. apply not_Forall_Exists in H; [|apply _].
      apply Exists_exists in H as (h & Hin & Hne). by exists h.
  - intros sd target headers. unfold convert.
    repeat case_match; try discriminate.
    match goal with
    | H : header_loop _ None [] = inr (_ :: _) |- _ =>
        rewrite header_loop_unbound in H; case_decide; discriminate
    end.
Qed.

End Exporter.

(** ** Table reconstruction *)

Section Table.
Import HtmlConverter.

Lemma length_append_tr trs tr : (length (append_tr trs tr) ≤ S (length trs))%nat.
Proof. destruct tr; simpl; [lia|]. rewrite length_app. simpl. lia. Qed.

(** A section gets at most one [<tr>] per row.  [row_of] is [thead_row] or
    [tbody_row]. *)
Lemma length_section_rows (row_of : RowData.t → gset Coord → Tr * gset Coord)
    rows trs processed :
  (length (foldl (fun '(trs, processed) row_data =>
                    let '(tr, processed') := row_of row_data processed in
                    (append_tr trs tr, processed'))
                 (trs, processed) rows).1
   ≤ length trs + length rows)%nat.
Proof.
  revert trs processed. induction rows as [|r rows IH]; intros trs processed; simpl.
  - lia.
  - destruct (row_of r processed) as [tr processed'].
    etrans; [apply IH|]. pose proof (length_append_tr trs tr). lia.
Qed.

Lemma length_build_thead max_col rows :
  (length (build_thead max_col rows).1 ≤ length rows)%nat.
Proof. unfold build_thead. apply (length_section_rows (thead_row max_col) rows []). Qed.

Lemma length_build_tbody max_col rows processed :
  (length (build_tbody max_col rows processed) ≤ length rows)%nat.
Proof.
  unfold build_tbody. apply (length_section_rows (tbody_row max_col) rows []).
Qed.

(** The header rows are no more than [potential_header_end_idx], which
    stays within the block. *)
Lemma scan_headers_bounds rows idx hdr e :
  Py.len hdr <= e <= idx →
  let '(hdr', e') := scan_headers idx rows hdr e in
  Py.len hdr' <= e' <= idx + Py.len rows.
Proof.
  revert idx hdr e. unfold Py.len.
  induction rows as [|r rows IH]; intros idx hdr e He; cbn [scan_headers].
  - simpl. lia.
  - destruct (RowData.get_non_empty_cells false r) as [|c cs].
    + specialize (IH (idx + 1) hdr e). destruct (scan_headers _ rows hdr e).
      simpl length. lia.
    + destruct (is_header_row idx (c :: cs)).
      * specialize (IH (idx + 1) (hdr ++ [r]) (idx + 1)).
        destruct (scan_headers _ rows _ _). rewrite length_app in IH.
        simpl length in *. lia.
      * simpl length. lia.
Qed.

Lemma length_table_trs rows :
  (length (table_trs (build_table rows)) ≤ length rows)%nat.
Proof.
  unfold build_table, table_trs.
  pose proof (scan_headers_bounds rows 0 [] 0) as Hb.
  destruct (scan_headers 0 rows [] 0) as [hdr e]. unfold Py.len in Hb. simpl in Hb.
  specialize (Hb ltac:(lia)).
  set (data := drop (Z.to_nat e) rows).
  assert (length data = length rows - Z.to_nat e)%nat as Hd by apply length_drop.
  destruct hdr as [|h hdr].
  - cbn [thead tbody default]. simpl app.
    etrans; [apply length_build_tbody|]. lia.
  - pose proof (length_build_thead (max_col_index_of rows) (h :: hdr)) as Hh.
    destruct (build_thead (max_col_index_of rows) (h :: hdr)) as [trs processed].
    cbn [thead tbody default fst] in *. rewrite length_app.
    pose proof (length_build_tbody (max_col_index_of rows) data (∅ ∪ processed)).
    simpl length in *. lia.
Qed.

(** C7.  The table built from a block has no more rows, head and body
    together, than the block. *)
Theorem C7_rendered_rows_bounded (rows : list RowData.t) (t : TableTag) :
  _create_table_element rows = Some t →
  (length (table_trs t) ≤ length rows)%nat.
Proof.
  unfold _create_table_element. intros H.
  destruct rows as [|r rows]; [discriminate|].
  case_bool_decide; [discriminate|].
  destruct (table_trs (build_table (r :: rows))) eqn:E; [discriminate|].
  injection H as <-. apply length_table_trs.
Qed.

(** C8.  A block whose highest occupied column is 0, or whose
    reconstruction leaves no row, gives no table, and flushing it leaves
    the page as it was.  (Table reconstruction has no failing step: the
    functions above are total.) *)
Theorem C8_empty_table_is_discarded (rows : list RowData.t) (content : list Element) :
  max_col_index_of rows = 0 ∨ table_trs (build_table rows) = [] →
  _create_table_element rows = None ∧ _flush_table content rows = content.
Proof.
  intros H.
  assert (_create_table_element rows = None) as Hnone.
  { unfold _create_table_element. destruct rows as [|r rows]; [done|].
    case_bool_decide; [done|]. destruct H as [H|H]; [done|]. by rewrite H. }
  split; [done|]. unfold _flush_table. rewrite Hnone. by destruct rows.
Qed.

(** The specification's example: a bold header row over two data rows
    gives a head of one row of two header cells, and a body of two rows that
    each start with a row-header cell. *)
Example table_of_header_and_two_rows :
  map (map tag_name) (default [] (thead (build_table header_and_two_rows)))
  = [[th; th]]
  ∧ map (map (fun c => (tag_name c, scope_row c)))
        (tbody (build_table header_and_two_rows))
    = [[(th, true); (td, false)]; [(th, true); (td, false)]].
Proof. vm_compute. done. Qed.

End Table.

Lemma C7_rendered_rows_bounded_witness :
  (length (HtmlConverter.table_trs (HtmlConverter.build_table header_and_two_rows))
   ≤ length header_and_two_rows)%nat.
Proof.
  apply (C7_rendered_rows_bounded header_and_two_rows
           (HtmlConverter.build_table header_and_two_rows)).
  vm_compute. reflexivity.
Defined.

Lemma C8_empty_table_is_discarded_witness :
  HtmlConverter._create_table_element blank_block = None
  ∧ HtmlConverter._flush_table [] blank_block = [].
Proof.
  apply (C8_empty_table_is_discarded blank_block []).
  left. vm_compute. reflexivity.
Defined.

(** ** The accumulation pass: what the classifier is given *)

Section Previous.
Import HtmlConverter.

Lemma run_snoc sd timg st pre row :
  run sd timg st (pre ++ [row]) = step sd timg (run sd timg st pre) row.
Proof. unfold run. by rewrite foldl_snoc. Qed.

Lemma step_debug_log sd timg st row :
  debug_log (step sd timg st row)
  = debug_log st ++ [(RowData.row_idx row, _classify_row sd row (last_classification st))].
Proof.
  unfold step. destruct (row_image _ _ _ _) as [img_tag used].
  by destruct (handle_row _ _ _ _ _) as [[? ?] ?].
Qed.

Lemma step_last_classification sd timg st row :
  last_classification (step sd timg st row)
  = update_last (_classify_row sd row (last_classification st)) (last_classification st).
Proof.
  unfold step. destruct (row_image _ _ _ _) as [img_tag used].
  by destruct (handle_row _ _ _ _ _) as [[? ?] ?].
Qed.

Lemma nearest_non_empty_snoc tags t :
  nearest_non_empty (tags ++ [t])
  = if decide (t = Label.empty) then nearest_non_empty tags else Some t.
Proof.
  unfold nearest_non_empty. rewrite filter_app, filter_cons, filter_nil.
  destruct (decide (t = Label.empty)) as [->|Hne].
  - rewrite decide_False by (intros H; by apply H). by rewrite app_nil_r.
  - rewrite decide_True by done. by rewrite last_snoc.
Qed.

Lemma start_of_fresh sd :
  last_classification (start_of sd).2 = None ∧ debug_log (start_of sd).2 = []
  ∧ content_elements (start_of sd).2 = []
  ∧ current_table_rows (start_of sd).2 = []
  ∧ current_paragraph_lines (start_of sd).2 = [].
Proof. unfold start_of. by destruct (find_title_image _ _ _). Qed.

Lemma last_is_nearest_non_empty sd pre :
  last_classification (state_after sd pre) = nearest_non_empty (tags_of (state_after sd pre))
  ∧ map fst (debug_log (state_after sd pre)) = map RowData.row_idx pre.
Proof.
  unfold state_after, tags_of.
  induction pre as [|row pre IH] using rev_ind.
  - simpl. destruct (start_of_fresh sd) as (-> & -> & _). done.
  - rewrite run_snoc, step_debug_log, step_last_classification.
    destruct IH as [IH1 IH2]. rewrite !map_app, IH2. split; [|done].
    simpl map. rewrite nearest_non_empty_snoc, <- IH1. unfold update_last.
    destruct (decide (_ = Label.empty)) as [->|Hne].
    + by rewrite bool_decide_eq_true_2.
    + by rewrite bool_decide_eq_false_2.
Qed.

(** C10.  When [convert] has gone through the rows [pre], it has logged
    one classification per row, and the previous classification it hands
    to [_classify_row] for the next row is the logged tag of the nearest row
    that is not Empty, [None] if there is none.  So after a TableRow and any
    run of blank rows the classifier still sees TableRow: in the sheet whose
    rows 2 and 3 are blank, row 4, a single short cell, is a TableRow. *)
Theorem C10_previous_is_nearest_non_empty (sd : ExcelSheetData.t)
    (pre : list RowData.t) (row : RowData.t) :
  let st := state_after sd pre in
  map fst (debug_log st) = map RowData.row_idx pre
  ∧ last_classification st = nearest_non_empty (tags_of st)
  ∧ debug_log (state_after sd (pre ++ [row]))
    = debug_log st
      ++ [(RowData.row_idx row, _classify_row sd row (nearest_non_empty (tags_of st)))]
  ∧ tags_of (state_after sheet_with_blank_run (take 4 (ExcelSheetData.rows sheet_with_blank_run)))
    = [Label.table_row; Label.empty; Label.empty; Label.table_row].
Proof.
  intros st. subst st. destruct (last_is_nearest_non_empty sd pre) as [H1 H2].
  split; [done|]. split; [done|]. split.
  - unfold state_after in *. by rewrite run_snoc, step_debug_log, H1.
  - vm_compute. reflexivity.
Qed.

End Previous.

(** ** The accumulation pass: images *)

Section Images.
Import HtmlConverter.

Lemma classify_title_prev sd row prev :
  _classify_row sd row prev = Label.title → prev = None.
Proof.
  destruct (RowData.get_non_empty_cells true row) as [|first_cell rest] eqn:Hne.
  - by rewrite classify_row_empty.
  - rewrite (classify_row_chain _ _ _ _ _ Hne). cbv zeta.
    destruct (bool_decide (prev = None)) eqn:Hp.
    + intros _. by apply bool_decide_eq_true in Hp.
    + rewrite andb_false_r. simpl. repeat case_match; discriminate.
Qed.

Lemma image_srcs_app c1 c2 : image_srcs (c1 ++ c2) = image_srcs c1 ++ image_srcs c2.
Proof. apply omap_app. Qed.

Lemma image_srcs_flush_table content rows :
  image_srcs (_flush_table content rows) = image_srcs content.
Proof.
  unfold _flush_table. destruct rows; [done|].
  destruct (_create_table_element _); [|done].
  rewrite image_srcs_app. simpl. by rewrite app_nil_r.
Qed.

Lemma image_srcs_flush_paragraph content lines :
  image_srcs (_flush_paragraph content lines) = image_srcs content.
Proof.
  unfold _flush_paragraph. destruct lines; [done|].
  destruct (Py.strip _); [done|].
  rewrite image_srcs_app. simpl. by rewrite app_nil_r.
Qed.

Lemma image_srcs_add_title content row :
  image_srcs (_add_title_tag content row) = image_srcs content.
Proof.
  unfold _add_title_tag. destruct (first_non_empty row); [|done].
  rewrite image_srcs_app. simpl. by rewrite app_nil_r.
Qed.

Lemma image_srcs_add_section_header content row :
  image_srcs (_add_section_header_tag content row) = image_srcs content.
Proof.
  unfold _add_section_header_tag. destruct (first_non_empty row); [|done].
  rewrite image_srcs_app. simpl. by rewrite app_nil_r.
Qed.

Lemma image_srcs_add_footer content row :
  image_srcs (_add_footer_tag content row) = image_srcs content.
Proof.
  unfold _add_footer_tag. destruct (first_non_empty row); [|done].
  rewrite image_srcs_app. simpl. by rewrite app_nil_r.
Qed.

Lemma image_srcs_image_element t :
  image_srcs [image_element t] = option_list (tag_src t).
Proof. unfold image_srcs. simpl. by destruct (tag_src t). Qed.

Ltac push_srcs :=
  repeat first
    [ rewrite image_srcs_app | rewrite image_srcs_flush_table
    | rewrite image_srcs_flush_paragraph | rewrite image_srcs_add_title
    | rewrite image_srcs_add_section_header | rewrite image_srcs_add_footer
    | rewrite image_srcs_image_element | rewrite app_nil_r ].

Lemma image_srcs_finish_previous c last b :
  image_srcs (finish_previous c last b).1.1 = image_srcs b.1.1.
Proof.
  destruct b as [[content rows] lines]. unfold finish_previous.
  split_ifs; simpl; by push_srcs.
Qed.

Lemma image_srcs_place_image img_tag c last b :
  image_srcs (place_image img_tag c last b).1.1
  = image_srcs b.1.1
    ++ (if decide (c = Label.title) then [] else option_list (img_tag ≫= tag_src)).
Proof.
  destruct b as [[content rows] lines]. unfold place_image.
  destruct img_tag as [t|]; simpl.
  - destruct (decide (c = Label.title)) as [->|Hne].
    + simpl. by rewrite app_nil_r.
    + rewrite bool_decide_eq_false_2 by done. simpl.
      split_ifs; simpl; by push_srcs.
  - destruct (decide _); by rewrite app_nil_r.
Qed.

Lemma image_srcs_handle_row timg c last row b :
  image_srcs (handle_row timg c last row b).1.1
  = image_srcs b.1.1
    ++ (if decide (c = Label.title) then option_list (timg ≫= tag_src) else []).
Proof.
  destruct b as [[content rows] lines]. unfold handle_row.
  destruct c; simpl; try (split_ifs; simpl; by push_srcs).
  - destruct timg; simpl; by push_srcs.
  - destruct (line_text_of row); simpl; by push_srcs.
Qed.

Lemma step_image_srcs sd timg st row :
  let c := _classify_row sd row (last_classification st) in
  let img_tag := (row_image sd timg (images_used st) row).1 in
  image_srcs (content_elements (step sd timg st row))
  = image_srcs (content_elements st)
    ++ (if decide (c = Label.title) then option_list (timg ≫= tag_src)
        else option_list (img_tag ≫= tag_src))
  ∧ images_used (step sd timg st row) = (row_image sd timg (images_used st) row).2.
Proof.
  intros c img_tag. subst c img_tag. unfold step.
  destruct (row_image _ _ _ _) as [img_tag used].
  remember (_classify_row sd row (last_classification st)) as c eqn:Ec.
  remember (finish_previous c (last_classification st)
              (content_elements st, current_table_rows st, current_paragraph_lines st))
    as b1 eqn:E1.
  remember (place_image img_tag c (last_classification st) b1) as b2 eqn:E2.
  remember (handle_row timg c (last_classification st) row b2) as b3 eqn:E3.
  assert (image_srcs b3.1.1
          = image_srcs (content_elements st)
            ++ (if decide (c = Label.title) then option_list (timg ≫= tag_src)
                else option_list (img_tag ≫= tag_src))) as H.
  { rewrite E3, image_srcs_handle_row, E2, image_srcs_place_image, E1,
      image_srcs_finish_previous. cbn [fst]. rewrite <- app_assoc. f_equal.
    destruct (decide _); [done | by rewrite app_nil_r]. }
  destruct b3 as [[content rows] lines]. done.
Qed.

Lemma storage_src_inj p1 p2 : storage_src p1 = storage_src p2 → p1 = p2.
Proof. unfold storage_src. apply app_inv_head. Qed.

Lemma known_mono used used' src : used ⊆ used' → known used src → known used' src.
Proof. intros Hsub (path & -> & Hin). exists path. split; [done | set_solver]. Qed.

(** A tag returned by [_add_image_tag] shows an asset that was not used
    before and is recorded as used afterwards. *)
Lemma add_image_tag_spec sd used idx :
  match _add_image_tag sd used idx with
  | (Some t, used') =>
      ∃ path, t = img_excel_image (storage_src path) idx ∧ (path ∉ used)
              ∧ used' = {[path]} ∪ used
  | (None, used') => used' = used
  end.
Proof.
  unfold _add_image_tag. destruct (find _ _) as [info|] eqn:E; [|done].
  apply find_some in E as [_ E]. apply andb_prop in E as [_ E].
  apply bool_decide_eq_true in E. by exists (img_path info).
Qed.

Lemma row_image_spec sd timg used row :
  match row_image sd timg used row with
  | (Some t, used') =>
      ∃ path, tag_src t = Some (storage_src path) ∧ (path ∉ used)
              ∧ used' = {[path]} ∪ used
  | (None, used') => used' = used
  end.
Proof.
  unfold row_image. destruct (_ || _)%bool; [|done].
  pose proof (add_image_tag_spec sd used (RowData.row_idx row)) as H.
  destruct (_add_image_tag _ _ _) as [[t|] used']; [|done].
  destruct H as (path & -> & ? & ?). by exists path.
Qed.

Lemma find_title_image_spec sd rows used :
  match find_title_image sd rows used with
  | (Some t, used') => ∃ path, tag_src t = Some (storage_src path) ∧ path ∈ used'
  | (None, _) => True
  end.
Proof.
  revert used. induction rows as [|r rows IH]; intros used; simpl; [done|].
  pose proof (add_image_tag_spec sd used (RowData.row_idx r)) as H.
  destruct (_add_image_tag _ _ _) as [[t|] used'].
  - destruct H as (path & -> & _ & ->). exists path. split; [done | set_solver].
  - apply IH.
Qed.

Lemma images_inv_step sd timg st row :
  images_inv timg st → images_inv timg (step sd timg st row).
Proof.
  intros (Hnd & Hknown & Htitle). unfold images_inv.
  destruct (step_image_srcs sd timg st row) as [Hs Hu]. rewrite Hs, Hu.
  rewrite step_last_classification. clear Hs Hu.
  pose proof (row_image_spec sd timg (images_used st) row) as Himg.
  destruct (row_image sd timg (images_used st) row) as [img_tag used']. simpl.
  assert (images_used st ⊆ used') as Hsub.
  { destruct img_tag; [|by subst].
    destruct Himg as (? & _ & _ & ->). apply union_subseteq_r. }
  destruct (decide (_classify_row sd row (last_classification st) = Label.title))
    as [Hc|Hc].
  - (* a title: the title image goes on the page *)
    pose proof (classify_title_prev _ _ _ Hc) as Hprev.
    destruct (timg ≫= tag_src) as [tsrc|] eqn:Et; simpl.
    + destruct (Htitle tsrc eq_refl) as [Hk Hfresh]. split; [|split].
      * apply NoDup_app. split; [done|]. split; [|apply NoDup_singleton].
        intros x Hx Hx'. apply list_elem_of_singleton in Hx' as ->. by apply Hfresh.
      * intros src Hin. apply elem_of_app in Hin as [Hin|Hin].
        -- eapply known_mono; eauto.
        -- apply list_elem_of_singleton in Hin as ->. eapply known_mono; eauto.
      * intros src Hsrc. injection Hsrc as <-. split; [eapply known_mono; eauto|].
        rewrite Hc. unfold update_last. simpl. discriminate.
    + rewrite app_nil_r. split; [done|]. split; [|intros ? [=]].
      intros src Hin. eapply known_mono; eauto.
  - (* any other row: its own image, if it has one *)
    destruct img_tag as [t|]; simpl.
    + destruct Himg as (path & -> & Hnew & ->). simpl.
      assert (storage_src path ∉ image_srcs (content_elements st)) as Hfresh.
      { intros Hin. apply Hknown in Hin as (path' & Heq & Hin).
        apply storage_src_inj in Heq as <-. done. }
      split; [|split].
      * apply NoDup_app. split; [done|]. split; [|apply NoDup_singleton].
        intros x Hx Hx'. by apply list_elem_of_singleton in Hx' as ->.
      * intros src Hin. apply elem_of_app in Hin as [Hin|Hin].
        -- eapply known_mono; eauto.
        -- apply list_elem_of_singleton in Hin as ->. exists path. split; [done|].
           apply elem_of_union_l. by apply elem_of_singleton.
      * intros src Hsrc. destruct (Htitle src Hsrc) as [Hk Hold].
        split; [eapply known_mono; eauto|]. intros Hlast Hin.
        unfold update_last in Hlast. case_bool_decide; [|discriminate].
        apply elem_of_app in Hin as [Hin|Hin]; [by apply Hold|].
        apply list_elem_of_singleton in Hin as ->.
        destruct Hk as (path' & Heq & Hin). apply storage_src_inj in Heq as <-. done.
    + subst used'. rewrite app_nil_r. split; [done|]. split; [done|].
      intros src Hsrc. destruct (Htitle src Hsrc) as [Hk Hold]. split; [done|].
      intros Hlast. unfold update_last in Hlast. case_bool_decide; [|discriminate].
      by apply Hold.
Qed.

Lemma images_inv_run sd timg st rows :
  images_inv timg st → images_inv timg (run sd timg st rows).
Proof.
  revert st. induction rows as [|r rows IH]; intros st H; simpl; [done|].
  apply IH. by apply images_inv_step.
Qed.

Lemma images_inv_start sd : images_inv (start_of sd).1 (start_of sd).2.
Proof.
  unfold start_of.
  pose proof (find_title_image_spec sd (take 5 (ExcelSheetData.rows sd)) ∅) as H.
  destruct (find_title_image _ _ _) as [timg used]. unfold images_inv. simpl.
  split; [apply NoDup_nil_2|]. split; [intros ? Hin; by apply elem_of_nil in Hin|].
  intros src Hsrc. split; [|intros _ Hin; by apply elem_of_nil in Hin].
  destruct timg as [t|]; [|done]. destruct H as (path & Ht & Hin).
  simpl in Hsrc. rewrite Ht in Hsrc. injection Hsrc as <-. by exists path.
Qed.

Lemma image_srcs_finish st : image_srcs (finish st) = image_srcs (content_elements st).
Proof. unfold finish. by push_srcs. Qed.

(** C9.  No two image tags of the page [convert] builds have the same
    [src]: every asset is placed at most once, whether several rows map to
    it or it was picked as the title image.  On the sheet whose images
    repeat two assets, the page shows each of them once. *)
Theorem C9_each_asset_placed_at_most_once (sd : ExcelSheetData.t) :
  NoDup (image_srcs (convert sd))
  ∧ image_srcs (convert sheet_with_repeated_images)
    = [storage_src (Py.lit "a.png"); storage_src (Py.lit "b.png")].
Proof.
  split; [|vm_compute; reflexivity].
  unfold convert.
  pose proof (images_inv_run sd _ _ (ExcelSheetData.rows sd) (images_inv_start sd)) as H.
  destruct (start_of sd) as [timg st0]. simpl in H.
  rewrite image_srcs_finish. apply H.
Qed.

End Images.

(** ** The accumulation pass: blocks *)

Section Blocks.
Import HtmlConverter.

Lemma sources_app c1 c2 : sources (c1 ++ c2) = sources c1 ++ sources c2.
Proof. apply bind_app. Qed.

Lemma sources_singleton e : sources [e] = source e.
Proof. unfold sources. simpl. apply app_nil_r. Qed.













Lemma classify_not_start sd row prev : _classify_row sd row prev ≠ Label.start.
Proof.
  destruct (RowData.get_non_empty_cells true row) as [|first_cell rest] eqn:Hne.
  - by rewrite classify_row_empty.
  - rewrite (classify_row_chain _ _ _ _ _ Hne). cbv zeta.
    repeat case_match; discriminate.
Qed.





(** The three single-row elements: appended to the page, and plain. *)
Lemma add_title_tag_plain content row :
  ∃ extra, _add_title_tag content row = content ++ extra ∧ plain_from row extra
           ∧ (∀ e, e ∈ extra → ¬ is_table e).
Proof.
  unfold _add_title_tag. destruct (first_non_empty row).
  - eexists. split; [done|]. split; [split|].
    + intros e Hin [tt Ht]. by apply list_elem_of_singleton in Hin as ->.
    + by rewrite sources_singleton.
    + intros e Hin [tt Ht]. by apply list_elem_of_singleton in Hin as ->.
  - exists []. rewrite app_nil_r. split; [done|]. split; [split|].
    + intros e Hin. by apply elem_of_nil in Hin.
    + apply sublist_nil_l.
    + intros e Hin. by apply elem_of_nil in Hin.
Qed.

Lemma add_section_header_tag_plain content row :
  ∃ extra, _add_section_header_tag content row = content ++ extra ∧ plain_from row extra.
Proof.
  unfold _add_section_header_tag. destruct (first_non_empty row).
  - eexists. split; [done|]. split.
    + intros e Hin [tt Ht]. by apply list_elem_of_singleton in Hin as ->.
    + by rewrite sources_singleton.
  - exists []. rewrite app_nil_r. split; [done|]. split.
    + intros e Hin. by apply elem_of_nil in Hin.
    + apply sublist_nil_l.
Qed.

Lemma add_footer_tag_plain content row :
  ∃ extra, _add_footer_tag content row = content ++ extra ∧ plain_from row extra.
Proof.
  unfold _add_footer_tag. destruct (first_non_empty row).
  - eexists. split; [done|]. split.
    + intros e Hin [tt Ht]. by apply list_elem_of_singleton in Hin as ->.
    + by rewrite sources_singleton.
  - exists []. rewrite app_nil_r. split; [done|]. split.
    + intros e Hin. by apply elem_of_nil in Hin.
    + apply sublist_nil_l.
Qed.


Lemma row_image_is_image sd timg used row : is_image (row_image sd timg used row).1.
Proof.
  pose proof (row_image_spec sd timg used row) as H.
  destruct (row_image sd timg used row) as [[t|] used']; simpl; intros t' [=]; subst.
  destruct H as (path & -> & _). eauto.
Qed.

Lemma start_is_image sd : is_image (start_of sd).1.
Proof.
  unfold start_of.
  pose proof (find_title_image_spec sd (take 5 (ExcelSheetData.rows sd)) ∅) as H.
  destruct (find_title_image _ _ _) as [[t|] used]; simpl; intros t' [=]; subst.
  destruct H as (path & -> & _). eauto.
Qed.

Lemma step_buffers sd timg st row :
  let last := last_classification st in
  let c := _classify_row sd row last in
  buffers_of (step sd timg st row)
  = handle_row timg c last row
      (place_image (row_image sd timg (images_used st) row).1 c last
         (finish_previous c last (buffers_of st))).
Proof.
  simpl. unfold step, buffers_of. destruct (row_image _ _ _ _) as [img_tag used].
  simpl. by destruct (handle_row _ _ _ _ _) as [[? ?] ?].
Qed.

Lemma tags_of_step sd timg st row :
  tags_of (step sd timg st row)
  = tags_of st ++ [_classify_row sd row (last_classification st)].
Proof. unfold tags_of. by rewrite step_debug_log, map_app. Qed.





Lemma convert_finish sd :
  convert sd = finish (state_after sd (ExcelSheetData.rows sd)).
Proof. unfold convert, state_after. by destruct (start_of sd). Qed.


End Blocks.


(** * Further properties of the grid model *)

Section Grid.
Import ExcelSheetData.

Lemma lookup_merged_cells_map sheet c tl r :
  _create_merged_cells_map sheet !! c = Some (tl, r) →
  r ∈ Worksheet.ranges sheet ∧ covers r c ∧ tl = top_left r.
Proof.
  unfold _create_merged_cells_map. rewrite lookup_merged_map, lookup_empty.
  destruct (last (filter _ (Worksheet.ranges sheet))) as [r0|] eqn:E; [|done].
  intros [= <- <-]. apply last_filter_covers in E as [? ?]. done.
Qed.

(** X1.  The merge index holds exactly the coordinates that lie in some
    merge range of the sheet, and the entry of a coordinate names a range
    of the sheet that covers it, together with that range's top-left
    corner. *)
Theorem X1_merge_index_entries (sheet : Worksheet.t) (c : Coord) :
  (is_Some (_create_merged_cells_map sheet !! c)
   ↔ ∃ r, r ∈ Worksheet.ranges sheet ∧ covers r c)
  ∧ (∀ tl r, _create_merged_cells_map sheet !! c = Some (tl, r) →
             r ∈ Worksheet.ranges sheet ∧ covers r c ∧ tl = top_left r).
Proof.
  split; [|intros tl r; apply lookup_merged_cells_map].
  split.
  - intros [[tl r] H]. apply lookup_merged_cells_map in H as (? & ? & _). eauto.
  - intros (r & Hin & Hc). unfold _create_merged_cells_map.
    rewrite lookup_merged_map, lookup_empty.
    destruct (last (filter _ (Worksheet.ranges sheet))) as [r0|] eqn:E; [eauto|].
    exfalso. by eapply last_filter_none.
Qed.

(** X2.  A cell wrapper built over the sheet's merge index has rowspan
    and colspan at least 1; both are 1 unless the cell is the top-left
    corner of its range, and then they are the height and width of that
    range, which is a range of the sheet. *)
Theorem X2_spans_at_least_one (sheet : Worksheet.t) (cell : Cell.t) :
  let cd := CellData.init cell sheet (_create_merged_cells_map sheet) in
  CellData.rowspan cd >= 1 ∧ CellData.colspan cd >= 1
  ∧ (CellData.is_top_left_merged cd = false →
     CellData.rowspan cd = 1 ∧ CellData.colspan cd = 1)
  ∧ (CellData.is_top_left_merged cd = true →
     ∃ r, r ∈ Worksheet.ranges sheet
          ∧ Cell.coordinate cell = top_left r
          ∧ CellData.rowspan cd = MergeRange.max_row r - MergeRange.min_row r + 1
          ∧ CellData.colspan cd = MergeRange.max_col r - MergeRange.min_col r + 1).
Proof.
  unfold CellData.init. cbn [CellData.rowspan CellData.colspan CellData.is_top_left_merged].
  destruct (_create_merged_cells_map sheet !! Cell.coordinate cell) as [[tl r]|] eqn:E.
  - apply lookup_merged_cells_map in E as (Hin & Hc & ->).
    rewrite bool_decide_eq_true_2 by eauto. cbn [andb].
    case_bool_decide as Htl; cbn [fst snd].
    + destruct Hc as [Hcol Hrow]. repeat split; try lia; try done.
      intros _. exists r. done.
    + repeat split; try lia; done.
  - rewrite bool_decide_eq_false_2 by (by intros [? ?]). cbn [andb fst snd].
    repeat split; try lia; done.
Qed.

Lemma enumerate_from_fst {A} (k : Z) (l : list A) :
  (imap (fun i x => (Z.of_nat i + k, x)) l).*1 = seqZ k (Py.len l).
Proof.
  unfold Py.len. revert k. induction l as [|x l IH]; intros k; [done|].
  rewrite imap_cons. cbn [fmap list_fmap fst]. rewrite seqZ_cons by (simpl; lia).
  f_equal; try (simpl; lia).
  rewrite (imap_ext _ (fun i x => (Z.of_nat i + Z.succ k, x))).
  - rewrite IH. f_equal. simpl length. lia.
  - intros i y _. simpl. f_equal. lia.
Qed.

Lemma enumerate_from_snd {A} (k : Z) (l : list A) :
  (imap (fun i x => (Z.of_nat i + k, x)) l).*2 = l.
Proof.
  revert k. induction l as [|x l IH]; intros k; [done|].
  rewrite imap_cons. cbn [fmap list_fmap snd]. f_equal.
  rewrite (imap_ext _ (fun i x => (Z.of_nat i + Z.succ k, x))); [apply IH|].
  intros i y _. simpl. f_equal. lia.
Qed.

Lemma wrapped_rows_idx {A} (f : A → list CellData.t) (l : list (Z * A)) :
  map RowData.row_idx (map (fun '(row_idx, cells) => RowData.mk row_idx (f cells)) l)
  = l.*1.
Proof. induction l as [|[i c] l IH]; simpl; [done | by rewrite IH]. Qed.

Lemma wrapped_rows_cells {A} (f : A → list CellData.t) (l : list (Z * A)) :
  map RowData.cells (map (fun '(row_idx, cells) => RowData.mk row_idx (f cells)) l)
  = map f l.*2.
Proof. induction l as [|[i c] l IH]; simpl; [done | by rewrite IH]. Qed.

(** X3.  Parsing asks the worksheet for the columns from its minimum
    column to a maximum that is never above 150 and never 0, wraps every
    cell it gets, and numbers the rows 1, 2, 3, ... in the order they
    come. *)
Theorem X3_parsed_rows_are_numbered (sheet : Worksheet.t)
    (m : gmap Coord (Coord * MergeRange.t)) :
  ∃ max_col,
    max_col <= 150 ∧ max_col ≠ 0
    ∧ let grid :=
        Worksheet.iter_rows sheet (Some (Worksheet.min_column sheet)) (Some max_col) in
      map RowData.row_idx (_parse_sheet sheet m) = seqZ 1 (Py.len grid)
      ∧ map RowData.cells (_parse_sheet sheet m)
        = map (map (fun cell => CellData.init cell sheet m)) grid.
Proof.
  unfold _parse_sheet.
  set (scan := foldl _ 0 (Worksheet.iter_rows sheet None None)).
  set (c0 := Z.min scan _).
  set (c1 := if bool_decide (c0 = 0) then 50 else c0).
  set (c2 := if bool_decide (c1 > 150) then 150 else c1).
  exists c2. split; [|split].
  - subst c2. case_bool_decide; lia.
  - subst c2 c1. repeat case_bool_decide; lia.
  - cbv zeta. set (grid := Worksheet.iter_rows sheet _ _). unfold enumerate1.
    split.
    + by rewrite wrapped_rows_idx, enumerate_from_fst.
    + by rewrite wrapped_rows_cells, enumerate_from_snd.
Qed.

End Grid.

Section Rows.
Import ExcelSheetData.

Lemma slice_from_nonneg {A} (l : list A) (a b : Z) :
  0 <= a → b <= Py.len l →
  Py.slice l a b
  = take (Z.to_nat ((if bool_decide (b < 0) then Py.len l + b else b) - a))
         (drop (Z.to_nat a) l).
Proof.
  intros Ha Hb. unfold Py.slice, Py.slice_index, Py.len in *.
  rewrite (bool_decide_eq_false_2 (a < 0)) by lia.
  destruct (decide (a <= Z.of_nat (length l))) as [Hle|Hgt].
  - rewrite (Z.min_l a) by lia. case_bool_decide.
    + destruct (decide (b + Z.of_nat (length l) < 0)).
      * rewrite Z.max_r by lia.
        replace (Z.to_nat (0 - a)) with 0%nat by lia.
        by replace (Z.to_nat (Z.of_nat (length l) + b - a)) with 0%nat by lia.
      * rewrite Z.max_l by lia. do 2 f_equal. lia.
    + by rewrite Z.min_l by lia.
  - rewrite (Z.min_r a) by lia. rewrite !drop_ge by lia. by rewrite !take_nil.
Qed.

(** X4.  [get_rows_in_range] returns nothing when the first row is below
    1 or the last row beyond the sheet.  Otherwise it returns the rows from
    [start_row] on, up to row [end_row] included; an [end_row] below 0 is not
    refused but counted back from the end of the sheet, so that -1 stops
    before the last row. *)
Theorem X4_rows_in_range (sd : ExcelSheetData.t) (start_row end_row : Z) :
  (start_row < 1 ∨ end_row > Py.len (rows sd) →
   get_rows_in_range sd start_row end_row = [])
  ∧ (1 <= start_row → end_row <= Py.len (rows sd) →
     get_rows_in_range sd start_row end_row
     = take (Z.to_nat ((if bool_decide (end_row < 0)
                        then Py.len (rows sd) + end_row else end_row)
                       - (start_row - 1)))
            (drop (Z.to_nat (start_row - 1)) (rows sd))).
Proof.
  unfold get_rows_in_range. split.
  - intros [H|H].
    + by rewrite bool_decide_eq_true_2.
    + rewrite (bool_decide_eq_true_2 (end_row > _)) by done. by rewrite orb_true_r.
  - intros Hs He. rewrite !bool_decide_eq_false_2 by lia. simpl.
    apply slice_from_nonneg; lia.
Qed.

Lemma non_empty_from_elem ignore cells c :
  c ∈ RowData.non_empty_from ignore cells
  ↔ c ∈ cells ∧ CellData.is_empty c = false
    ∧ (ignore = true → CellData.merge_covered c = false).
Proof.
  induction cells as [|c0 cells IH]; cbn [RowData.non_empty_from].
  - split; [intros H; by apply elem_of_nil in H | intros [H _]; by apply elem_of_nil in H].
  - destruct (RowData.skipped ignore c0) eqn:Hs.
    + apply andb_prop in Hs as [-> Hcov]. rewrite IH, elem_of_cons. split.
      * intros (H1 & H2 & H3). split; [by right | done].
      * intros ([->|H1] & H2 & H3); [|done].
        rewrite (H3 eq_refl) in Hcov. discriminate.
    + destruct (CellData.is_empty c0) eqn:Hemp; cbn [negb].
      * rewrite IH, elem_of_cons. split.
        -- intros (H1 & H2 & H3). split; [by right | done].
        -- intros ([->|H1] & H2 & H3); [congruence | done].
      * rewrite !elem_of_cons, IH. split.
        -- intros [->|(H1 & H2 & H3)].
           ++ split; [by left|]. split; [done|]. intros ->.
              unfold RowData.skipped in Hs. by simpl in Hs.
           ++ split; [by right | done].
        -- intros ([->|H1] & H2 & H3); [by left | by right].
Qed.

Lemma non_empty_from_sublist ignore cells :
  RowData.non_empty_from ignore cells `sublist_of` cells.
Proof.
  induction cells as [|c0 cells IH]; simpl; [constructor|].
  destruct (RowData.skipped ignore c0); [by constructor|].
  destruct (CellData.is_empty c0); simpl; by constructor.
Qed.

Lemma non_empty_from_covered cells :
  RowData.non_empty_from true cells `sublist_of` RowData.non_empty_from false cells.
Proof.
  induction cells as [|c0 cells IH]; simpl; [constructor|].
  unfold RowData.skipped. simpl.
  destruct (CellData.merge_covered c0), (CellData.is_empty c0); simpl;
    first [exact IH | by apply sublist_skip | by apply sublist_cons].
Qed.

(** X5.  [is_empty] answers True exactly when [get_non_empty_cells], with
    the same flag, returns no cell.  The cells returned are, in row order,
    the cells that are not empty, and with the flag set also not covered by
    a merge; so the cells returned with the flag set are among those
    returned without it. *)
Theorem X5_non_empty_cells (ignore_merged_covered : bool) (r : RowData.t) :
  (RowData.is_empty ignore_merged_covered r = true
   ↔ RowData.get_non_empty_cells ignore_merged_covered r = [])
  ∧ RowData.get_non_empty_cells ignore_merged_covered r `sublist_of` RowData.cells r
  ∧ RowData.get_non_empty_cells true r `sublist_of` RowData.get_non_empty_cells false r
  ∧ (∀ c, c ∈ RowData.get_non_empty_cells ignore_merged_covered r
          ↔ c ∈ RowData.cells r ∧ CellData.is_empty c = false
            ∧ (ignore_merged_covered = true → CellData.merge_covered c = false)).
Proof.
  split; [apply is_empty_from_spec|]. split; [apply non_empty_from_sublist|].
  split; [apply non_empty_from_covered|]. intros c. apply non_empty_from_elem.
Qed.

Lemma last_col_fold cells acc :
  let res :=
    foldl (fun last_col cell =>
             if negb (CellData.is_empty cell)
             then Z.max last_col
                    (CellData.column cell +
                     (if CellData.is_top_left_merged cell
                      then CellData.colspan cell - 1 else 0))
             else last_col) acc cells in
  acc <= res
  ∧ (∀ c, c ∈ cells → CellData.is_empty c = false → col_end c <= res)
  ∧ (res = acc ∨ ∃ c, c ∈ cells ∧ CellData.is_empty c = false ∧ col_end c = res).
Proof.
  revert acc. induction cells as [|c0 cells IH]; intros acc; cbn [foldl].
  - split; [lia|]. split; [|by left]. intros c H. by apply elem_of_nil in H.
  - cbv zeta in IH. destruct (CellData.is_empty c0) eqn:E; cbn [negb].
    + destruct (IH acc) as (H1 & H2 & H3). split; [done|]. split.
      * intros c Hin Hc. apply elem_of_cons in Hin as [->|Hin]; [congruence|eauto].
      * destruct H3 as [?|(c & ? & ? & ?)]; [by left|].
        right. exists c. split; [by right | done].
    + fold (col_end c0). destruct (IH (Z.max acc (col_end c0))) as (H1 & H2 & H3).
      split; [lia|]. split.
      * intros c Hin Hc. apply elem_of_cons in Hin as [->|Hin]; [lia|eauto].
      * destruct H3 as [H3|(c & ? & ? & ?)].
        -- destruct (decide (col_end c0 <= acc)).
           ++ left. lia.
           ++ right. exists c0. split; [by left|]. split; [done|lia].
        -- right. exists c. split; [by right | done].
Qed.

(** X6.  [get_last_data_column_index] is never negative, is at least the
    last column of every cell of the row that is not empty (its column,
    plus its colspan less one for the top-left cell of a range), and is
    either 0 or the last column of one of these cells. *)
Theorem X6_last_data_column (r : RowData.t) :
  0 <= RowData.get_last_data_column_index r
  ∧ (∀ c, c ∈ RowData.cells r → CellData.is_empty c = false →
          col_end c <= RowData.get_last_data_column_index r)
  ∧ (RowData.get_last_data_column_index r = 0
     ∨ ∃ c, c ∈ RowData.cells r ∧ CellData.is_empty c = false
            ∧ col_end c = RowData.get_last_data_column_index r).
Proof. apply (last_col_fold (RowData.cells r) 0). Qed.

End Rows.

Lemma X4_rows_in_range_witness :
  map RowData.row_idx (ExcelSheetData.get_rows_in_range three_row_sheet 2 3) = [2; 3]
  ∧ map RowData.row_idx (ExcelSheetData.get_rows_in_range three_row_sheet 1 (-1)) = [1; 2]
  ∧ ExcelSheetData.get_rows_in_range three_row_sheet 0 2 = [].
Proof.
  split; [|split].
  - rewrite (proj2 (X4_rows_in_range three_row_sheet 2 3)); [vm_compute; reflexivity | lia |].
    vm_compute. discriminate.
  - rewrite (proj2 (X4_rows_in_range three_row_sheet 1 (-1)));
      [vm_compute; reflexivity | lia |].
    vm_compute. discriminate.
  - apply (proj1 (X4_rows_in_range three_row_sheet 0 2)). left. lia.
Defined.

(** * Further properties of the classifier *)

Section ClassifierMore.
Import HtmlConverter.

Lemma classify_empty_iff sd row prev :
  _classify_row sd row prev = Label.empty ↔ RowData.get_non_empty_cells true row = [].
Proof.
  split; [|apply classify_row_empty].
  destruct (RowData.get_non_empty_cells true row) as [|first_cell rest] eqn:Hne; [done|].
  rewrite (classify_row_chain _ _ _ _ _ Hne). cbv zeta.
  repeat case_match; discriminate.
Qed.

(** X7.  The classifier answers Empty exactly for the rows without a
    non-empty cell, merge-covered cells left out; and it never answers
    ['start'], the label only [SqlConverter] passes in. *)
Theorem X7_empty_exactly_when (sd : ExcelSheetData.t) (row : RowData.t)
    (prev : option Label.t) :
  (_classify_row sd row prev = Label.empty
   ↔ RowData.get_non_empty_cells true row = [])
  ∧ _classify_row sd row prev ≠ Label.start.
Proof. split; [apply classify_empty_iff | apply classify_not_start]. Qed.

(** X8.  After a TableRow or a SectionHeader no row is a Paragraph and
    none is a Title: a row with a non-empty cell that is neither Footer nor
    SectionHeader is a TableRow, whatever it holds. *)
Theorem X8_no_paragraph_after_table (sd : ExcelSheetData.t) (row : RowData.t)
    (prev : option Label.t) :
  is_continuation prev = true →
  _classify_row sd row prev = Label.empty
  ∨ _classify_row sd row prev = Label.footer
  ∨ _classify_row sd row prev = Label.section_header
  ∨ _classify_row sd row prev = Label.table_row.
Proof.
  intros Hc.
  destruct (RowData.get_non_empty_cells true row) as [|first_cell rest] eqn:Hne.
  - left. by apply classify_row_empty.
  - right. rewrite (classify_row_chain _ _ _ _ _ Hne). cbv zeta.
    rewrite Hc. rewrite (bool_decide_eq_false_2 (prev = None))
      by (intros ->; discriminate).
    rewrite andb_false_r, !orb_true_r, !andb_false_r. cbn [andb].
    repeat case_match; auto.
Qed.

(** X22.  The border test reads the truth of the sides of the border,
    never their style.  When one of the four sides of the border of the
    first non-empty cell is a [Side] object, whatever line it draws or
    none, the row is never a Paragraph: unless it is a Title, a Footer or a
    SectionHeader it is a TableRow, whatever its text, its span and the
    row before it. *)
Theorem X22_side_object_counts_as_border (sd : ExcelSheetData.t) (row : RowData.t)
    (prev : option Label.t) (first_cell : CellData.t) (rest : list CellData.t)
    (b : Border) (side : Side) :
  RowData.get_non_empty_cells true row = first_cell :: rest →
  CellData.border first_cell = Some b →
  left b = Some side ∨ right b = Some side ∨ top b = Some side ∨ bottom b = Some side →
  _classify_row sd row prev = Label.title
  ∨ _classify_row sd row prev = Label.footer
  ∨ _classify_row sd row prev = Label.section_header
  ∨ _classify_row sd row prev = Label.table_row.
Proof.
  intros Hne Hb Hside.
  assert (has_borders first_cell = true) as Hhas.
  { unfold has_borders. rewrite Hb.
    destruct Hside as [H|[H|[H|H]]]; rewrite H; simpl;
      by rewrite ?orb_true_r. }
  rewrite (classify_row_chain _ _ _ _ _ Hne). cbv zeta.
  rewrite Hhas. cbn [negb].
  repeat first [rewrite andb_false_r | rewrite orb_true_r | progress cbn [andb orb]].
  repeat case_match; auto.
Qed.

Lemma nearest_non_empty_none tags :
  nearest_non_empty tags = None ↔ Forall (fun t => t = Label.empty) tags.
Proof.
  unfold nearest_non_empty. rewrite last_None. induction tags as [|t tags IH].
  - split; [constructor | done].
  - rewrite filter_cons. destruct (decide (t ≠ Label.empty)) as [Hne|He].
    + split; [discriminate|]. inversion 1; subst. done.
    + apply dec_stable in He. subst t. rewrite IH. split; [by constructor|].
      by inversion 1.
Qed.

Lemma tags_of_snoc sd pre row :
  tags_of (state_after sd (pre ++ [row]))
  = tags_of (state_after sd pre)
    ++ [_classify_row sd row (nearest_non_empty (tags_of (state_after sd pre)))].
Proof.
  destruct (last_is_nearest_non_empty sd pre) as [H _].
  unfold state_after in *. by rewrite run_snoc, tags_of_step, H.
Qed.

Lemma title_once sd pre l1 l2 :
  tags_of (state_after sd pre) = l1 ++ Label.title :: l2 →
  Forall (fun t => t = Label.empty) l1 ∧ Label.title ∉ l2.
Proof.
  revert l1 l2. induction pre as [|row pre IH] using rev_ind; intros l1 l2.
  - unfold state_after, tags_of. simpl. destruct (start_of_fresh sd) as (_ & -> & _).
    simpl. by destruct l1.
  - rewrite tags_of_snoc. intros Heq.
    destruct l2 as [|x l2 _] using rev_ind.
    + apply app_inj_tail in Heq as [Ht Hc]. apply classify_title_prev in Hc.
      rewrite Ht in Hc. apply nearest_non_empty_none in Hc.
      split; [done|]. intros H. by apply elem_of_nil in H.
    + rewrite app_comm_cons, app_assoc in Heq. apply app_inj_tail in Heq as [Ht Hc].
      destruct (IH _ _ Ht) as [H1 H2]. split; [done|].
      intros Hin. apply elem_of_app in Hin as [Hin|Hin]; [done|].
      apply list_elem_of_singleton in Hin. rewrite <- Hin in Hc.
      apply classify_title_prev in Hc. apply nearest_non_empty_none in Hc.
      rewrite Ht in Hc. apply Forall_app in Hc as [_ Hc]. by inversion Hc.
Qed.

(** X9.  In the classifications [convert] logs, Title occurs at most once,
    and every row before it is Empty. *)
Theorem X9_title_at_most_once (sd : ExcelSheetData.t) (pre : list RowData.t)
    (l1 l2 : list Label.t) :
  tags_of (state_after sd pre) = l1 ++ Label.title :: l2 →
  Forall (fun t => t = Label.empty) l1 ∧ Label.title ∉ l2.
Proof. apply title_once. Qed.

End ClassifierMore.

Lemma X8_no_paragraph_after_table_witness :
  let sd := sheet_with_blank_run in
  HtmlConverter._classify_row sd (Fixture.row sd 4) (Some Label.table_row) = Label.empty
  ∨ HtmlConverter._classify_row sd (Fixture.row sd 4) (Some Label.table_row) = Label.footer
  ∨ HtmlConverter._classify_row sd (Fixture.row sd 4) (Some Label.table_row)
    = Label.section_header
  ∨ HtmlConverter._classify_row sd (Fixture.row sd 4) (Some Label.table_row)
    = Label.table_row.
Proof.
  apply (X8_no_paragraph_after_table sheet_with_blank_run
           (Fixture.row sheet_with_blank_run 4) (Some Label.table_row)).
  reflexivity.
Defined.

Lemma X22_side_object_counts_as_border_witness :
  let sd := sheet_with_wide_sentence in
  let c := HtmlConverter._classify_row sd (Fixture.row sd 8) (Some Label.paragraph_line) in
  c = Label.title ∨ c = Label.footer ∨ c = Label.section_header ∨ c = Label.table_row.
Proof.
  apply (X22_side_object_counts_as_border sheet_with_wide_sentence
           (Fixture.row sheet_with_wide_sentence 8) (Some Label.paragraph_line)
           (CellData.init
              (Worksheet.getitem (ExcelSheetData.sheet sheet_with_wide_sentence) (1, 8))
              (ExcelSheetData.sheet sheet_with_wide_sentence)
              (ExcelSheetData.merged_cells_map sheet_with_wide_sentence))
           [] default_border {| style := None |}).
  - vm_compute. reflexivity.
  - vm_compute. reflexivity.
  - left. vm_compute. reflexivity.
Defined.

Lemma X9_title_at_most_once_witness :
  Forall (fun t => t = Label.empty) (@nil Label.t)
  ∧ Label.title ∉ [Label.section_header; Label.table_row].
Proof.
  apply (X9_title_at_most_once sheet_with_repeated_images
           (take 3 (ExcelSheetData.rows sheet_with_repeated_images))).
  vm_compute. reflexivity.
Defined.

(** * Further properties of the markup and of table reconstruction *)

Section Markup.
Import HtmlConverter.

Lemma length_split_lines cur s :
  length (split_lines cur s) = S (newline_count s).
Proof.
  revert cur. unfold newline_count.
  induction s as [|c s IH]; intros cur; cbn [split_lines]; [done|].
  rewrite filter_cons. destruct (N.eqb_spec c 10) as [->|Hne].
  - rewrite decide_True by done. cbn [length]. by rewrite IH.
  - rewrite decide_False by done. apply IH.
Qed.

Lemma br_count_br_lines lines : br_count (br_lines lines) = pred (length lines).
Proof.
  unfold br_count. induction lines as [|line rest IH]; [done|].
  destruct rest as [|line' rest].
  - simpl. by destruct (Py.strip line).
  - change (br_lines (line :: line' :: rest))
      with (Text (Py.strip line) :: Br :: br_lines (line' :: rest)).
    rewrite filter_cons, decide_False by (simpl; discriminate).
    rewrite filter_cons, decide_True by done. cbn [length]. rewrite IH. done.
Qed.

Lemma split_lines_no_newline cur s line :
  10%N ∉ cur → line ∈ split_lines cur s → 10%N ∉ line.
Proof.
  revert cur. induction s as [|c s IH]; intros cur Hcur; cbn [split_lines].
  - intros H. apply list_elem_of_singleton in H as ->.
    intros Hin. apply list_elem_of_In, in_rev, list_elem_of_In in Hin. done.
  - destruct (N.eqb_spec c 10) as [->|Hne].
    + intros H. apply elem_of_cons in H as [->|H].
      * intros Hin. apply list_elem_of_In, in_rev, list_elem_of_In in Hin. done.
      * apply (IH []); [|done]. intros Hin. by apply elem_of_nil in Hin.
    + apply IH. intros Hin. apply elem_of_cons in Hin as [?|?]; [congruence|done].
Qed.

Lemma lstrip_elem x s : x ∈ Py.lstrip s → x ∈ s.
Proof.
  induction s as [|c s IH]; simpl; [done|].
  destruct (Py.isspace c); [|done]. intros H. right. by apply IH.
Qed.

Lemma strip_elem x s : x ∈ Py.strip s → x ∈ s.
Proof.
  unfold Py.strip, Py.rstrip. intros H.
  apply list_elem_of_In, in_rev, list_elem_of_In in H.
  apply lstrip_elem in H. apply list_elem_of_In, in_rev, list_elem_of_In in H.
  by apply lstrip_elem.
Qed.

Lemma br_lines_text lines t :
  Text t ∈ br_lines lines → ∃ line, line ∈ lines ∧ t = Py.strip line.
Proof.
  induction lines as [|line rest IH]; [intros H; by apply elem_of_nil in H|].
  destruct rest as [|line' rest].
  - simpl. destruct (Py.strip line) eqn:E; [intros H; by apply elem_of_nil in H|].
    intros H. apply list_elem_of_singleton in H. injection H as ->.
    exists line. split; [by left | done].
  - change (br_lines (line :: line' :: rest))
      with (Text (Py.strip line) :: Br :: br_lines (line' :: rest)).
    intros H. apply elem_of_cons in H as [H|H].
    + injection H as ->. exists line. split; [by left | done].
    + apply elem_of_cons in H as [H|H]; [discriminate|].
      destruct (IH H) as (l & Hl & ->). exists l. split; [by right | done].
Qed.

(** X10.  [_append_text_with_br] puts one [<br>] for every line feed of the
    text, and no text node it makes holds a line feed. *)
Theorem X10_one_br_per_newline (text : Py.str) :
  br_count (_append_text_with_br text) = newline_count text
  ∧ ∀ t, Text t ∈ _append_text_with_br text → 10%N ∉ t.
Proof.
  unfold _append_text_with_br. split.
  - by rewrite br_count_br_lines, length_split_lines.
  - intros t H. apply br_lines_text in H as (line & Hl & ->).
    intros Hin. apply strip_elem in Hin.
    revert Hin. eapply split_lines_no_newline; [|done].
    intros H. by apply elem_of_nil in H.
Qed.

Lemma thead_row_cells max_col row processed :
  Forall is_head_cell (thead_row max_col row processed).1.
Proof.
  unfold thead_row.
  assert (∀ cells tr p, Forall is_head_cell tr →
            Forall is_head_cell
              (foldl (fun '(tr, processed) cell_data =>
                        if cell_skipped max_col processed cell_data then (tr, processed)
                        else (tr ++ [make_cell th false cell_data],
                              mark_rowspan cell_data (RowData.row_idx row) processed))
                     (tr, p) cells).1) as H.
  { induction cells as [|c cells IH]; intros tr p Htr; cbn [foldl]; [done|].
    destruct (cell_skipped max_col p c); [by apply IH|].
    apply IH. apply Forall_app. split; [done|]. by repeat constructor. }
  by apply H.
Qed.

Lemma build_thead_rows max_col rows :
  Forall is_head_row (build_thead max_col rows).1.
Proof.
  unfold build_thead.
  assert (∀ rows trs p, Forall is_head_row trs →
            Forall is_head_row
              (foldl (fun '(trs, processed) row_data =>
                        let '(tr, processed') := thead_row max_col row_data processed in
                        (append_tr trs tr, processed'))
                     (trs, p) rows).1) as H.
  { clear rows. induction rows as [|r rows IH]; intros trs p Htrs; cbn [foldl]; [done|].
    pose proof (thead_row_cells max_col r p) as Hc.
    destruct (thead_row max_col r p) as [tr p']. apply IH. simpl in Hc.
    destruct tr as [|c tr]; [done|]. cbn [append_tr].
    apply Forall_app. split; [done|]. apply Forall_singleton. by split. }
  by apply H.
Qed.

Lemma tbody_row_shape max_col row processed :
  (tbody_row max_col row processed).1 = [] ∨ is_body_row (tbody_row max_col row processed).1.
Proof.
  unfold tbody_row.
  assert (∀ cells tr p (flag : bool),
            (flag = true ∧ tr = []) ∨ (flag = false ∧ is_body_row tr) →
            let res :=
              foldl (fun '(tr, processed, is_first_visible_cell_in_row) cell_data =>
                       if cell_skipped max_col processed cell_data
                       then (tr, processed, is_first_visible_cell_in_row)
                       else
                         let is_row_header : bool := is_first_visible_cell_in_row in
                         let cell_tag_name := if is_row_header then th else td in
                         (tr ++ [make_cell cell_tag_name is_row_header cell_data],
                          mark_rowspan cell_data (RowData.row_idx row) processed,
                          false))
                    (tr, p, flag) cells in
            res.1.1 = [] ∨ is_body_row res.1.1) as H.
  { induction cells as [|c cells IH]; intros tr p flag Hinv; cbn [foldl].
    - simpl. destruct Hinv as [[_ ->]|[_ ?]]; [by left | by right].
    - destruct (cell_skipped max_col p c); [by apply IH|]. apply IH. right.
      split; [done|]. destruct Hinv as [[-> ->]|[-> (first & rest & -> & Hf & Hr)]].
      + exists (make_cell th true c), []. by repeat split.
      + exists first, (rest ++ [make_cell td false c]). split; [done|]. split; [done|].
        apply Forall_app. split; [done|]. by repeat constructor. }
  specialize (H (RowData.cells row) [] processed true ltac:(by left)). cbv zeta in H.
  by destruct (foldl _ _ _) as [[tr p] flag].
Qed.

Lemma build_tbody_rows max_col rows processed :
  Forall is_body_row (build_tbody max_col rows processed).
Proof.
  unfold build_tbody.
  assert (∀ rows trs p, Forall is_body_row trs →
            Forall is_body_row
              (foldl (fun '(trs, processed) row_data =>
                        let '(tr, processed') := tbody_row max_col row_data processed in
                        (append_tr trs tr, processed'))
                     (trs, p) rows).1) as H.
  { clear rows. induction rows as [|r rows IH]; intros trs p Htrs; cbn [foldl]; [done|].
    pose proof (tbody_row_shape max_col r p) as Hc.
    destruct (tbody_row max_col r p) as [tr p']. apply IH. simpl in Hc.
    destruct tr as [|c tr]; [done|]. cbn [append_tr].
    destruct Hc as [?|Hc]; [done|].
    apply Forall_app. split; [done|]. by apply Forall_singleton. }
  by apply H.
Qed.

(** X11.  In a table [_create_table_element] returns, every row of the
    head holds at least one cell and only [<th>] cells without scope, and
    every row of the body starts with one [<th scope="row">] cell followed
    by [<td>] cells only; no row is without cell. *)
Theorem X11_table_cell_kinds (rows : list RowData.t) (t : TableTag) :
  _create_table_element rows = Some t →
  Forall is_head_row (default [] (thead t)) ∧ Forall is_body_row (tbody t).
Proof.
  unfold _create_table_element. intros H.
  destruct rows as [|r rows]; [discriminate|].
  case_bool_decide; [discriminate|].
  destruct (table_trs (build_table (r :: rows))); [discriminate|].
  injection H as <-. unfold build_table.
  destruct (scan_headers 0 (r :: rows) [] 0) as [hdr e].
  destruct hdr as [|h hdr].
  - cbn [thead tbody default]. split; [constructor | apply build_tbody_rows].
  - pose proof (build_thead_rows (max_col_index_of (r :: rows)) (h :: hdr)) as Hh.
    destruct (build_thead _ (h :: hdr)) as [trs p].
    cbn [thead tbody default]. split; [done | apply build_tbody_rows].
Qed.

Lemma has_content_iff r :
  has_content r ↔ RowData.get_non_empty_cells false r ≠ [].
Proof.
  unfold has_content, RowData.is_empty, RowData.get_non_empty_cells.
  pose proof (is_empty_from_spec false (RowData.cells r)) as H.
  destruct (RowData.is_empty_from false (RowData.cells r)).
  - split; [discriminate|]. intros Hne. exfalso. apply Hne. by apply H.
  - split; [|done]. intros _ Hnil. apply H in Hnil. discriminate.
Qed.

Lemma scan_headers_spec rows idx hdr0 e0 :
  e0 <= idx →
  let '(hdr, e) := scan_headers idx rows hdr0 e0 in
  (e = e0 ∧ hdr = hdr0)
  ∨ (idx < e <= idx + Py.len rows
     ∧ hdr = hdr0 ++ filter has_content (take (Z.to_nat (e - idx)) rows)).
Proof.
  unfold Py.len. revert idx hdr0 e0.
  induction rows as [|r rows IH]; intros idx hdr0 e0 He; cbn [scan_headers]; [by left|].
  pose proof (has_content_iff r) as Hr.
  destruct (RowData.get_non_empty_cells false r) as [|c cs] eqn:Hne.
  - specialize (IH (idx + 1) hdr0 e0 ltac:(lia)).
    destruct (scan_headers (idx + 1) rows hdr0 e0) as [hdr e].
    destruct IH as [?|[Hb ->]]; [by left|]. right.
    cbn [length]. split; [lia|]. f_equal.
    replace (Z.to_nat (e - idx)) with (S (Z.to_nat (e - (idx + 1)))) by lia.
    cbn [take]. rewrite filter_cons, decide_False; [done|].
    intros Hc. by apply Hr in Hc.
  - destruct (is_header_row idx (c :: cs)); [|by left].
    specialize (IH (idx + 1) (hdr0 ++ [r]) (idx + 1) ltac:(lia)).
    destruct (scan_headers (idx + 1) rows (hdr0 ++ [r]) (idx + 1)) as [hdr e].
    right. cbn [length].
    assert (has_content r) as Hc by by apply Hr.
    destruct IH as [[-> ->]|[Hb ->]].
    + split; [lia|]. f_equal. replace (Z.to_nat (idx + 1 - idx)) with 1%nat by lia.
      cbn [take]. by rewrite filter_cons, decide_True.
    + split; [lia|]. rewrite <- app_assoc. f_equal.
      replace (Z.to_nat (e - idx)) with (S (Z.to_nat (e - (idx + 1)))) by lia.
      cbn [take]. by rewrite filter_cons, decide_True.
Qed.

Lemma filter_has_content_all rows :
  Forall has_content rows → filter has_content rows = rows.
Proof.
  induction 1 as [|r rows Hr _ IH]; [done|].
  by rewrite filter_cons, decide_True, IH.
Qed.

(** X12.  The header scan of a block ends at a position within the block;
    the header rows are the rows before that position that have a non-empty
    cell, in order, and the body is every row from that position on.  So a
    block in which every row has a non-empty cell is split into head and
    body without losing or repeating a row. *)
Theorem X12_header_prefix (rows : list RowData.t) :
  let '(header_rows_data, potential_header_end_idx) := scan_headers 0 rows [] 0 in
  0 <= potential_header_end_idx <= Py.len rows
  ∧ header_rows_data
    = filter has_content (take (Z.to_nat potential_header_end_idx) rows)
  ∧ (Forall has_content rows →
     header_rows_data ++ drop (Z.to_nat potential_header_end_idx) rows = rows).
Proof.
  pose proof (scan_headers_spec rows 0 [] 0 ltac:(lia)) as H.
  destruct (scan_headers 0 rows [] 0) as [hdr e].
  assert (0 <= e <= Py.len rows ∧ hdr = filter has_content (take (Z.to_nat e) rows))
    as [Hb ->].
  { destruct H as [[-> ->]|[Hb ->]].
    - split; [unfold Py.len; lia | done].
    - split; [lia|]. simpl. do 3 f_equal. lia. }
  split; [done|]. split; [done|]. intros Hall.
  rewrite filter_has_content_all by by apply Forall_take. apply take_drop.
Qed.

Lemma elem_of_mark_column (col row : Z) (js : list Z) (s : gset Coord) (c : Coord) :
  c ∈ foldl (fun s j => {[(col + j, row)]} ∪ s) s js
  ↔ c ∈ s ∨ ∃ j, j ∈ js ∧ c = (col + j, row).
Proof.
  revert s. induction js as [|j js IH]; intros s; cbn [foldl].
  - split; [by left|]. intros [?|(j & Hj & _)]; [done|]. by apply elem_of_nil in Hj.
  - rewrite IH, elem_of_union, elem_of_singleton. split.
    + intros [[->|?]|(j' & ? & ->)].
      * right. exists j. split; [by left | done].
      * by left.
      * right. exists j'. split; [by right | done].
    + intros [?|(j' & Hj & ->)].
      * left. by right.
      * apply elem_of_cons in Hj as [->|?]; [left; by left|].
        right. by exists j'.
Qed.

Lemma elem_of_mark_rows (col row : Z) (ks js : list Z) (s : gset Coord) (c : Coord) :
  c ∈ foldl (fun s i => foldl (fun s j => {[(col + j, row + i)]} ∪ s) s js) s ks
  ↔ c ∈ s ∨ ∃ i j, i ∈ ks ∧ j ∈ js ∧ c = (col + j, row + i).
Proof.
  revert s. induction ks as [|i ks IH]; intros s; cbn [foldl].
  - split; [by left|]. intros [?|(i & j & Hi & _)]; [done|]. by apply elem_of_nil in Hi.
  - rewrite IH, elem_of_mark_column. split.
    + intros [[?|(j & ? & ->)]|(i' & j & ? & ? & ->)].
      * by left.
      * right. exists i, j. split; [by left | done].
      * right. exists i', j. split; [by right | done].
    + intros [?|(i' & j & Hi & Hj & ->)].
      * left. by left.
      * apply elem_of_cons in Hi as [->|?].
        -- left. right. by exists j.
        -- right. by exists i', j.
Qed.

Lemma elem_of_mark_rowspan (cell_data : CellData.t) (row_idx : Z)
    (processed : gset Coord) (c : Coord) :
  c ∈ mark_rowspan cell_data row_idx processed
  ↔ c ∈ processed
    ∨ (CellData.column cell_data <= c.1
         < CellData.column cell_data + CellData.colspan cell_data
       ∧ row_idx < c.2 < row_idx + CellData.rowspan cell_data).
Proof.
  unfold mark_rowspan. case_bool_decide as Hspan.
  - rewrite elem_of_mark_rows. split.
    + intros [?|(i & j & Hi & Hj & ->)]; [by left|]. right.
      apply elem_of_seqZ in Hi, Hj. simpl. lia.
    + intros [?|[Hc Hr]]; [by left|]. right.
      exists (c.2 - row_idx), (c.1 - CellData.column cell_data).
      rewrite !elem_of_seqZ. split; [lia|]. split; [lia|].
      destruct c as [c1 c2]. simpl. f_equal; lia.
  - split; [by left|]. intros [?|[_ Hr]]; [done | lia].
Qed.

(** X13.  The coverage a cell registers is the rectangle below it: its
    columns, in the rows after its own up to its rowspan.  Nothing is
    registered for a cell of rowspan 1, and nothing already registered is
    lost. *)
Theorem X13_rowspan_coverage (cell_data : CellData.t) (row_idx : Z)
    (processed : gset Coord) (c : Coord) :
  c ∈ mark_rowspan cell_data row_idx processed
  ↔ c ∈ processed
    ∨ (CellData.column cell_data <= c.1
         < CellData.column cell_data + CellData.colspan cell_data
       ∧ row_idx < c.2 < row_idx + CellData.rowspan cell_data).
Proof. apply elem_of_mark_rowspan. Qed.

Lemma cell_skipped_same (max_col : Z) (p processed : gset Coord) (idx : Z) c :
  (∀ x : Coord, x.2 <= idx → (x ∈ p ↔ x ∈ processed)) →
  (CellData.coordinate c).2 <= idx →
  cell_skipped max_col p c = cell_skipped max_col processed c.
Proof.
  intros Hsame Hc. unfold cell_skipped. do 2 f_equal.
  apply bool_decide_ext. by apply Hsame.
Qed.

Lemma mark_rowspan_same (p processed : gset Coord) (idx : Z) c :
  (∀ x : Coord, x.2 <= idx → (x ∈ p ↔ x ∈ processed)) →
  ∀ x : Coord, x.2 <= idx → (x ∈ mark_rowspan c idx p ↔ x ∈ processed).
Proof.
  intros Hsame x Hx. rewrite elem_of_mark_rowspan, (Hsame x Hx).
  split; [intros [?|[_ ?]]; [done | lia] | by left].
Qed.

Lemma thead_row_rendered max_col row processed :
  Forall (fun c => (CellData.coordinate c).2 <= RowData.row_idx row) (RowData.cells row) →
  (thead_row max_col row processed).1
  = map (make_cell th false) (filter (rendered max_col processed) (RowData.cells row)).
Proof.
  unfold thead_row.
  assert (∀ cells tr p,
            (∀ x : Coord, x.2 <= RowData.row_idx row → (x ∈ p ↔ x ∈ processed)) →
            Forall (fun c => (CellData.coordinate c).2 <= RowData.row_idx row) cells →
            (foldl (fun '(tr, processed) cell_data =>
                      if cell_skipped max_col processed cell_data then (tr, processed)
                      else (tr ++ [make_cell th false cell_data],
                            mark_rowspan cell_data (RowData.row_idx row) processed))
                   (tr, p) cells).1
            = tr ++ map (make_cell th false) (filter (rendered max_col processed) cells))
    as H.
  { induction cells as [|c cells IH]; intros tr p Hp Hc; cbn [foldl].
    - simpl. by rewrite app_nil_r.
    - apply Forall_cons in Hc as [Hc Hcs]. rewrite filter_cons.
      rewrite (cell_skipped_same max_col p processed _ c Hp Hc).
      destruct (decide (rendered max_col processed c)) as [Hr|Hr]; unfold rendered in Hr.
      + rewrite Hr. rewrite IH; [|by apply mark_rowspan_same|done].
        by rewrite <- app_assoc.
      + apply not_false_is_true in Hr. rewrite Hr. by apply IH. }
  intros Hc. by rewrite H.
Qed.

Lemma tbody_row_rendered max_col row processed :
  Forall (fun c => (CellData.coordinate c).2 <= RowData.row_idx row) (RowData.cells row) →
  (tbody_row max_col row processed).1
  = render_body (filter (rendered max_col processed) (RowData.cells row)).
Proof.
  unfold tbody_row.
  assert (∀ cells tr p (flag : bool),
            (∀ x : Coord, x.2 <= RowData.row_idx row → (x ∈ p ↔ x ∈ processed)) →
            Forall (fun c => (CellData.coordinate c).2 <= RowData.row_idx row) cells →
            (foldl (fun '(tr, processed, is_first_visible_cell_in_row) cell_data =>
                      if cell_skipped max_col processed cell_data
                      then (tr, processed, is_first_visible_cell_in_row)
                      else
                        let is_row_header : bool := is_first_visible_cell_in_row in
                        let cell_tag_name := if is_row_header then th else td in
                        (tr ++ [make_cell cell_tag_name is_row_header cell_data],
                         mark_rowspan cell_data (RowData.row_idx row) processed,
                         false))
                   (tr, p, flag) cells).1.1
            = tr ++ (if flag then render_body (filter (rendered max_col processed) cells)
                     else map (make_cell td false)
                            (filter (rendered max_col processed) cells))) as H.
  { induction cells as [|c cells IH]; intros tr p flag Hp Hc; cbn [foldl].
    - simpl. destruct flag; by rewrite app_nil_r.
    - apply Forall_cons in Hc as [Hc Hcs]. rewrite filter_cons.
      rewrite (cell_skipped_same max_col p processed _ c Hp Hc).
      destruct (decide (rendered max_col processed c)) as [Hr|Hr]; unfold rendered in Hr.
      + rewrite Hr. rewrite IH; [|by apply mark_rowspan_same|done].
        rewrite <- app_assoc. by destruct flag.
      + apply not_false_is_true in Hr. rewrite Hr. by apply IH. }
  intros Hc. specialize (H (RowData.cells row) [] processed true ltac:(done) Hc).
  by destruct (foldl _ _ _) as [[tr p] flag].
Qed.

(** X21.  In a row whose cells are not below the row itself, the cells
    rendered are, in the row's order and each once, the cells that are
    within the table's columns, not covered by a merge, and not registered
    as covered by a rowspan when the row is reached: as [<th>] cells in the
    head; in the body the first as [<th scope="row">], the others as
    [<td>]. *)
Theorem X21_row_renders_visible_cells (max_col_index : Z) (row : RowData.t)
    (processed : gset Coord) :
  Forall (fun c => (CellData.coordinate c).2 <= RowData.row_idx row) (RowData.cells row) →
  (thead_row max_col_index row processed).1
  = map (make_cell th false)
        (filter (rendered max_col_index processed) (RowData.cells row))
  ∧ (tbody_row max_col_index row processed).1
    = render_body (filter (rendered max_col_index processed) (RowData.cells row)).
Proof.
  intros H. split; [by apply thead_row_rendered | by apply tbody_row_rendered].
Qed.

End Markup.

Lemma X11_table_cell_kinds_witness :
  Forall is_head_row
    (default [] (HtmlConverter.thead (HtmlConverter.build_table header_and_two_rows)))
  ∧ Forall is_body_row (HtmlConverter.tbody (HtmlConverter.build_table header_and_two_rows)).
Proof.
  apply (X11_table_cell_kinds header_and_two_rows
           (HtmlConverter.build_table header_and_two_rows)).
  vm_compute. reflexivity.
Defined.

(** * Further properties of the exporter *)

Section ExporterMore.
Import SqlConverter.

Lemma classified_row_has_cells sd row prev :
  HtmlConverter._classify_row sd row prev ≠ Label.empty →
  RowData.cells row ≠ [] ∧ RowData.get_non_empty_cells false row ≠ [].
Proof.
  intros Hc. rewrite classify_empty_iff in Hc.
  destruct (RowData.get_non_empty_cells true row) as [|c cs] eqn:Hne; [done|].
  split; [by eapply non_empty_from_cells|].
  intros Hnil. pose proof (non_empty_from_covered (RowData.cells row)) as Hs.
  unfold RowData.get_non_empty_cells in *. rewrite Hne, Hnil in Hs.
  by apply sublist_nil_r in Hs.
Qed.

(** The first loop never fails, and collects TableRow rows only. *)
Lemma collect_target_rows_table sd upper rows acc flag :
  Forall (fun r => HtmlConverter._classify_row sd r (Some Label.start) = Label.table_row) acc →
  ∃ res, collect_target_rows sd upper rows acc flag = Some res
         ∧ Forall (fun r => HtmlConverter._classify_row sd r (Some Label.start)
                            = Label.table_row) res.
Proof.
  revert acc flag. induction rows as [|r rows IH]; intros acc flag Hacc;
    cbn [collect_target_rows]; [eauto|].
  case_bool_decide as Hsec.
  - destruct (classified_row_has_cells sd r (Some Label.start)) as [Hcells _].
    { rewrite Hsec. discriminate. }
    destruct (RowData.cells r) as [|cell0 others]; [done|].
    destruct (Py.contains _ _); [by apply IH|]. destruct flag; [eauto | by apply IH].
  - destruct flag; cbn [andb]; [|by apply IH].
    case_bool_decide as Htab; cbn [negb andb].
    + apply IH. apply Forall_app. split; [done|]. by apply Forall_singleton.
    + case_bool_decide; cbn [negb]; [by apply IH | eauto].
Qed.

Lemma find_header_row_first sd r rest :
  HtmlConverter._classify_row sd r (Some Label.start) = Label.table_row →
  find_header_row (r :: rest) = Some r ∧ RowData.cells r ≠ [].
Proof.
  intros Hc. destruct (classified_row_has_cells sd r (Some Label.start)) as [Hcells Hne].
  { rewrite Hc. discriminate. }
  split; [|done]. unfold find_header_row. cbn [find].
  rewrite bool_decide_eq_true_2; [done|].
  destruct (RowData.get_non_empty_cells false r); [done|]. unfold Py.len. simpl. lia.
Qed.

(** X14.  Whatever the sheet and the target section, the exporter ends in
    one of three ways: it returns the "no table data" comment, it returns
    the "no valid headers" comment, or it raises UnboundLocalError.  It
    never returns the "no header row" comment and never fails on a row
    without cells. *)
Theorem X14_export_outcomes (sd : ExcelSheetData.t) (target_section : Py.str) :
  convert sd target_section
  = Returned (Py.lit "-- No table data for " ++ target_section ++ [46%N; 10%N])
  ∨ convert sd target_section = Returned (Py.lit "-- No valid headers." ++ [10%N])
  ∨ convert sd target_section = Raised UnboundLocalError.
Proof.
  unfold convert.
  destruct (collect_target_rows_table sd (Py.upper target_section)
              (ExcelSheetData.rows sd) [] false ltac:(constructor))
    as (res & -> & Hres).
  destruct res as [|r rest]; [by left|]. right.
  apply Forall_cons in Hres as [Hr _].
  destruct (find_header_row_first sd r rest Hr) as [-> Hcells].
  destruct (RowData.cells r) as [|c0 cs] eqn:Hc; [done|].
  rewrite header_loop_unbound. case_decide; [by left | by right].
Qed.

End ExporterMore.

(** * Further properties of the page *)

Section Page.
Import HtmlConverter.

(** ** Where images come from *)

Lemma add_image_tag_from_sheet sd used idx t used' :
  _add_image_tag sd used idx = (Some t, used') →
  ∃ src, tag_src t = Some src ∧ from_sheet sd src.
Proof.
  unfold _add_image_tag. destruct (find _ _) as [info|] eqn:E; [|discriminate].
  intros [= <- _]. apply find_some in E as [Hin _].
  exists (storage_src (img_path info)). split; [done|].
  exists info. split; [by apply list_elem_of_In | done].
Qed.

Lemma row_image_from_sheet sd timg used row src :
  (row_image sd timg used row).1 ≫= tag_src = Some src → from_sheet sd src.
Proof.
  unfold row_image. destruct (_ || _)%bool; [|discriminate].
  destruct (_add_image_tag sd used (RowData.row_idx row)) as [[t|] used'] eqn:E;
    [|discriminate].
  apply add_image_tag_from_sheet in E as (src' & Ht & Hs). simpl. rewrite Ht.
  by intros [= <-].
Qed.

Lemma find_title_image_from_sheet sd rows used src :
  (find_title_image sd rows used).1 ≫= tag_src = Some src → from_sheet sd src.
Proof.
  revert used. induction rows as [|r rows IH]; intros used; simpl; [discriminate|].
  destruct (_add_image_tag sd used (RowData.row_idx r)) as [[t|] used'] eqn:E.
  - apply add_image_tag_from_sheet in E as (src' & Ht & Hs). simpl. rewrite Ht.
    by intros [= <-].
  - apply IH.
Qed.

Lemma start_image_from_sheet sd src :
  (start_of sd).1 ≫= tag_src = Some src → from_sheet sd src.
Proof.
  unfold start_of.
  pose proof (find_title_image_from_sheet sd (take 5 (ExcelSheetData.rows sd)) ∅ src) as H.
  by destruct (find_title_image _ _ _).
Qed.

Lemma image_srcs_run_from_sheet sd timg st rows :
  (∀ src, timg ≫= tag_src = Some src → from_sheet sd src) →
  Forall (from_sheet sd) (image_srcs (content_elements st)) →
  Forall (from_sheet sd) (image_srcs (content_elements (run sd timg st rows))).
Proof.
  intros Ht. revert st. induction rows as [|r rows IH]; intros st Hst; simpl; [done|].
  apply IH. destruct (step_image_srcs sd timg st r) as [-> _].
  apply Forall_app. split; [done|].
  destruct (decide _).
  - destruct (timg ≫= tag_src) as [src|] eqn:E; simpl; [|constructor].
    apply Forall_singleton. by apply Ht.
  - destruct ((row_image sd timg (images_used st) r).1 ≫= tag_src) as [src|] eqn:E;
      simpl; [|constructor].
    apply Forall_singleton. by eapply row_image_from_sheet.
Qed.

(** X15.  Every image tag of the page shows one of the sheet's images:
    its [src] is ["/storage/"] followed by the path of an entry of
    [sheet_data.images]. *)
Theorem X15_images_come_from_the_sheet (sd : ExcelSheetData.t) :
  Forall (from_sheet sd) (image_srcs (convert sd)).
Proof.
  rewrite convert_finish, image_srcs_finish. unfold state_after.
  apply image_srcs_run_from_sheet; [apply start_image_from_sheet|].
  destruct (start_of_fresh sd) as (_ & _ & -> & _). constructor.
Qed.

(** ** The title image *)

Lemma title_image_step sd timg st row src :
  images_inv timg st → timg ≫= tag_src = Some src →
  (src ∈ image_srcs (content_elements st) ↔ Label.title ∈ tags_of st) →
  (src ∈ image_srcs (content_elements (step sd timg st row))
   ↔ Label.title ∈ tags_of (step sd timg st row)).
Proof.
  intros (_ & _ & Hknown) Hsrc Hiff.
  destruct (Hknown src Hsrc) as [(path & -> & Hused) _].
  destruct (step_image_srcs sd timg st row) as [-> _]. rewrite tags_of_step.
  rewrite !elem_of_app, list_elem_of_singleton, Hiff.
  destruct (decide (_classify_row sd row (last_classification st) = Label.title))
    as [Hc|Hc].
  - rewrite Hsrc, Hc. simpl. rewrite list_elem_of_singleton. split; auto.
  - pose proof (row_image_spec sd timg (images_used st) row) as Himg.
    destruct (row_image sd timg (images_used st) row) as [[t|] used']; simpl.
    + destruct Himg as (path' & -> & Hnew & _). simpl.
      rewrite list_elem_of_singleton. split.
      * intros [?|Heq]; [by left|]. apply storage_src_inj in Heq. congruence.
      * intros [?|Heq]; [by left | congruence].
    + split; (intros [?|H]; [by left|]); [by apply elem_of_nil in H | congruence].
Qed.

Lemma title_image_run sd timg rows st src :
  images_inv timg st → timg ≫= tag_src = Some src →
  (src ∈ image_srcs (content_elements st) ↔ Label.title ∈ tags_of st) →
  (src ∈ image_srcs (content_elements (run sd timg st rows))
   ↔ Label.title ∈ tags_of (run sd timg st rows)).
Proof.
  revert st. induction rows as [|r rows IH]; intros st Hinv Hsrc Hiff; simpl; [done|].
  apply IH; [by apply images_inv_step | done | by apply title_image_step].
Qed.

(** X16.  The image picked before the main loop, the first one anchored
    in the first five rows, is on the page exactly when some row is
    classified Title: without a Title row it is not shown at all, although
    it is recorded as used. *)
Theorem X16_title_image_needs_a_title (sd : ExcelSheetData.t) (src : Py.str) :
  (start_of sd).1 ≫= tag_src = Some src →
  (src ∈ image_srcs (convert sd)
   ↔ Label.title ∈ tags_of (state_after sd (ExcelSheetData.rows sd))).
Proof.
  intros Hsrc. rewrite convert_finish, image_srcs_finish. unfold state_after.
  apply title_image_run; [apply images_inv_start | done |].
  destruct (start_of_fresh sd) as (_ & Hlog & Hc & _). unfold tags_of.
  rewrite Hlog, Hc. simpl. split; intros H; by apply elem_of_nil in H.
Qed.

(** ** The page only grows *)

Lemma flush_table_prefix content rows : content `prefix_of` _flush_table content rows.
Proof.
  unfold _flush_table. destruct rows; [done|].
  destruct (_create_table_element _); [by apply prefix_app_r | done].
Qed.

Lemma flush_paragraph_prefix content lines :
  content `prefix_of` _flush_paragraph content lines.
Proof.
  unfold _flush_paragraph. destruct lines; [done|].
  destruct (Py.strip _); [done | by apply prefix_app_r].
Qed.

Lemma add_title_tag_prefix content row : content `prefix_of` _add_title_tag content row.
Proof.
  unfold _add_title_tag. destruct (first_non_empty row); [by apply prefix_app_r | done].
Qed.

Lemma add_section_header_tag_prefix content row :
  content `prefix_of` _add_section_header_tag content row.
Proof.
  unfold _add_section_header_tag.
  destruct (first_non_empty row); [by apply prefix_app_r | done].
Qed.

Lemma add_footer_tag_prefix content row : content `prefix_of` _add_footer_tag content row.
Proof.
  unfold _add_footer_tag. destruct (first_non_empty row); [by apply prefix_app_r | done].
Qed.

Ltac grow :=
  repeat first
    [ reflexivity
    | apply prefix_app_r
    | (etrans; [|apply flush_table_prefix])
    | (etrans; [|apply flush_paragraph_prefix])
    | (etrans; [|apply add_title_tag_prefix])
    | (etrans; [|apply add_section_header_tag_prefix])
    | (etrans; [|apply add_footer_tag_prefix]) ].

Lemma finish_previous_prefix c last b :
  b.1.1 `prefix_of` (finish_previous c last b).1.1.
Proof.
  destruct b as [[content rows] lines]. unfold finish_previous.
  split_ifs; simpl; grow.
Qed.

Lemma place_image_prefix img_tag c last b :
  b.1.1 `prefix_of` (place_image img_tag c last b).1.1.
Proof.
  destruct b as [[content rows] lines]. unfold place_image.
  destruct img_tag; split_ifs; simpl; grow.
Qed.

Lemma handle_row_prefix timg c last row b :
  b.1.1 `prefix_of` (handle_row timg c last row b).1.1.
Proof.
  destruct b as [[content rows] lines]. unfold handle_row.
  destruct c, timg; try destruct (line_text_of row); split_ifs; simpl; grow.
Qed.

Lemma step_prefix sd timg st row :
  content_elements st `prefix_of` content_elements (step sd timg st row).
Proof.
  pose proof (step_buffers sd timg st row) as H. cbv zeta in H.
  change (content_elements (step sd timg st row))
    with (buffers_of (step sd timg st row)).1.1.
  rewrite H. etrans; [|apply handle_row_prefix].
  etrans; [|apply place_image_prefix]. apply (finish_previous_prefix _ _ (buffers_of st)).
Qed.

Lemma run_prefix sd timg rows st :
  content_elements st `prefix_of` content_elements (run sd timg st rows).
Proof.
  revert st. induction rows as [|r rows IH]; intros st; simpl; [done|].
  etrans; [apply step_prefix | apply IH].
Qed.

(** X17.  What [convert] has put on the page stays there: the page after
    some rows is a prefix of the page after more rows, and the page after
    the last row is a prefix of the final page. *)
Theorem X17_page_only_grows (sd : ExcelSheetData.t) (pre more : list RowData.t) :
  content_elements (state_after sd pre)
    `prefix_of` content_elements (state_after sd (pre ++ more))
  ∧ content_elements (state_after sd (ExcelSheetData.rows sd)) `prefix_of` convert sd.
Proof.
  split.
  - unfold state_after, run. rewrite foldl_app. apply run_prefix.
  - rewrite convert_finish. unfold finish.
    etrans; [apply flush_table_prefix | apply flush_paragraph_prefix].
Qed.

(** ** One title *)

Lemma h1_count_app c1 c2 : h1_count (c1 ++ c2) = (h1_count c1 + h1_count c2)%nat.
Proof. unfold h1_count. by rewrite filter_app, length_app. Qed.

Lemma h1_count_other e : is_h1 e = false → h1_count [e] = 0%nat.
Proof.
  intros H. unfold h1_count. rewrite filter_cons, decide_False; [done|].
  rewrite H. discriminate.
Qed.

Lemma h1_count_h1 e : is_h1 e = true → h1_count [e] = 1%nat.
Proof. intros H. unfold h1_count. by rewrite filter_cons, decide_True. Qed.

Lemma h1_count_flush_table content rows :
  h1_count (_flush_table content rows) = h1_count content.
Proof.
  unfold _flush_table. destruct rows; [done|].
  destruct (_create_table_element _); [|done].
  rewrite h1_count_app, h1_count_other by done. lia.
Qed.

Lemma h1_count_flush_paragraph content lines :
  h1_count (_flush_paragraph content lines) = h1_count content.
Proof.
  unfold _flush_paragraph. destruct lines; [done|].
  destruct (Py.strip _); [done|]. rewrite h1_count_app, h1_count_other by done. lia.
Qed.

Lemma h1_count_add_section_header content row :
  h1_count (_add_section_header_tag content row) = h1_count content.
Proof.
  unfold _add_section_header_tag. destruct (first_non_empty row); [|done].
  rewrite h1_count_app, h1_count_other by done. lia.
Qed.

Lemma h1_count_add_footer content row :
  h1_count (_add_footer_tag content row) = h1_count content.
Proof.
  unfold _add_footer_tag. destruct (first_non_empty row); [|done].
  rewrite h1_count_app, h1_count_other by done. lia.
Qed.

Lemma h1_count_add_title content row :
  h1_count (_add_title_tag content row)
  = (h1_count content + match first_non_empty row with Some _ => 1 | None => 0 end)%nat.
Proof.
  unfold _add_title_tag. destruct (first_non_empty row); [|lia].
  by rewrite h1_count_app, h1_count_h1.
Qed.

Lemma h1_count_image t : is_Some (tag_src t) → h1_count [image_element t] = 0%nat.
Proof. intros [src H]. apply h1_count_other. by destruct t. Qed.

Ltac push_h1 :=
  repeat first
    [ rewrite h1_count_app | rewrite h1_count_flush_table
    | rewrite h1_count_flush_paragraph | rewrite h1_count_add_section_header
    | rewrite h1_count_add_footer | rewrite h1_count_add_title
    | rewrite h1_count_image by done ].

Lemma h1_count_finish_previous c last b :
  h1_count (finish_previous c last b).1.1 = h1_count b.1.1.
Proof.
  destruct b as [[content rows] lines]. unfold finish_previous.
  split_ifs; simpl; by push_h1.
Qed.

Lemma h1_count_place_image img_tag c last b :
  is_image img_tag →
  h1_count (place_image img_tag c last b).1.1 = h1_count b.1.1.
Proof.
  destruct b as [[content rows] lines]. intros Hi. unfold place_image.
  destruct img_tag as [t|]; [|done]. specialize (Hi t eq_refl).
  split_ifs; cbn [fst]; push_h1; lia.
Qed.

Lemma h1_count_handle_row timg c last row b :
  is_image timg →
  h1_count (handle_row timg c last row b).1.1
  = (h1_count b.1.1
     + if decide (c = Label.title) then (match first_non_empty row with Some _ => 1 | None => 0 end) else 0)%nat.
Proof.
  destruct b as [[content rows] lines]. intros Hi. unfold handle_row.
  destruct c; simpl; try (split_ifs; simpl; push_h1; lia).
  - destruct timg as [t|]; [specialize (Hi t eq_refl)|]; push_h1; lia.
  - destruct (line_text_of row); simpl; lia.
Qed.

Lemma first_non_empty_of_classified sd row prev :
  _classify_row sd row prev ≠ Label.empty → is_Some (first_non_empty row).
Proof.
  intros Hc. rewrite classify_empty_iff in Hc.
  destruct (RowData.get_non_empty_cells true row) as [|c cs] eqn:Hne; [done|].
  assert (c ∈ RowData.non_empty_from true (RowData.cells row)) as Hin
    by (unfold RowData.get_non_empty_cells in Hne; rewrite Hne; by left).
  apply non_empty_from_elem in Hin as (Hin & Hemp & _).
  unfold first_non_empty. destruct (find _ _) eqn:E; [eauto|].
  apply list_elem_of_In in Hin. eapply find_none in E; [|done].
  rewrite Hemp in E. discriminate.
Qed.

Lemma h1_count_step sd timg st row :
  is_image timg →
  h1_count (content_elements (step sd timg st row))
  = (h1_count (content_elements st)
     + if decide (_classify_row sd row (last_classification st) = Label.title)
       then 1 else 0)%nat.
Proof.
  intros Hi. pose proof (step_buffers sd timg st row) as H. cbv zeta in H.
  change (content_elements (step sd timg st row))
    with (buffers_of (step sd timg st row)).1.1.
  rewrite H, h1_count_handle_row by done.
  rewrite h1_count_place_image by apply row_image_is_image.
  rewrite h1_count_finish_previous. cbn [buffers_of fst]. f_equal.
  destruct (decide _) as [Hc|]; [|done].
  destruct (first_non_empty_of_classified sd row (last_classification st)) as [x ->];
    [|done].
  rewrite Hc. discriminate.
Qed.

Lemma h1_count_run sd timg rows st :
  is_image timg →
  (h1_count (content_elements st) = if decide (Label.title ∈ tags_of st) then 1 else 0)%nat →
  (last_classification st = None → Label.title ∉ tags_of st) →
  (h1_count (content_elements (run sd timg st rows))
   = if decide (Label.title ∈ tags_of (run sd timg st rows)) then 1 else 0)%nat.
Proof.
  intros Hi. revert st. induction rows as [|r rows IH]; intros st Hn Hl; simpl; [done|].
  assert (_classify_row sd r (last_classification st) = Label.title →
          Label.title ∉ tags_of st) as Hfresh.
  { intros Hc. apply Hl. by eapply classify_title_prev. }
  apply IH.
  - rewrite h1_count_step, tags_of_step, Hn by done.
    destruct (decide (_classify_row sd r (last_classification st) = Label.title))
      as [Hc|Hc].
    + rewrite decide_False by by apply Hfresh.
      rewrite decide_True; [done|]. apply elem_of_app. right. rewrite Hc. by left.
    + destruct (decide (Label.title ∈ tags_of st)) as [Hin|Hnin].
      * rewrite decide_True; [lia|]. apply elem_of_app. by left.
      * rewrite decide_False; [lia|]. intros Hin. apply elem_of_app in Hin as [?|Hin];
          [done|]. apply list_elem_of_singleton in Hin. congruence.
  - rewrite step_last_classification, tags_of_step. unfold update_last.
    case_bool_decide as Hc; [|discriminate]. intros Hlast Hin.
    apply elem_of_app in Hin as [Hin|Hin]; [by apply Hl|].
    apply list_elem_of_singleton in Hin. congruence.
Qed.

(** X18.  The page has at most one [<h1>], and it has one exactly when
    some row is classified Title. *)
Theorem X18_at_most_one_h1 (sd : ExcelSheetData.t) :
  (h1_count (convert sd) ≤ 1)%nat
  ∧ (h1_count (convert sd) = 1%nat
     ↔ Label.title ∈ tags_of (state_after sd (ExcelSheetData.rows sd))).
Proof.
  assert (h1_count (convert sd)
          = if decide (Label.title ∈ tags_of (state_after sd (ExcelSheetData.rows sd)))
            then 1 else 0)%nat as ->.
  { rewrite convert_finish. unfold finish.
    rewrite h1_count_flush_paragraph, h1_count_flush_table. unfold state_after.
    destruct (start_of_fresh sd) as (Hl & Hlog & Hc & _).
    apply h1_count_run; [apply start_is_image | |].
    - unfold tags_of. rewrite Hc, Hlog. cbn [map].
      destruct (decide (Label.title ∈ [])) as [H|H]; [by apply elem_of_nil in H | done].
    - intros _. unfold tags_of. rewrite Hlog. apply not_elem_of_nil. }
  destruct (decide _); split; try lia; split; try done; lia.
Qed.

(** ** No element from an Empty row *)

Lemma held_flush_table content rows lines r :
  r ∈ held (_flush_table content rows, [], lines) → r ∈ held (content, rows, lines).
Proof.
  unfold held, _flush_table. cbn [fst snd]. destruct rows as [|r0 rows]; [done|].
  destruct (_create_table_element _).
  - rewrite sources_app, sources_singleton. cbn [source app].
    rewrite <- app_assoc. done.
  - rewrite !elem_of_app. intros [?|[H|?]]; auto. by apply elem_of_nil in H.
Qed.

Lemma held_flush_paragraph content rows lines r :
  r ∈ held (_flush_paragraph content lines, rows, []) → r ∈ held (content, rows, lines).
Proof.
  unfold held, _flush_paragraph. cbn [fst snd]. destruct lines as [|l lines]; [done|].
  destruct (Py.strip _).
  - rewrite !elem_of_app. intros [?|[?|H]]; auto. by apply elem_of_nil in H.
  - rewrite sources_app, sources_singleton. cbn [source].
    rewrite !elem_of_app. intros [[?|?]|[?|H]]; auto. by apply elem_of_nil in H.
Qed.

Lemma held_add_image content rows lines t r :
  r ∈ held (content ++ [image_element t], rows, lines) → r ∈ held (content, rows, lines).
Proof.
  unfold held. cbn [fst snd]. rewrite sources_app, sources_singleton. cbn [source].
  by rewrite app_nil_r.
Qed.

Lemma held_finish_previous c last b r :
  r ∈ held (finish_previous c last b) → r ∈ held b.
Proof.
  destruct b as [[content rows] lines]. unfold finish_previous.
  split_ifs; intros H;
    repeat first [ apply held_flush_table in H | apply held_flush_paragraph in H ];
    done.
Qed.

Lemma held_place_image img_tag c last b r :
  r ∈ held (place_image img_tag c last b) → r ∈ held b.
Proof.
  destruct b as [[content rows] lines]. unfold place_image.
  destruct img_tag; split_ifs; intros H;
    repeat first [ apply held_add_image in H | apply held_flush_paragraph in H ];
    done.
Qed.

Lemma held_closed content extra r :
  r ∈ held (content ++ extra, [], []) → r ∈ held (content, [], []) ∨ r ∈ sources extra.
Proof.
  unfold held. cbn [fst snd map]. rewrite sources_app, !app_nil_r.
  by rewrite elem_of_app.
Qed.

Lemma held_both_flushed content rows lines r :
  r ∈ held (_flush_table (_flush_paragraph content lines) rows, [], []) →
  r ∈ held (content, rows, lines).
Proof.
  intros H. apply held_flush_table in H.
  apply (held_flush_paragraph content rows lines).
  unfold held in *. cbn [fst snd map] in *. by rewrite app_nil_r in *.
Qed.

(** A row held after the third phase was held before it, or is the row
    being processed, which is then not Empty. *)
Lemma held_handle_row timg c last row b r :
  c ≠ Label.start →
  r ∈ held (handle_row timg c last row b) →
  r ∈ held b ∨ (r = row ∧ c ≠ Label.empty).
Proof.
  destruct b as [[content rows] lines]. intros Hstart. unfold handle_row.
  destruct c; try done.
  - (* title *)
    destruct (add_title_tag_plain (_flush_table (_flush_paragraph content lines) rows) row)
      as (extra & -> & [_ Hs] & _).
    intros H. assert (r ∈ held (_flush_table (_flush_paragraph content lines) rows, [], [])
                      ∨ r ∈ sources extra) as [H'|H'].
    { destruct timg as [t|]; [apply held_add_image in H|]; by apply held_closed. }
    + left. by apply held_both_flushed.
    + right. split; [|done]. eapply sublist_subseteq in H'; [|exact Hs].
      by apply list_elem_of_singleton in H'.
  - (* footer *)
    destruct (add_footer_tag_plain (_flush_table (_flush_paragraph content lines) rows) row)
      as (extra & -> & [_ Hs]).
    intros H. apply held_closed in H as [H'|H'].
    + left. by apply held_both_flushed.
    + right. split; [|done]. eapply sublist_subseteq in H'; [|exact Hs].
      by apply list_elem_of_singleton in H'.
  - (* section_header *)
    destruct (add_section_header_tag_plain
                (_flush_table (_flush_paragraph content lines) rows) row)
      as (extra & -> & [_ Hs]).
    intros H. apply held_closed in H as [H'|H'].
    + left. by apply held_both_flushed.
    + right. split; [|done]. eapply sublist_subseteq in H'; [|exact Hs].
      by apply list_elem_of_singleton in H'.
  - (* table_row *)
    unfold held. cbn [fst snd]. rewrite !elem_of_app, list_elem_of_singleton.
    intros [?|[[?| ->]|?]]; auto.
  - (* paragraph_line *)
    destruct (line_text_of row); [by left|].
    unfold held. cbn [fst snd]. rewrite map_app, !elem_of_app. cbn [map fst].
    rewrite list_elem_of_singleton. intros [?|[?|[?| ->]]]; auto.
  - (* empty *)
    intros H. left. unfold is_label in H. revert H.
    split_ifs; intros H;
      repeat first [ apply held_flush_paragraph in H | apply held_flush_table in H ];
      done.
Qed.

Lemma classified_mono done tags r row c :
  classified done tags r → classified (done ++ [row]) (tags ++ [c]) r.
Proof.
  intros (i & t & Hd & Ht & Hne). exists i, t.
  split; [by apply lookup_app_l_Some|]. split; [by apply lookup_app_l_Some | done].
Qed.

Lemma classified_step sd timg done st row :
  length (tags_of st) = length done →
  Forall (classified done (tags_of st)) (held (buffers_of st)) →
  Forall (classified (done ++ [row]) (tags_of (step sd timg st row)))
         (held (buffers_of (step sd timg st row))).
Proof.
  intros Hlen Hall. pose proof (step_buffers sd timg st row) as Hb. cbv zeta in Hb.
  rewrite Hb, tags_of_step. apply Forall_forall. intros r Hr.
  apply held_handle_row in Hr as [Hr|[-> Hne]]; [| |apply classify_not_start].
  - apply held_place_image, held_finish_previous in Hr.
    apply classified_mono. rewrite Forall_forall in Hall. by apply Hall.
  - exists (length done), (_classify_row sd row (last_classification st)).
    split; [by apply list_lookup_middle|]. split; [|done].
    rewrite <- Hlen. by apply list_lookup_middle.
Qed.

Lemma classified_run sd timg rows done st :
  length (tags_of st) = length done →
  Forall (classified done (tags_of st)) (held (buffers_of st)) →
  Forall (classified (done ++ rows) (tags_of (run sd timg st rows)))
         (held (buffers_of (run sd timg st rows))).
Proof.
  revert done st. induction rows as [|r rows IH]; intros done st Hlen Hall; simpl.
  - by rewrite app_nil_r.
  - rewrite (cons_middle r done rows), app_assoc. apply IH.
    + rewrite tags_of_step, !length_app. simpl. lia.
    + by apply classified_step.
Qed.

(** X19.  Every row a page element is built from is a row of the sheet
    that was given a classification other than Empty: an Empty row goes
    into no element. *)
Theorem X19_no_element_from_an_empty_row (sd : ExcelSheetData.t) :
  Forall (classified (ExcelSheetData.rows sd)
            (tags_of (state_after sd (ExcelSheetData.rows sd))))
         (sources (convert sd)).
Proof.
  destruct (start_of_fresh sd) as (_ & Hlog & Hc & Hr & Hp).
  assert (Forall (classified [] (tags_of (start_of sd).2))
                 (held (buffers_of (start_of sd).2))) as H0.
  { unfold held, buffers_of. cbn [fst snd]. rewrite Hc, Hr, Hp. constructor. }
  assert (length (tags_of (start_of sd).2) = length (@nil RowData.t)) as Hlen.
  { unfold tags_of. by rewrite Hlog. }
  pose proof (classified_run sd (start_of sd).1 (ExcelSheetData.rows sd) []
                (start_of sd).2 Hlen H0) as H.
  simpl app in H. fold (state_after sd (ExcelSheetData.rows sd)) in H.
  rewrite convert_finish. apply Forall_forall. intros r Hr'.
  rewrite Forall_forall in H. apply H. unfold finish in Hr'.
  apply (held_flush_table _ _ _ r), (held_flush_paragraph _ [] _ r).
  unfold held. cbn [fst snd map]. by rewrite !app_nil_r.
Qed.

(** ** One element per Title, SectionHeader and Footer row *)

Lemma singles_app c1 c2 : singles (c1 ++ c2) = singles c1 ++ singles c2.
Proof. apply omap_app. Qed.

Lemma singles_flush_table content rows :
  singles (_flush_table content rows) = singles content.
Proof.
  unfold _flush_table. destruct rows; [done|].
  destruct (_create_table_element _); [|done].
  rewrite singles_app. simpl. by rewrite app_nil_r.
Qed.

Lemma singles_flush_paragraph content lines :
  singles (_flush_paragraph content lines) = singles content.
Proof.
  unfold _flush_paragraph. destruct lines; [done|].
  destruct (Py.strip _); [done|]. rewrite singles_app. simpl. by rewrite app_nil_r.
Qed.

Lemma singles_image t : is_Some (tag_src t) → singles [image_element t] = [].
Proof. intros [src H]. by destruct t. Qed.

Lemma singles_add_title content row :
  is_Some (first_non_empty row) →
  singles (_add_title_tag content row) = singles content ++ [(Label.title, [row])].
Proof. intros [c Hc]. unfold _add_title_tag. rewrite Hc. by rewrite singles_app. Qed.

Lemma singles_add_section_header content row :
  is_Some (first_non_empty row) →
  singles (_add_section_header_tag content row)
  = singles content ++ [(Label.section_header, [row])].
Proof.
  intros [c Hc]. unfold _add_section_header_tag. rewrite Hc. by rewrite singles_app.
Qed.

Lemma singles_add_footer content row :
  is_Some (first_non_empty row) →
  singles (_add_footer_tag content row) = singles content ++ [(Label.footer, [row])].
Proof. intros [c Hc]. unfold _add_footer_tag. rewrite Hc. by rewrite singles_app. Qed.

Ltac push_singles :=
  repeat first
    [ rewrite singles_app | rewrite singles_flush_table
    | rewrite singles_flush_paragraph | rewrite singles_image by done
    | rewrite singles_add_title by done
    | rewrite singles_add_section_header by done
    | rewrite singles_add_footer by done
    | rewrite app_nil_r ].

Lemma singles_finish_previous c last b :
  singles (finish_previous c last b).1.1 = singles b.1.1.
Proof.
  destruct b as [[content rows] lines]. unfold finish_previous.
  split_ifs; cbn [fst]; by push_singles.
Qed.

Lemma singles_place_image img_tag c last b :
  is_image img_tag →
  singles (place_image img_tag c last b).1.1 = singles b.1.1.
Proof.
  destruct b as [[content rows] lines]. intros Hi. unfold place_image.
  destruct img_tag as [t|]; [|done]. specialize (Hi t eq_refl).
  split_ifs; cbn [fst]; by push_singles.
Qed.

Lemma singles_handle_row timg c last row b :
  is_image timg → (c ≠ Label.empty → is_Some (first_non_empty row)) →
  singles (handle_row timg c last row b).1.1 = singles b.1.1 ++ single_row row c.
Proof.
  destruct b as [[content rows] lines]. intros Hi Hf. unfold handle_row, single_row.
  destruct c; cbn [is_single_label fst];
    try specialize (Hf ltac:(discriminate));
    try (split_ifs; cbn [fst]; by push_singles).
  - destruct timg as [t|]; [specialize (Hi t eq_refl)|]; by push_singles.
  - destruct (line_text_of row); cbn [fst]; by push_singles.
Qed.

Lemma singles_step sd timg st row :
  is_image timg →
  singles (content_elements (step sd timg st row))
  = singles (content_elements st)
    ++ single_row row (_classify_row sd row (last_classification st)).
Proof.
  intros Hi. pose proof (step_buffers sd timg st row) as H. cbv zeta in H.
  change (content_elements (step sd timg st row))
    with (buffers_of (step sd timg st row)).1.1.
  rewrite H, singles_handle_row;
    [|done|apply first_non_empty_of_classified].
  rewrite singles_place_image by apply row_image_is_image.
  by rewrite singles_finish_previous.
Qed.

Lemma single_rows_snoc done tags row c :
  length done = length tags →
  single_rows (done ++ [row]) (tags ++ [c]) = single_rows done tags ++ single_row row c.
Proof.
  intros Hlen. unfold single_rows. rewrite zip_with_app by done.
  rewrite concat_app. simpl. by rewrite app_nil_r.
Qed.

Lemma singles_run sd timg rows done st :
  is_image timg → length done = length (tags_of st) →
  singles (content_elements st) = single_rows done (tags_of st) →
  singles (content_elements (run sd timg st rows))
  = single_rows (done ++ rows) (tags_of (run sd timg st rows)).
Proof.
  intros Hi. revert done st. induction rows as [|r rows IH]; intros done st Hlen Hs; simpl.
  - by rewrite app_nil_r.
  - rewrite (cons_middle r done rows), app_assoc. apply IH.
    + rewrite tags_of_step, !length_app. simpl. lia.
    + by rewrite singles_step, tags_of_step, single_rows_snoc, Hs.
Qed.

(** X20.  Every row classified Title, SectionHeader or Footer gives
    exactly one element of its kind, an [<h1>], an [<h2>] or the footer
    [<div>], built from that row alone; these elements stand on the page in
    the order of their rows, and the page has no other element of these
    kinds. *)
Theorem X20_one_element_per_single_row (sd : ExcelSheetData.t) :
  singles (convert sd)
  = single_rows (ExcelSheetData.rows sd)
      (tags_of (state_after sd (ExcelSheetData.rows sd))).
Proof.
  rewrite convert_finish. unfold finish.
  rewrite singles_flush_paragraph, singles_flush_table.
  destruct (start_of_fresh sd) as (_ & Hlog & Hc & _).
  apply (singles_run sd _ (ExcelSheetData.rows sd) []); [apply start_is_image | |].
  - unfold tags_of. by rewrite Hlog.
  - unfold tags_of. by rewrite Hlog, Hc.
Qed.

End Page.

Lemma X16_title_image_needs_a_title_witness :
  storage_src (Py.lit "a.png") ∈ image_srcs (HtmlConverter.convert sheet_with_untitled_image)
  ↔ Label.title
    ∈ tags_of (state_after sheet_with_untitled_image
                 (ExcelSheetData.rows sheet_with_untitled_image)).
Proof.
  apply (X16_title_image_needs_a_title sheet_with_untitled_image
           (storage_src (Py.lit "a.png"))).
  vm_compute. reflexivity.
Defined.

Lemma X21_row_renders_visible_cells_witness :
  let row := Fixture.row (ExcelSheetData.init example_merge_sheet []) 2 in
  (HtmlConverter.thead_row 2 row ∅).1
  = map (HtmlConverter.make_cell HtmlConverter.th false)
        (filter (rendered 2 ∅) (RowData.cells row))
  ∧ (HtmlConverter.tbody_row 2 row ∅).1
    = render_body (filter (rendered 2 ∅) (RowData.cells row)).
Proof.
  apply (X21_row_renders_visible_cells 2
           (Fixture.row (ExcelSheetData.init example_merge_sheet []) 2) ∅).
  vm_compute. repeat constructor; discriminate.
Defined.
